(** * payoutd: the command router and the poll-event translators

    A shallow embedding of [payoutd.c]: the daemon that sits between a
    redis message bus and two cash devices (a coin hopper and a note
    validator) speaking SSP6 on a shared serial line.

    The embedding follows the C source function by function and keeps its
    names.  What the daemon links against but does not contain (the jansson
    JSON parser, libuuid, the vendor's SSP library and headers, the devices
    themselves) appears as an interface, [Linked], and as oracles in the
    state, [World].  Quoted text: a C literal written with escaped double
    quotes is written here with a backtick in place of each double quote
    and passed through [jq], which puts the double quotes back. *)

From Stdlib Require Import ZArith QArith List String Ascii Bool Lia DecimalString.
Import ListNotations.
Set Warnings "-register-all".
Local Open Scope string_scope.
Local Open Scope Z_scope.

(** ** C strings *)

Definition dquote : ascii := ascii_of_nat 34.

(** [jq s] is [s] with every backtick replaced by a double quote. *)
Fixpoint jq (s : string) : string :=
  match s with
  | EmptyString => EmptyString
  | String c r => String (if Ascii.eqb c "`" then dquote else c) (jq r)
  end.

(** [strstr haystack needle != NULL]: [needle] occurs in [haystack]. *)
Fixpoint strstr (haystack needle : string) : bool :=
  String.prefix needle haystack
  || match haystack with
     | EmptyString => false
     | String _ rest => strstr rest needle
     end.

(** [strcmp a b == 0]. *)
Definition streq (a b : string) : bool := String.eqb a b.

(** ** C integers

    Linux on a 64-bit machine: [unsigned char] has 8 bits, [int] and
    [unsigned int] 32, [long] and [unsigned long] 64.  A value of an
    unsigned type is kept as the [Z] in its range, and every operation
    that may leave the range is followed by the reduction C performs. *)

Module C.

Definition uchar (z : Z) : Z := z mod 2 ^ 8.
Definition uint (z : Z) : Z := z mod 2 ^ 32.
Definition ulong (z : Z) : Z := z mod 2 ^ 64.

(** Conversion to a signed type of [bits] bits (two's complement). *)
Definition signed (bits : Z) (z : Z) : Z :=
  let m := z mod 2 ^ bits in
  if m <? 2 ^ (bits - 1) then m else m - 2 ^ bits.

Definition int (z : Z) : Z := signed 32 z.
Definition long (z : Z) : Z := signed 64 z.

(** [(int) d] for a double [d]: the fraction is discarded; the conversion
    is undefined when the truncated value does not fit an [int]. *)
Definition int_of_double (d : Q) : option Z :=
  let t := Z.quot (Qnum d) (Zpos (Qden d)) in
  if (- 2 ^ 31 <=? t) && (t <? 2 ^ 31) then Some t else None.

(** [a[i]] for an array holding the elements of [a]: undefined outside
    the array.  No object is larger than [PTRDIFF_MAX] bytes, which is
    [2 ^ 63 - 1], so an array has at most that many elements and none
    has an index of [2 ^ 63 - 1] or more. *)
Definition index {A : Type} (a : list A) (i : Z) : option A :=
  if (0 <=? i) && (i <? 2 ^ 63 - 1) && (i <? Z.of_nat (List.length a))
  then nth_error a (Z.to_nat i)
  else None.

(** A byte as a character, and a buffer read as a NUL-terminated string. *)
Definition char_of_byte (b : Z) : ascii := ascii_of_nat (Z.to_nat (uchar b)).

Fixpoint string_of_buffer (bytes : list Z) : string :=
  match bytes with
  | [] => EmptyString
  | b :: rest => if uchar b =? 0 then EmptyString
                 else String (char_of_byte b) (string_of_buffer rest)
  end.

Definition buffer_of_string (s : string) : list Z :=
  map (fun c => Z.of_nat (nat_of_ascii c)) (list_ascii_of_string s).

End C.

(** ** printf

    The directives the daemon's published formats use: [%s], [%d], [%ld]
    and [%02X].  Arguments beyond those the format consumes are ignored,
    as in C; a directive with no argument left, or with one of the wrong
    kind, is undefined.  A NULL pointer under [%s] prints as glibc prints
    it. *)

Module Printf.

Inductive arg : Type :=
| Str (s : string)
| Null
| Int (z : Z).

Definition decimal (z : Z) : string := NilZero.string_of_int (Z.to_int z).

Definition hex_digit (d : Z) : ascii :=
  if d <? 10 then ascii_of_nat (Z.to_nat (48 + d)) else ascii_of_nat (Z.to_nat (55 + d)).

Fixpoint hex_digits (fuel : nat) (z : Z) (acc : string) : string :=
  match fuel with
  | O => acc
  | S fuel' =>
      let acc' := String (hex_digit (z mod 16)) acc in
      if z <? 16 then acc' else hex_digits fuel' (z / 16) acc'
  end.

(** [%02X] of an unsigned value: upper-case hexadecimal, at least two digits. *)
Definition hex02 (z : Z) : string :=
  let u := C.uint z in
  if u <? 16 then String "0" (hex_digits 1 u EmptyString)
  else hex_digits 8 u EmptyString.

Definition prepend (s : string) (rest : option string) : option string :=
  match rest with
  | Some r => Some (s ++ r)
  | None => None
  end.

Fixpoint vasprintf (format : string) (args : list arg) : option string :=
  match format with
  | EmptyString => Some EmptyString
  | String "%" (String "s" rest) =>
      match args with
      | Str s :: args' => prepend s (vasprintf rest args')
      | Null :: args' => prepend "(null)" (vasprintf rest args')
      | _ => None
      end
  | String "%" (String "d" rest) =>
      match args with
      | Int z :: args' => prepend (decimal (C.int z)) (vasprintf rest args')
      | _ => None
      end
  | String "%" (String "l" (String "d" rest)) =>
      match args with
      | Int z :: args' => prepend (decimal (C.long z)) (vasprintf rest args')
      | _ => None
      end
  | String "%" (String "0" (String "2" (String "X" rest))) =>
      match args with
      | Int z :: args' => prepend (hex02 z) (vasprintf rest args')
      | _ => None
      end
  | String "%" _ => None
  | String c rest => prepend (String c EmptyString) (vasprintf rest args)
  end.

End Printf.

(** ** jansson

    The JSON values [json_loads] builds and the accessors the daemon calls
    on them.  A pointer that may be NULL is an [option]. *)

Module Jansson.

Inductive json : Type :=
| JSON_NULL
| JSON_TRUE
| JSON_FALSE
| JSON_INTEGER (z : Z)
| JSON_REAL (q : Q)
| JSON_STRING (s : string)
| JSON_ARRAY (items : list json)
| JSON_OBJECT (members : list (string * json)).

Record json_error_t : Type := { text : string; line : Z }.

Fixpoint lookup (key : string) (members : list (string * json)) : option json :=
  match members with
  | [] => None
  | (k, v) :: rest => if String.eqb k key then Some v else lookup key rest
  end.

(** [json_object_get]: NULL when the value is no object or has no such key. *)
Definition json_object_get (j : json) (key : string) : option json :=
  match j with
  | JSON_OBJECT members => lookup key members
  | _ => None
  end.

Definition json_is_string (j : option json) : bool :=
  match j with
  | Some (JSON_STRING _) => true
  | _ => false
  end.

Definition json_is_number (j : option json) : bool :=
  match j with
  | Some (JSON_INTEGER _) | Some (JSON_REAL _) => true
  | _ => false
  end.

(** [json_string_value]: NULL for anything but a string. *)
Definition json_string_value (j : option json) : option string :=
  match j with
  | Some (JSON_STRING s) => Some s
  | _ => None
  end.

(** [json_number_value]: the number as a double, [0.0] for anything else. *)
Definition json_number_value (j : option json) : Q :=
  match j with
  | Some (JSON_INTEGER z) => inject_Z z
  | Some (JSON_REAL q) => q
  | _ => 0%Q
  end.

(** *** A reader for compact JSON text

    [loads] reads the JSON the examples of this file are written in:
    objects (a repeated key keeps its last value, as jansson's objects
    do), arrays, strings with the one-letter escapes, integers, decimal
    fractions and the three literals, with blanks between tokens.  It
    stands for [json_loads] in the examples only; the properties below
    hold for any parser.  Exponents and [\u] escapes are not read, and
    the error says nothing of jansson's own text. *)

Definition is_blank (c : ascii) : bool :=
  Ascii.eqb c " " || Ascii.eqb c (ascii_of_nat 9)
  || Ascii.eqb c (ascii_of_nat 10) || Ascii.eqb c (ascii_of_nat 13).

Fixpoint skip_blanks (s : string) : string :=
  match s with
  | String c rest => if is_blank c then skip_blanks rest else s
  | EmptyString => s
  end.

Definition unescape (c : ascii) : option ascii :=
  if Ascii.eqb c dquote then Some dquote
  else if Ascii.eqb c "\" then Some "\"%char
  else if Ascii.eqb c "/" then Some "/"%char
  else if Ascii.eqb c "b" then Some (ascii_of_nat 8)
  else if Ascii.eqb c "f" then Some (ascii_of_nat 12)
  else if Ascii.eqb c "n" then Some (ascii_of_nat 10)
  else if Ascii.eqb c "r" then Some (ascii_of_nat 13)
  else if Ascii.eqb c "t" then Some (ascii_of_nat 9)
  else None.

(** The text after an opening quote: the string's characters and what
    follows its closing quote. *)
Fixpoint read_string (s : string) : option (string * string) :=
  match s with
  | EmptyString => None
  | String c rest =>
      if Ascii.eqb c dquote then Some (EmptyString, rest)
      else if Ascii.eqb c "\" then
        match rest with
        | String e rest' =>
            match unescape e, read_string rest' with
            | Some ch, Some (t, after) => Some (String ch t, after)
            | _, _ => None
            end
        | EmptyString => None
        end
      else if (nat_of_ascii c <? 32)%nat then None
      else
        match read_string rest with
        | Some (t, after) => Some (String c t, after)
        | None => None
        end
  end.

Definition digit_value (c : ascii) : option Z :=
  let n := nat_of_ascii c in
  if ((48 <=? n) && (n <=? 57))%nat then Some (Z.of_nat n - 48) else None.

(** Leading digits of [s]: their value continuing [acc], how many there
    were, and the rest. *)
Fixpoint read_digits (s : string) (acc : Z) (count : nat) : Z * nat * string :=
  match s with
  | String c rest =>
      match digit_value c with
      | Some d => read_digits rest (10 * acc + d) (S count)
      | None => (acc, count, s)
      end
  | EmptyString => (acc, count, s)
  end.

Definition read_number (s : string) : option (json * string) :=
  let (negative, body) :=
    match s with
    | String "-" rest => (true, rest)
    | _ => (false, s)
    end in
  let sign := if negative then (-1) else 1 in
  match read_digits body 0 O with
  | (_, O, _) => None
  | (whole, _, String "." rest) =>
      match read_digits rest 0 O with
      | (_, O, _) => None
      | (_, _, String "e" _) | (_, _, String "E" _) => None
      | (part, places, after) =>
          Some (JSON_REAL ((sign * (whole * 10 ^ Z.of_nat places + part))
                           # Pos.of_nat (Nat.pow 10 places)), after)
      end
  | (_, _, String "e" _) | (_, _, String "E" _) => None
  | (whole, _, after) => Some (JSON_INTEGER (sign * whole), after)
  end.

Definition read_literal (word : string) (value : json) (s : string) : option (json * string) :=
  if String.prefix word s
  then Some (value, substring (String.length word) (String.length s - String.length word) s)
  else None.

(** [json_object_set]: a key already present takes the new value. *)
Fixpoint object_set (members : list (string * json)) (key : string) (value : json)
  : list (string * json) :=
  match members with
  | [] => [(key, value)]
  | (k, v) :: rest =>
      if String.eqb k key then (k, value) :: rest else (k, v) :: object_set rest key value
  end.

Fixpoint read_value (fuel : nat) (s : string) {struct fuel} : option (json * string) :=
  match fuel with
  | O => None
  | S fuel' =>
      match skip_blanks s with
      | EmptyString => None
      | String c rest =>
          if Ascii.eqb c "{" then
            match skip_blanks rest with
            | String "}" after => Some (JSON_OBJECT [], after)
            | members => read_members fuel' members []
            end
          else if Ascii.eqb c "[" then
            match skip_blanks rest with
            | String "]" after => Some (JSON_ARRAY [], after)
            | items => read_items fuel' items []
            end
          else if Ascii.eqb c dquote then
            match read_string rest with
            | Some (t, after) => Some (JSON_STRING t, after)
            | None => None
            end
          else if Ascii.eqb c "t" then read_literal "true" JSON_TRUE (String c rest)
          else if Ascii.eqb c "f" then read_literal "false" JSON_FALSE (String c rest)
          else if Ascii.eqb c "n" then read_literal "null" JSON_NULL (String c rest)
          else read_number (String c rest)
      end
  end
with read_members (fuel : nat) (s : string) (acc : list (string * json)) {struct fuel}
  : option (json * string) :=
  match fuel with
  | O => None
  | S fuel' =>
      match skip_blanks s with
      | EmptyString => None
      | String c rest =>
          if Ascii.eqb c dquote then
            match read_string rest with
            | Some (key, after_key) =>
                match skip_blanks after_key with
                | String ":" after_colon =>
                    match read_value fuel' after_colon with
                    | Some (value, after_value) =>
                        let acc' := object_set acc key value in
                        match skip_blanks after_value with
                        | String "," more => read_members fuel' more acc'
                        | String "}" after => Some (JSON_OBJECT acc', after)
                        | _ => None
                        end
                    | None => None
                    end
                | _ => None
                end
            | None => None
            end
          else None
      end
  end
with read_items (fuel : nat) (s : string) (acc : list json) {struct fuel}
  : option (json * string) :=
  match fuel with
  | O => None
  | S fuel' =>
      match read_value fuel' s with
      | Some (value, after_value) =>
          match skip_blanks after_value with
          | String "," more => read_items fuel' more (acc ++ [value])%list
          | String "]" after => Some (JSON_ARRAY (acc ++ [value])%list, after)
          | _ => None
          end
      | None => None
      end
  end.

Definition invalid : json_error_t := {| text := "invalid json"; line := 1 |}.

(** [json_loads text 0 &error]: the whole text must be one array or object. *)
Definition loads (message : string) : json + json_error_t :=
  match read_value (S (String.length message)) message with
  | Some (JSON_OBJECT members, after) =>
      match skip_blanks after with
      | EmptyString => inl (JSON_OBJECT members)
      | _ => inr invalid
      end
  | Some (JSON_ARRAY items, after) =>
      match skip_blanks after with
      | EmptyString => inl (JSON_ARRAY items)
      | _ => inr invalid
      end
  | _ => inr invalid
  end.

End Jansson.

Import Jansson.

(** ** The vendor's SSP types

    [ssp_defines.h] and [ssp_commands.h] are the vendor's and not part of
    the daemon's sources.  Their structures are kept with the fields the
    daemon reads or writes; their enumerations are inductive types, one
    constructor per constant the daemon names; the numbers behind the
    constants are fields of [Linked]. *)

(** Modelled from the spec: the enumeration [SSP_RESPONSE_ENUM] of the
    vendor's header, which is missing.  A response is the status byte a
    device answered with, [OK(0xF0)] among them, or the library's own
    value for no answer in time. *)
Inductive SSP_RESPONSE_ENUM : Type :=
| SSP_RESPONSE_TIMEOUT
| SSP_RESPONSE_STATUS (byte : Z).

Definition SSP_RESPONSE_OK : SSP_RESPONSE_ENUM := SSP_RESPONSE_STATUS 240.

(** [r == SSP_RESPONSE_OK]. *)
Definition is_ok (r : SSP_RESPONSE_ENUM) : bool :=
  match r with
  | SSP_RESPONSE_STATUS byte => byte =? 240
  | SSP_RESPONSE_TIMEOUT => false
  end.

Inductive SSP_POLL_EVENT : Type :=
| SSP_POLL_RESET
| SSP_POLL_READ
| SSP_POLL_CREDIT
| SSP_POLL_REJECTING
| SSP_POLL_REJECTED
| SSP_POLL_STACKING
| SSP_POLL_STORED
| SSP_POLL_STACKED
| SSP_POLL_SAFE_JAM
| SSP_POLL_UNSAFE_JAM
| SSP_POLL_DISABLED
| SSP_POLL_FRAUD_ATTEMPT
| SSP_POLL_STACKER_FULL
| SSP_POLL_CASH_BOX_REMOVED
| SSP_POLL_CASH_BOX_REPLACED
| SSP_POLL_CLEARED_FROM_FRONT
| SSP_POLL_CLEARED_INTO_CASHBOX
| SSP_POLL_CALIBRATION_FAIL
| SSP_POLL_DISPENSING
| SSP_POLL_DISPENSED
| SSP_POLL_FLOATING
| SSP_POLL_FLOATED
| SSP_POLL_CASHBOX_PAID
| SSP_POLL_JAMMED
| SSP_POLL_COIN_CREDIT
| SSP_POLL_EMPTY
| SSP_POLL_EMPTYING
| SSP_POLL_SMART_EMPTYING
| SSP_POLL_SMART_EMPTIED
| SSP_POLL_INCOMPLETE_PAYOUT
| SSP_POLL_INCOMPLETE_FLOAT
| SSP_POLL_OTHER (code : Z).

(** The sub-codes of a calibration failure. *)
Inductive SSP_CALIBRATION_ERROR : Type :=
| NO_FAILUE
| SENSOR_FLAP
| SENSOR_EXIT
| SENSOR_COIL1
| SENSOR_COIL2
| NOT_INITIALISED
| CHECKSUM_ERROR
| COMMAND_RECAL.

(** Modelled from the spec: the structure [SSP_POLL_EVENT6] of the vendor's
    header, which is missing; the spec's PollEvent is a code, two values
    and a currency of three ASCII characters.  The source prints [data1]
    and [data2] with [%ld] and [cc] with [%s]: the values are
    [unsigned long], [cc] is a NUL-terminated string. *)
Record SSP_POLL_EVENT6 : Type := {
  event : SSP_POLL_EVENT;
  data1 : Z;
  data2 : Z;
  cc : string
}.

(** [SSP_POLL_DATA6]: [event_count] is the length of [events]. *)
Record SSP_POLL_DATA6 : Type := { events : list SSP_POLL_EVENT6 }.

(** Modelled from the spec: the structure [SSP6_CHANNEL_DATA] of the
    vendor's header, which is missing; the spec's ChannelData entry is a
    value of 32 bits, unsigned, and a currency.  The source prints
    [value] with [%d]: it has the width of an [int]. *)
Record SSP6_CHANNEL_DATA : Type := {
  value : Z;
  channel_cc : string
}.

(** Modelled from the spec: the structure [SSP6_SETUP_REQUEST_DATA] of the
    vendor's header, which is missing, with the fields the source names.
    [ChannelData] holds the whole array, of at most 16 entries by the
    spec. *)
Record SSP6_SETUP_REQUEST_DATA : Type := {
  UnitType : Z;
  NumberOfChannels : Z;
  ChannelData : list SSP6_CHANNEL_DATA
}.

(** Modelled from the spec: the structure [SSP_COMMAND] of the vendor's
    header, which is missing: the address and the response buffer, whose
    first byte is the status.  The command buffer is write-only for the
    daemon and shows in the serial log instead. *)
Record SSP_COMMAND : Type := {
  SSPAddress : Z;
  ResponseData : list Z
}.

(** What the daemon is linked against. *)
Class Linked : Type := {
  (** jansson's [json_loads message 0 &error] *)
  json_loads : string -> json + json_error_t;
  (** command bytes and option bytes of the vendor's headers *)
  SSP_CMD_EMPTY : Z;
  SSP_CMD_FLOAT : Z;
  SSP_CMD_CHANNEL_SECURITY : Z;
  SSP6_OPTION_BYTE_DO : Z;
  SSP6_OPTION_BYTE_TEST : Z;
  (** the byte of each named poll event *)
  poll_code : SSP_POLL_EVENT -> Z;
  (** the calibration sub-code a value of [data1] equals, if any *)
  calibration_error_of : Z -> option SSP_CALIBRATION_ERROR
}.

Definition SSP_CMD_GET_FIRMWARE_VERSION : Z := 32.
Definition SSP_CMD_GET_DATASET_VERSION : Z := 33.
Definition SSP_CMD_GET_ALL_LEVELS : Z := 34.
Definition SSP_CMD_SET_DENOMINATION_LEVEL : Z := 52.
Definition SSP_CMD_LAST_REJECT_NOTE : Z := 23.
Definition SSP_CMD_SMART_EMPTY : Z := 82.

Definition CURRENCY : string := "EUR".

(** ** The daemon's state

    The structures of the source, with the fields the functions below
    read or write. *)

Record m_device : Type := {
  id : Z;
  name : string;
  key : Z;
  channelInhibits : Z;
  sspC : SSP_COMMAND;
  sspSetupReq : SSP6_SETUP_REQUEST_DATA
}.

Record m_metacash : Type := {
  quit : Z;
  deviceAvailable : Z;
  hopper : m_device;
  validator : m_device
}.

(** A [struct m_device *]: it points at one of the two devices of the one
    [m_metacash], so a write through it is a write to that structure. *)
Inductive device_ref : Type := Hopper | Validator.

(** A call into the vendor's library, as the serial line sees it. *)
Inductive ssp_call : Type :=
| ssp6_set_inhibits (lowchannels highchannels : Z)
| ssp6_enable
| ssp6_disable
| ssp6_payout (amount : Z) (currency : string) (option : Z)
| ssp6_host_protocol (version : Z)
| ssp6_run_calibration
| send_ssp_command (CommandData : list Z).

(** The daemon's memory and its surroundings.

    - [redis]: every [PUBLISH topic payload] so far, oldest first;
    - [serial]: every exchange started on the serial line so far, with
      the address it went to, oldest first;
    - [hardware]: what the devices will answer to the coming exchanges:
      the bytes that land in [ResponseData], the status byte first;
      [None], no byte at all, or nothing left stand for no answer within
      the timeout;
    - [uuid_source], [uuid_calls]: the identifiers libuuid hands out. *)
Record World : Type := {
  metacash : m_metacash;
  receivedSignal : Z;
  redis : list (string * string);
  serial : list (Z * ssp_call);
  hardware : list (option (list Z));
  uuid_source : nat -> string;
  uuid_calls : nat
}.

(** ** Running C: state, [exit] and undefined behaviour *)

Inductive outcome (A : Type) : Type :=
| Returned (result : A) (w : World)
| Exited (status : Z) (w : World)
| Undefined.

Arguments Returned {A} result w.
Arguments Exited {A} status w.
Arguments Undefined {A}.

Definition M (A : Type) : Type := World -> outcome A.

Definition ret {A : Type} (a : A) : M A := fun w => Returned a w.

Definition bind {A B : Type} (c : M A) (k : A -> M B) : M B :=
  fun w =>
    match c w with
    | Returned a w' => k a w'
    | Exited status w' => Exited status w'
    | Undefined => Undefined
    end.

Notation "x <- c1 ;; c2" := (bind c1 (fun x => c2))
  (at level 61, c1 at next level, right associativity).
Notation "c1 ;; c2" := (bind c1 (fun _ => c2))
  (at level 61, right associativity).

Definition get : M World := fun w => Returned w w.
Definition put (w : World) : M unit := fun _ => Returned tt w.
Definition undefined {A : Type} : M A := fun _ => Undefined.
Definition exit {A : Type} (status : Z) : M A := fun w => Exited status w.

(** A value that exists only when the C expression is defined. *)
Definition defined {A : Type} (v : option A) : M A :=
  match v with
  | Some a => ret a
  | None => undefined
  end.

Fixpoint for_each {A : Type} (l : list A) (body : A -> M unit) : M unit :=
  match l with
  | [] => ret tt
  | a :: rest => body a ;; for_each rest body
  end.

Definition device_of (m : m_metacash) (d : device_ref) : m_device :=
  match d with
  | Hopper => hopper m
  | Validator => validator m
  end.

Definition with_device (m : m_metacash) (d : device_ref) (dev : m_device) : m_metacash :=
  match d with
  | Hopper =>
      {| quit := quit m; deviceAvailable := deviceAvailable m;
         hopper := dev; validator := validator m |}
  | Validator =>
      {| quit := quit m; deviceAvailable := deviceAvailable m;
         hopper := hopper m; validator := dev |}
  end.

Definition with_metacash (w : World) (m : m_metacash) : World :=
  {| metacash := m; receivedSignal := receivedSignal w; redis := redis w;
     serial := serial w; hardware := hardware w;
     uuid_source := uuid_source w; uuid_calls := uuid_calls w |}.

(** [*device]. *)
Definition load (d : device_ref) : M m_device :=
  w <- get ;; ret (device_of (metacash w) d).

Definition store (d : device_ref) (dev : m_device) : M unit :=
  w <- get ;; put (with_metacash w (with_device (metacash w) d dev)).

(** [device->channelInhibits = inhibits]. *)
Definition set_channelInhibits (d : device_ref) (inhibits : Z) : M unit :=
  dev <- load d ;;
  store d {| id := id dev; name := name dev; key := key dev;
             channelInhibits := inhibits; sspC := sspC dev;
             sspSetupReq := sspSetupReq dev |}.

Definition set_ResponseData (d : device_ref) (data : list Z) : M unit :=
  dev <- load d ;;
  store d {| id := id dev; name := name dev; key := key dev;
             channelInhibits := channelInhibits dev;
             sspC := {| SSPAddress := SSPAddress (sspC dev); ResponseData := data |};
             sspSetupReq := sspSetupReq dev |}.

(** [sspC->ResponseData[i]]. *)
Definition response_byte (d : device_ref) (i : Z) : M Z :=
  dev <- load d ;; defined (C.index (ResponseData (sspC dev)) i).

(** [receivedSignal = signal]. *)
Definition set_receivedSignal (signal : Z) : M unit :=
  w <- get ;;
  put {| metacash := metacash w; receivedSignal := signal; redis := redis w;
         serial := serial w; hardware := hardware w;
         uuid_source := uuid_source w; uuid_calls := uuid_calls w |}.

(** [redisAsyncCommand(redisPublishCtx, NULL, NULL, "PUBLISH %s %s", topic, reply)]. *)
Definition publish (topic payload : string) : M unit :=
  w <- get ;;
  put {| metacash := metacash w; receivedSignal := receivedSignal w;
         redis := (redis w ++ [(topic, payload)])%list;
         serial := serial w; hardware := hardware w;
         uuid_source := uuid_source w; uuid_calls := uuid_calls w |}.

(** [uuid_generate_time_safe] and [uuid_unparse_lower]. *)
Definition uuid_generate : M string :=
  w <- get ;;
  put {| metacash := metacash w; receivedSignal := receivedSignal w; redis := redis w;
         serial := serial w; hardware := hardware w;
         uuid_source := uuid_source w; uuid_calls := S (uuid_calls w) |} ;;
  ret (uuid_source w (uuid_calls w)).

(** The bytes of a response laid over what the buffer held. *)
Definition overlay (data buffer : list Z) : list Z :=
  (data ++ skipn (List.length data) buffer)%list.

(** The status the next exchange will return. *)
Definition next_status (w : World) : SSP_RESPONSE_ENUM :=
  match hardware w with
  | Some (status :: _) :: _ => SSP_RESPONSE_STATUS status
  | _ => SSP_RESPONSE_TIMEOUT
  end.

(** The response buffer after the next exchange. *)
Definition next_ResponseData (w : World) (buffer : list Z) : list Z :=
  match hardware w with
  | Some (status :: data) :: _ => overlay (status :: data) buffer
  | _ => buffer
  end.

(** One exchange on the serial line, as every function of the vendor's
    library and every [mc_ssp_*] function performs it: the call is logged
    and the next answer of the hardware is taken; an answer lands in
    [ResponseData] and its first byte is the result, no answer is
    [SSP_RESPONSE_TIMEOUT] and leaves the buffer as it was. *)
Definition exchange (d : device_ref) (call : ssp_call) : M SSP_RESPONSE_ENUM :=
  w <- get ;;
  dev <- load d ;;
  put {| metacash := metacash w; receivedSignal := receivedSignal w; redis := redis w;
         serial := (serial w ++ [(SSPAddress (sspC dev), call)])%list;
         hardware := tl (hardware w);
         uuid_source := uuid_source w; uuid_calls := uuid_calls w |} ;;
  set_ResponseData d (next_ResponseData w (ResponseData (sspC dev))) ;;
  ret (next_status w).

Section Daemon.

Context {L : Linked}.

(** ** mc_ssp_*: the SSP commands the daemon encodes itself *)

(** [sspC->CommandData[++j] = v >> (i * 8)] for [i] from 0 below [n]. *)
Definition little_endian (n : nat) (v : Z) : list Z :=
  map (fun i => C.uchar (Z.shiftr v (Z.of_nat i * 8))) (seq 0 n).

(** [cc[0]], [cc[1]], [cc[2]]. *)
Definition currency_bytes (currency : string) : list Z :=
  firstn 3 (C.buffer_of_string currency).

(** [sspC->ResponseData[from]] up to [sspC->ResponseData[from + count - 1]]. *)
Fixpoint response_bytes (d : device_ref) (from : Z) (count : nat) : M (list Z) :=
  match count with
  | O => ret []
  | S count' =>
      b <- response_byte d from ;;
      rest <- response_bytes d (from + 1) count' ;;
      ret (b :: rest)
  end.

Definition mc_ssp_empty (d : device_ref) : M SSP_RESPONSE_ENUM :=
  exchange d (send_ssp_command [SSP_CMD_EMPTY]).

Definition mc_ssp_smart_empty (d : device_ref) : M SSP_RESPONSE_ENUM :=
  exchange d (send_ssp_command [SSP_CMD_SMART_EMPTY]).

(** The reason is written through the pointer unless the exchange timed out. *)
Definition mc_ssp_last_reject_note (d : device_ref) : M (SSP_RESPONSE_ENUM * option Z) :=
  resp <- exchange d (send_ssp_command [SSP_CMD_LAST_REJECT_NOTE]) ;;
  match resp with
  | SSP_RESPONSE_TIMEOUT => ret (resp, None)
  | _ => reason <- response_byte d 1 ;; ret (resp, Some reason)
  end.

Definition mc_ssp_set_denomination_level (d : device_ref) (amount level : Z) (currency : string)
  : M SSP_RESPONSE_ENUM :=
  exchange d (send_ssp_command
    ([SSP_CMD_SET_DENOMINATION_LEVEL]
     ++ little_endian 2 level ++ little_endian 4 amount ++ currency_bytes currency)%list).

Definition mc_ssp_float (d : device_ref) (amount : Z) (currency : string) (option : Z)
  : M SSP_RESPONSE_ENUM :=
  exchange d (send_ssp_command
    ([SSP_CMD_FLOAT]
     ++ little_endian 2 100 ++ little_endian 4 amount ++ currency_bytes currency
     ++ [C.uchar option])%list).

(** [n += ((unsigned long) byte) << (8 * k)] over the bytes, [n] an [int]. *)
Fixpoint accumulate (bytes : list Z) (k : Z) (n : Z) : Z :=
  match bytes with
  | [] => n
  | b :: rest => accumulate rest (k + 1) (C.int (n + Z.shiftl b (8 * k)))
  end.

(** The loop over the counters of [mc_ssp_get_all_levels]: [i] is the
    index of the last byte read, [j] the number of the counter. *)
Fixpoint levels_json (d : device_ref) (counters : nat) (i : Z) (j : Z) : M string :=
  match counters with
  | O => ret EmptyString
  | S counters' =>
      level <- response_bytes d (i + 1) 2 ;;
      amount <- response_bytes d (i + 3) 4 ;;
      country <- response_bytes d (i + 7) 3 ;;
      response <- defined (Printf.vasprintf (jq "{`value`:%d,`level`:%d,`cc`:`%s`}")
                    [Printf.Int (accumulate amount 0 0); Printf.Int (accumulate level 0 0);
                     Printf.Str (C.string_of_buffer country)]) ;;
      rest <- levels_json d counters' (i + 9) (j + 1) ;;
      ret ((if 0 <? j then "," else EmptyString) ++ response ++ rest)
  end.

(** [*json] stays NULL when the exchange timed out. *)
Definition mc_ssp_get_all_levels (d : device_ref) : M (SSP_RESPONSE_ENUM * option string) :=
  resp <- exchange d (send_ssp_command [SSP_CMD_GET_ALL_LEVELS]) ;;
  match resp with
  | SSP_RESPONSE_TIMEOUT => ret (resp, None)
  | _ =>
      numCounters <- response_byte d 1 ;;
      result <- levels_json d (Z.to_nat numCounters) 1 0 ;;
      ret (resp, Some result)
  end.

(** The version is copied into the caller's buffer only on [SSP_RESPONSE_OK];
    the caller's buffer starts zeroed, and is read as a string. *)
Definition get_version (d : device_ref) (command : Z) (length : nat)
  : M (SSP_RESPONSE_ENUM * string) :=
  resp <- exchange d (send_ssp_command [command]) ;;
  if is_ok resp
  then bytes <- response_bytes d 1 length ;; ret (resp, C.string_of_buffer bytes)
  else ret (resp, EmptyString).

Definition mc_ssp_get_firmware_version (d : device_ref) : M (SSP_RESPONSE_ENUM * string) :=
  get_version d SSP_CMD_GET_FIRMWARE_VERSION 16.

Definition mc_ssp_get_dataset_version (d : device_ref) : M (SSP_RESPONSE_ENUM * string) :=
  get_version d SSP_CMD_GET_DATASET_VERSION 8.

(** The channels' security levels go to the standard output only; what
    stays of the loop is that it reads [ResponseData[2 + i]]. *)
Definition mc_ssp_channel_security_data (d : device_ref) : M SSP_RESPONSE_ENUM :=
  resp <- exchange d (send_ssp_command [SSP_CMD_CHANNEL_SECURITY]) ;;
  if is_ok resp
  then numChannels <- response_byte d 1 ;;
       response_bytes d 2 (Z.to_nat numChannels) ;;
       ret resp
  else ret resp.

(** ** The command handlers *)

(** [message] is a pointer that the callback never assigns: [None] is the
    indeterminate value it then holds, [Some] a string it points to. *)
Record m_command : Type := {
  message : option string;
  jsonMessage : json;
  command : string;
  msgId : string;
  responseMsgId : string;
  responseTopic : string;
  device : device_ref
}.

(** Does the message contain the text [`cmd`:`(command)`]? *)
Definition isCommand (message command : string) : bool :=
  strstr message (jq "`cmd`:`" ++ command ++ jq "`").

Definition replyWith (topic format : string) (args : list Printf.arg) : M unit :=
  reply <- defined (Printf.vasprintf format args) ;;
  publish topic reply.

Definition replyOk (topic responseMsgId msgId : string) : M unit :=
  replyWith topic (jq "{`msgId`:`%s`,`correlId`:`%s`,`result`:`ok`}")
    [Printf.Str responseMsgId; Printf.Str msgId].

Definition replyFailed (topic responseMsgId msgId : string) : M unit :=
  replyWith topic (jq "{`msgId`:`%s`,`correlId`:`%s`,`result`:`failed`}")
    [Printf.Str responseMsgId; Printf.Str msgId].

Definition replyAccepted (topic responseMsgId msgId : string) : M unit :=
  replyWith topic (jq "{`msgId`:`%s`,`correlId`:`%s`,`accepted`:`true`}")
    [Printf.Str responseMsgId; Printf.Str msgId].

Definition handleQuit (cmd : m_command) : M unit :=
  replyOk (responseTopic cmd) (responseMsgId cmd) (msgId cmd) ;;
  set_receivedSignal 1.

Definition handleEmpty (cmd : m_command) : M unit :=
  mc_ssp_empty (device cmd) ;;
  replyAccepted (responseTopic cmd) (responseMsgId cmd) (msgId cmd).

Definition handleSmartEmpty (cmd : m_command) : M unit :=
  mc_ssp_smart_empty (device cmd) ;;
  replyAccepted (responseTopic cmd) (responseMsgId cmd) (msgId cmd).

(** The text for the error code in [ResponseData[1]] of a refused payout. *)
Definition payout_error (code : Z) : string :=
  if code =? 1 then "not enough value in smart payout"
  else if code =? 2 then "can't pay exact amount"
  else if code =? 3 then "smart payout busy"
  else if code =? 4 then "smart payout disabled"
  else "unknown".

Definition handlePayout (cmd : m_command) : M unit :=
  message <- defined (message cmd) ;;
  let payoutOption :=
    if isCommand message "do-payout" then SSP6_OPTION_BYTE_DO else SSP6_OPTION_BYTE_TEST in
  let jAmount := json_object_get (jsonMessage cmd) "amount" in
  if negb (json_is_number jAmount) then
    replyWith (responseTopic cmd)
      (jq "{`correlId`:`%s`,`error`:`property 'amount' missing or not a number`}")
      [Printf.Str (responseMsgId cmd); Printf.Str (msgId cmd)]
  else
    amount <- defined (C.int_of_double (json_number_value jAmount)) ;;
    r <- exchange (device cmd) (ssp6_payout amount CURRENCY payoutOption) ;;
    if negb (is_ok r) then
      code <- response_byte (device cmd) 1 ;;
      replyWith (responseTopic cmd) (jq "{`correlId`:`%s`,`error`:`%s`}")
        [Printf.Str (msgId cmd); Printf.Str (payout_error code)]
    else replyOk (responseTopic cmd) (responseMsgId cmd) (msgId cmd).

Definition handleFloat (cmd : m_command) : M unit :=
  message <- defined (message cmd) ;;
  let payoutOption :=
    if isCommand message "do-float" then SSP6_OPTION_BYTE_DO else SSP6_OPTION_BYTE_TEST in
  let jAmount := json_object_get (jsonMessage cmd) "amount" in
  if negb (json_is_number jAmount) then
    replyWith (responseTopic cmd)
      (jq "{`correlId`:`%s`,`error`:`property 'amount' missing or not a number`}")
      [Printf.Str (responseMsgId cmd); Printf.Str (msgId cmd)]
  else
    amount <- defined (C.int_of_double (json_number_value jAmount)) ;;
    r <- mc_ssp_float (device cmd) amount CURRENCY payoutOption ;;
    if negb (is_ok r) then
      code <- response_byte (device cmd) 1 ;;
      replyWith (responseTopic cmd) (jq "{`correlId`:`%s`,`error`:`%s`}")
        [Printf.Str (msgId cmd); Printf.Str (payout_error code)]
    else replyOk (responseTopic cmd) (responseMsgId cmd) (msgId cmd).

(** [if (strstr(channels, digit) != NULL) inhibits |= 1 << i;] on an
    [unsigned char]. *)
Definition set_channel (channels digit : string) (i : Z) (inhibits : Z) : Z :=
  if strstr channels digit then C.uchar (Z.lor inhibits (Z.shiftl 1 i)) else inhibits.

(** [if (strstr(channels, digit) != NULL) inhibits &= ~(1 << i);] on an
    [unsigned char]. *)
Definition clear_channel (channels digit : string) (i : Z) (inhibits : Z) : Z :=
  if strstr channels digit then C.uchar (Z.land inhibits (Z.lnot (Z.shiftl 1 i))) else inhibits.

Definition handleEnableChannels (cmd : m_command) : M unit :=
  let jChannels := json_object_get (jsonMessage cmd) "channels" in
  if negb (json_is_string jChannels) then
    replyWith (responseTopic cmd)
      (jq "{`correlId`:`%s`,`error`:`property 'channels' missing or not a string`}")
      [Printf.Str (responseMsgId cmd); Printf.Str (msgId cmd)]
  else
    channels <- defined (json_string_value jChannels) ;;
    dev <- load (device cmd) ;;
    let currentChannelInhibits := channelInhibits dev in
    let highChannels := 255 in
    let currentChannelInhibits := set_channel channels "1" 0 currentChannelInhibits in
    let currentChannelInhibits := set_channel channels "2" 1 currentChannelInhibits in
    let currentChannelInhibits := set_channel channels "3" 2 currentChannelInhibits in
    let currentChannelInhibits := set_channel channels "4" 3 currentChannelInhibits in
    let currentChannelInhibits := set_channel channels "5" 4 currentChannelInhibits in
    let currentChannelInhibits := set_channel channels "6" 5 currentChannelInhibits in
    let currentChannelInhibits := set_channel channels "7" 6 currentChannelInhibits in
    let currentChannelInhibits := set_channel channels "8" 7 currentChannelInhibits in
    r <- exchange (device cmd) (ssp6_set_inhibits currentChannelInhibits highChannels) ;;
    if is_ok r then
      set_channelInhibits (device cmd) currentChannelInhibits ;;
      replyOk (responseTopic cmd) (responseMsgId cmd) (msgId cmd)
    else replyFailed (responseTopic cmd) (responseMsgId cmd) (msgId cmd).

Definition handleDisableChannels (cmd : m_command) : M unit :=
  let jChannels := json_object_get (jsonMessage cmd) "channels" in
  if negb (json_is_string jChannels) then
    replyWith (responseTopic cmd)
      (jq "{`correlId`:`%s`,`error`:`property 'channels' missing or not a string`}")
      [Printf.Str (responseMsgId cmd); Printf.Str (msgId cmd)]
  else
    channels <- defined (json_string_value jChannels) ;;
    dev <- load (device cmd) ;;
    let currentChannelInhibits := channelInhibits dev in
    let highChannels := 255 in
    let currentChannelInhibits := clear_channel channels "1" 0 currentChannelInhibits in
    let currentChannelInhibits := clear_channel channels "2" 1 currentChannelInhibits in
    let currentChannelInhibits := clear_channel channels "3" 2 currentChannelInhibits in
    let currentChannelInhibits := clear_channel channels "4" 3 currentChannelInhibits in
    let currentChannelInhibits := clear_channel channels "5" 4 currentChannelInhibits in
    let currentChannelInhibits := clear_channel channels "6" 5 currentChannelInhibits in
    let currentChannelInhibits := clear_channel channels "7" 6 currentChannelInhibits in
    let currentChannelInhibits := clear_channel channels "8" 7 currentChannelInhibits in
    r <- exchange (device cmd) (ssp6_set_inhibits currentChannelInhibits highChannels) ;;
    if is_ok r then
      set_channelInhibits (device cmd) currentChannelInhibits ;;
      replyOk (responseTopic cmd) (responseMsgId cmd) (msgId cmd)
    else replyFailed (responseTopic cmd) (responseMsgId cmd) (msgId cmd).

(** *** The memory of the parsed message

    [json_loads] allocates the value of a message and [json_decref], in
    the callback, releases it with the buffers of its strings.
    [json_string_value] returns a pointer to such a buffer, which still
    belongs to the value; the buffer is named here by the member whose
    string it holds.  [free] on it releases the buffer while the value
    refers to it.  The value is the callback's, so a handler hands back
    the buffers it has freed, and [json_decref] on a value one of whose
    buffers is gone frees that buffer a second time: undefined. *)
Definition free (buffer : string) : M (list string) := ret [buffer].

Definition json_decref (j : json) (freed : list string) : M unit :=
  if existsb (fun member => json_is_string (json_object_get j member)) freed
  then undefined
  else ret tt.

(** The handler ends with [free(channels)], the buffer of the member
    channels. *)
Definition handleInhibitChannels (cmd : m_command) : M (list string) :=
  let responseTopic := responseTopic cmd in
  let jChannels := json_object_get (jsonMessage cmd) "channels" in
  if negb (json_is_string jChannels) then
    replyWith responseTopic
      (jq "{`correlId`:`%s`,`error`:`property 'channels' missing or not a string`}")
      [Printf.Str (responseMsgId cmd); Printf.Str (msgId cmd)] ;;
    ret []
  else
    channels <- defined (json_string_value jChannels) ;;
    let lowChannels := 255 in
    let highChannels := 255 in
    let lowChannels := clear_channel channels "1" 0 lowChannels in
    let lowChannels := clear_channel channels "2" 1 lowChannels in
    let lowChannels := clear_channel channels "3" 2 lowChannels in
    let lowChannels := clear_channel channels "4" 3 lowChannels in
    let lowChannels := clear_channel channels "5" 4 lowChannels in
    let lowChannels := clear_channel channels "6" 5 lowChannels in
    let lowChannels := clear_channel channels "7" 6 lowChannels in
    let lowChannels := clear_channel channels "8" 7 lowChannels in
    r <- exchange (device cmd) (ssp6_set_inhibits lowChannels highChannels) ;;
    (if is_ok r then replyOk responseTopic (responseMsgId cmd) (msgId cmd)
     else replyFailed responseTopic (responseMsgId cmd) (msgId cmd)) ;;
    free "channels".

Definition handleEnable (cmd : m_command) : M unit :=
  exchange (device cmd) ssp6_enable ;;
  replyAccepted (responseTopic cmd) (responseMsgId cmd) (msgId cmd).

Definition handleDisable (cmd : m_command) : M unit :=
  exchange (device cmd) ssp6_disable ;;
  replyAccepted (responseTopic cmd) (responseMsgId cmd) (msgId cmd).

(** The two assignments read as in the source: the variable [amount]
    takes the number of the property [level], the variable [level] that
    of the property [amount]. *)
Definition handleSetDenominationLevels (cmd : m_command) : M unit :=
  let jLevel := json_object_get (jsonMessage cmd) "level" in
  let jAmount := json_object_get (jsonMessage cmd) "amount" in
  amount <- defined (C.int_of_double (json_number_value jLevel)) ;;
  level <- defined (C.int_of_double (json_number_value jAmount)) ;;
  (if 0 <? level
   then mc_ssp_set_denomination_level (device cmd) amount 0 CURRENCY ;; ret tt
   else ret tt) ;;
  r <- mc_ssp_set_denomination_level (device cmd) amount level CURRENCY ;;
  if is_ok r then replyOk (responseTopic cmd) (responseMsgId cmd) (msgId cmd)
  else replyFailed (responseTopic cmd) (responseMsgId cmd) (msgId cmd).

Definition handleGetAllLevels (cmd : m_command) : M unit :=
  answer <- mc_ssp_get_all_levels (device cmd) ;;
  replyWith (responseTopic cmd) (jq "{`correlId`:`%s`,`levels`:[%s]}")
    [Printf.Str (msgId cmd);
     match snd answer with
     | Some json => Printf.Str json
     | None => Printf.Null
     end].

Definition handleGetFirmwareVersion (cmd : m_command) : M unit :=
  answer <- mc_ssp_get_firmware_version (device cmd) ;;
  replyWith (responseTopic cmd) (jq "{`correlId`:`%s`,`version`:`%s`]}")
    [Printf.Str (msgId cmd); Printf.Str (snd answer)].

Definition handleGetDatasetVersion (cmd : m_command) : M unit :=
  answer <- mc_ssp_get_dataset_version (device cmd) ;;
  replyWith (responseTopic cmd) (jq "{`correlId`:`%s`,`version`:`%s`]}")
    [Printf.Str (msgId cmd); Printf.Str (snd answer)].

(** The text for a reject code, NULL for a code the source does not list. *)
Definition reject_reason (reasonCode : Z) : option string :=
  nth_error
    ["note accepted"; "note length incorrect"; "undisclosed (reject reason 2)";
     "undisclosed (reject reason 3)"; "undisclosed (reject reason 4)";
     "undisclosed (reject reason 5)"; "channel inhibited"; "second note inserted";
     "undisclosed (reject reason 8)"; "note recognised in more than one channel";
     "undisclosed (reject reason 10)"; "note too long"; "undisclosed (reject reason 12)";
     "mechanism slow/stalled"; "strimming attempt detected"; "fraud channel reject";
     "no notes inserted"; "peak detect fail"; "twisted note detected"; "escrow time-out";
     "bar code scan fail"; "rear sensor 2 fail"; "slot fail 1"; "slot fail 2";
     "lens over-sample"; "width detect fail"; "short note detected"; "note payout";
     "unable to stack note"]
    (Z.to_nat reasonCode).

Definition handleLastRejectNote (cmd : m_command) : M unit :=
  answer <- mc_ssp_last_reject_note (device cmd) ;;
  if is_ok (fst answer) then
    reasonCode <- defined (snd answer) ;;
    match reject_reason reasonCode with
    | Some reason =>
        replyWith (responseTopic cmd) (jq "{`correlId`:`%s`,`reason`:`%s`,`code`:%ld}")
          [Printf.Str (msgId cmd); Printf.Str reason; Printf.Int reasonCode]
    | None =>
        replyWith (responseTopic cmd) (jq "{`correlId`:`%s`,`reason`:`undefined`,`code`:%ld}")
          [Printf.Str (msgId cmd); Printf.Int reasonCode]
    end
  else replyWith (responseTopic cmd) (jq "{`timeout`:`last reject note`}") [].

Definition handleChannelSecurityData (cmd : m_command) : M unit :=
  mc_ssp_channel_security_data (device cmd) ;; ret tt.

(** ** The request callback *)

(** What the subscription delivers: an array of strings, or anything else. *)
Inductive redisReply : Type :=
| REDIS_REPLY_ARRAY (element : list string)
| REDIS_REPLY_OTHER.

(** The branches of the chain of [isCommand] tests in [cbOnRequestMessage]. *)
Inductive handler : Type :=
| to_handleEmpty
| to_handleSmartEmpty
| to_handleEnable
| to_handleDisable
| to_handleEnableChannels
| to_handleDisableChannels
| to_handleInhibitChannels
| to_handleFloat
| to_handlePayout
| to_handleGetFirmwareVersion
| to_handleGetDatasetVersion
| to_handleChannelSecurityData
| to_handleGetAllLevels
| to_handleSetDenominationLevels
| to_handleLastRejectNote
| to_unknown_command.

(** The branch the chain takes for a message. *)
Definition dispatch (message : string) : handler :=
  if isCommand message "empty" then to_handleEmpty
  else if isCommand message "smart-empty" then to_handleSmartEmpty
  else if isCommand message "enable" then to_handleEnable
  else if isCommand message "disable" then to_handleDisable
  else if isCommand message "enable-channels" then to_handleEnableChannels
  else if isCommand message "disable-channels" then to_handleDisableChannels
  else if isCommand message "inhibit-channels" then to_handleInhibitChannels
  else if isCommand message "test-float" || isCommand message "do-float" then to_handleFloat
  else if isCommand message "test-payout" || isCommand message "do-payout" then to_handlePayout
  else if isCommand message "get-firmware-version" then to_handleGetFirmwareVersion
  else if isCommand message "get-dataset-version" then to_handleGetDatasetVersion
  else if isCommand message "channel-security-data" then to_handleChannelSecurityData
  else if isCommand message "get-all-levels" then to_handleGetAllLevels
  else if isCommand message "set-denomination-level" then to_handleSetDenominationLevels
  else if isCommand message "last-reject-note" then to_handleLastRejectNote
  else to_unknown_command.

(** What each branch does, and the buffers of the message it has freed;
    [message] is the local variable of the callback, which the last
    branch prints. *)
Definition run (h : handler) (message : string) (cmd : m_command) : M (list string) :=
  match h with
  | to_handleEmpty => handleEmpty cmd ;; ret []
  | to_handleSmartEmpty => handleSmartEmpty cmd ;; ret []
  | to_handleEnable => handleEnable cmd ;; ret []
  | to_handleDisable => handleDisable cmd ;; ret []
  | to_handleEnableChannels => handleEnableChannels cmd ;; ret []
  | to_handleDisableChannels => handleDisableChannels cmd ;; ret []
  | to_handleInhibitChannels => handleInhibitChannels cmd
  | to_handleFloat => handleFloat cmd ;; ret []
  | to_handlePayout => handlePayout cmd ;; ret []
  | to_handleGetFirmwareVersion => handleGetFirmwareVersion cmd ;; ret []
  | to_handleGetDatasetVersion => handleGetDatasetVersion cmd ;; ret []
  | to_handleChannelSecurityData => handleChannelSecurityData cmd ;; ret []
  | to_handleGetAllLevels => handleGetAllLevels cmd ;; ret []
  | to_handleSetDenominationLevels => handleSetDenominationLevels cmd ;; ret []
  | to_handleLastRejectNote => handleLastRejectNote cmd ;; ret []
  | to_unknown_command =>
      replyWith (responseTopic cmd) (jq "{`correlId`:`%s`,`error`:`unknown command`,`cmd`:`%s`}")
        [Printf.Str (msgId cmd); Printf.Str message; Printf.Str (command cmd)] ;;
      ret []
  end.

(** The device and the response topic of a request topic. *)
Definition route (topic : string) : option (device_ref * string) :=
  if streq topic "validator-request" then Some (Validator, "validator-response")
  else if streq topic "hopper-request" then Some (Hopper, "hopper-response")
  else None.

(** [r] is NULL or a reply; the pause of [hardwareWaitTime] leaves the
    state as it is.  The structure [cmd] is filled member by member, and
    [cmd.message] is not among the members assigned. *)
Definition cbOnRequestMessage (r : option redisReply) : M unit :=
  match r with
  | Some (REDIS_REPLY_ARRAY [kind; topic; message]) =>
      if streq kind "subscribe" then ret tt
      else
        match route topic with
        | None => ret tt
        | Some (device, responseTopic) =>
            match json_loads message with
            | inr error =>
                replyWith responseTopic
                  (jq "{`error`:`could not parse json`,`reason`:`%s`,`line`:%d}")
                  [Printf.Str (text error); Printf.Int (line error)]
            | inl jsonMessage =>
                let jMsgId := json_object_get jsonMessage "msgId" in
                if negb (json_is_string jMsgId) then
                  replyWith responseTopic
                    (jq "{`error`:`property 'msgId' missing or not a string`}") [] ;;
                  json_decref jsonMessage []
                else
                  msgId <- defined (json_string_value jMsgId) ;;
                  let jCmd := json_object_get jsonMessage "cmd" in
                  if negb (json_is_string jCmd) then
                    replyWith responseTopic
                      (jq "{`correlId`:`%s`,`error`:`property 'cmd' missing or not a string`}")
                      [Printf.Str msgId] ;;
                    json_decref jsonMessage []
                  else
                    responseMsgId <- uuid_generate ;;
                    command <- defined (json_string_value jCmd) ;;
                    let cmd := {| message := None; jsonMessage := jsonMessage;
                                  command := command; msgId := msgId;
                                  responseMsgId := responseMsgId;
                                  responseTopic := responseTopic; device := device |} in
                    (if isCommand message "quit" then handleQuit cmd else ret tt) ;;
                    w <- get ;;
                    freed <- (if deviceAvailable (metacash w) =? 0 then
                                replyWith responseTopic
                                  (jq "{`correlId`:`%s`,`error`:`hardware unavailable`}")
                                  [Printf.Str msgId] ;;
                                ret []
                              else run (dispatch message) message cmd) ;;
                    json_decref jsonMessage freed
            end
        end
  | _ => ret tt
  end.

(** ** The poll-event handlers *)

Definition publishHopperEvent (format : string) (args : list Printf.arg) : M unit :=
  reply <- defined (Printf.vasprintf format args) ;;
  publish "hopper-event" reply.

Definition publishValidatorEvent (format : string) (args : list Printf.arg) : M unit :=
  reply <- defined (Printf.vasprintf format args) ;;
  publish "validator-event" reply.

(** [poll->events[i].event] as a number. *)
Definition event_code (e : SSP_POLL_EVENT) : Z :=
  match e with
  | SSP_POLL_OTHER code => code
  | named => poll_code named
  end.

(** The body of the loop of [hopperEventHandler]: the switch on one event. *)
Definition hopper_event (device : device_ref) (e : SSP_POLL_EVENT6) : M unit :=
  match event e with
  | SSP_POLL_RESET =>
      publishHopperEvent (jq "{`event`:`unit reset`}") [] ;;
      r <- exchange device (ssp6_host_protocol 6) ;;
      if negb (is_ok r) then exit 3 else ret tt
  | SSP_POLL_READ =>
      if 0 <? data1 e
      then publishHopperEvent (jq "{`event`:`read`,`channel`:%ld}") [Printf.Int (data1 e)]
      else publishHopperEvent (jq "{`event`:`reading`}") []
  | SSP_POLL_DISPENSING =>
      publishHopperEvent (jq "{`event`:`dispensing`,`amount`:%ld}") [Printf.Int (data1 e)]
  | SSP_POLL_DISPENSED =>
      publishHopperEvent (jq "{`event`:`dispensed`,`amount`:%ld}") [Printf.Int (data1 e)]
  | SSP_POLL_FLOATING =>
      publishHopperEvent (jq "{`event`:`floating`,`amount`:%ld,`cc`:`%s`}")
        [Printf.Int (data1 e); Printf.Str (cc e)]
  | SSP_POLL_FLOATED =>
      publishHopperEvent (jq "{`event`:`floated`,`amount`:%ld,`cc`:`%s`}")
        [Printf.Int (data1 e); Printf.Str (cc e)]
  | SSP_POLL_CASHBOX_PAID =>
      publishHopperEvent (jq "{`event`:`cashbox paid`,`amount`:%ld,`cc`:`%s`}")
        [Printf.Int (data1 e); Printf.Str (cc e)]
  | SSP_POLL_JAMMED => publishHopperEvent (jq "{`event`:`jammed`}") []
  | SSP_POLL_FRAUD_ATTEMPT => publishHopperEvent (jq "{`event`:`fraud attempt`}") []
  | SSP_POLL_COIN_CREDIT =>
      publishHopperEvent (jq "{`event`:`coin credit`,`amount`:%ld,`cc`:`%s`}")
        [Printf.Int (data1 e); Printf.Str (cc e)]
  | SSP_POLL_EMPTY => publishHopperEvent (jq "{`event`:`empty`}") []
  | SSP_POLL_EMPTYING => publishHopperEvent (jq "{`event`:`emptying`}") []
  | SSP_POLL_SMART_EMPTYING =>
      publishHopperEvent (jq "{`event`:`smart emptying`,`amount`:%ld,`cc`:`%s`}")
        [Printf.Int (data1 e); Printf.Str (cc e)]
  | SSP_POLL_SMART_EMPTIED =>
      publishHopperEvent (jq "{`event`:`smart emptied`,`amount`:%ld,`cc`:`%s`}")
        [Printf.Int (data1 e); Printf.Str (cc e)]
  | SSP_POLL_CREDIT =>
      publishHopperEvent (jq "{`event`:`credit`,`channel`:%ld,`cc`:`%s`}")
        [Printf.Int (data1 e); Printf.Str (cc e)]
  | SSP_POLL_INCOMPLETE_PAYOUT =>
      publishHopperEvent
        (jq "{`event`:`incomplete payout`,`dispensed`:%ld,`requested`:%ld,`cc`:`%s`}")
        [Printf.Int (data1 e); Printf.Int (data2 e); Printf.Str (cc e)]
  | SSP_POLL_INCOMPLETE_FLOAT =>
      publishHopperEvent
        (jq "{`event`:`incomplete float`,`dispensed`:%ld,`requested`:%ld,`cc`:`%s`}")
        [Printf.Int (data1 e); Printf.Int (data2 e); Printf.Str (cc e)]
  | SSP_POLL_DISABLED => publishHopperEvent (jq "{`event`:`disabled`}") []
  | SSP_POLL_CALIBRATION_FAIL =>
      match calibration_error_of (data1 e) with
      | Some NO_FAILUE =>
          publishHopperEvent (jq "{`event`:`calibration fail`,`error`:`no error`}") []
      | Some SENSOR_FLAP =>
          publishHopperEvent (jq "{`event`:`calibration fail`,`error`:`sensor flap`}") []
      | Some SENSOR_EXIT =>
          publishHopperEvent (jq "{`event`:`calibration fail`,`error`:`sensor exit`}") []
      | Some SENSOR_COIL1 =>
          publishHopperEvent (jq "{`event`:`calibration fail`,`error`:`sensor coil 1`}") []
      | Some SENSOR_COIL2 =>
          publishHopperEvent (jq "{`event`:`calibration fail`,`error`:`sensor coil 2`}") []
      | Some NOT_INITIALISED =>
          publishHopperEvent (jq "{`event`:`calibration fail`,`error`:`not initialized`}") []
      | Some CHECKSUM_ERROR =>
          publishHopperEvent (jq "{`event`:`calibration fail`,`error`:`checksum error`}") []
      | Some COMMAND_RECAL =>
          publishHopperEvent (jq "{`event`:`recalibrating`}") [] ;;
          exchange device ssp6_run_calibration ;; ret tt
      | None => ret tt
      end
  | other =>
      publishHopperEvent (jq "{`event`:`unknown`,`id`:`0x%02X`}") [Printf.Int (event_code other)]
  end.

Definition hopperEventHandler (device : device_ref) (poll : SSP_POLL_DATA6) : M unit :=
  for_each (events poll) (hopper_event device).

(** [device->sspSetupReq.ChannelData[data1 - 1].value * 100], an
    [unsigned int] product stored in an [unsigned long]; the index is
    computed in [unsigned long]. *)
Definition channel_amount (device : device_ref) (data1 : Z) : M Z :=
  dev <- load device ;;
  channel <- defined (C.index (ChannelData (sspSetupReq dev)) (C.ulong (data1 - 1))) ;;
  ret (C.uint (value channel * 100)).

(** The body of the loop of [validatorEventHandler]: the switch on one event. *)
Definition validator_event (device : device_ref) (e : SSP_POLL_EVENT6) : M unit :=
  match event e with
  | SSP_POLL_RESET =>
      publishValidatorEvent (jq "{`event`:`unit reset`}") [] ;;
      r <- exchange device (ssp6_host_protocol 6) ;;
      if negb (is_ok r) then exit 3 else ret tt
  | SSP_POLL_READ =>
      if 0 <? data1 e then
        amount <- channel_amount device (data1 e) ;;
        publishValidatorEvent (jq "{`event`:`read`,`amount`:%ld,`channel`:%ld}")
          [Printf.Int amount; Printf.Int (data1 e)]
      else publishValidatorEvent (jq "{`event`:`reading`}") []
  | SSP_POLL_EMPTY => publishValidatorEvent (jq "{`event`:`empty`}") []
  | SSP_POLL_EMPTYING => publishValidatorEvent (jq "{`event`:`emptying`}") []
  | SSP_POLL_SMART_EMPTYING => publishValidatorEvent (jq "{`event`:`smart emptying`}") []
  | SSP_POLL_CREDIT =>
      amount <- channel_amount device (data1 e) ;;
      publishValidatorEvent (jq "{`event`:`credit`,`amount`:%ld,`channel`:%ld}")
        [Printf.Int amount; Printf.Int (data1 e)]
  | SSP_POLL_INCOMPLETE_PAYOUT =>
      publishValidatorEvent
        (jq "{`event`:`incomplete payout`,`dispensed`:%ld,`requested`:%ld,`cc`:`%s`}")
        [Printf.Int (data1 e); Printf.Int (data2 e); Printf.Str (cc e)]
  | SSP_POLL_INCOMPLETE_FLOAT =>
      publishValidatorEvent
        (jq "{`event`:`incomplete float`,`dispensed`:%ld,`requested`:%ld,`cc`:`%s`}")
        [Printf.Int (data1 e); Printf.Int (data2 e); Printf.Str (cc e)]
  | SSP_POLL_REJECTING => publishValidatorEvent (jq "{`event`:`rejecting`}") []
  | SSP_POLL_REJECTED => publishValidatorEvent (jq "{`event`:`rejected`}") []
  | SSP_POLL_STACKING => publishValidatorEvent (jq "{`event`:`stacking`}") []
  | SSP_POLL_STORED => publishValidatorEvent (jq "{`event`:`stored`}") []
  | SSP_POLL_STACKED => publishValidatorEvent (jq "{`event`:`stacked`}") []
  | SSP_POLL_SAFE_JAM => publishValidatorEvent (jq "{`event`:`safe jam`}") []
  | SSP_POLL_UNSAFE_JAM => publishValidatorEvent (jq "{`event`:`unsafe jam`}") []
  | SSP_POLL_DISABLED => publishValidatorEvent (jq "{`event`:`disabled`}") []
  | SSP_POLL_FRAUD_ATTEMPT =>
      publishValidatorEvent (jq "{`event`:`fraud attempt`,`dispensed`:%ld}")
        [Printf.Int (data1 e)]
  | SSP_POLL_STACKER_FULL => publishValidatorEvent (jq "{`event`:`stacker full`}") []
  | SSP_POLL_CASH_BOX_REMOVED => publishValidatorEvent (jq "{`event`:`cashbox removed`}") []
  | SSP_POLL_CASH_BOX_REPLACED => publishValidatorEvent (jq "{`event`:`cashbox replaced`}") []
  | SSP_POLL_CLEARED_FROM_FRONT =>
      publishValidatorEvent (jq "{`event`:`cleared from front`}") []
  | SSP_POLL_CLEARED_INTO_CASHBOX =>
      publishValidatorEvent (jq "{`event`:`cleared into cashbox`}") []
  | SSP_POLL_CALIBRATION_FAIL =>
      match calibration_error_of (data1 e) with
      | Some NO_FAILUE =>
          publishValidatorEvent (jq "{`event`:`calibration fail`,`error`:`no error`}") []
      | Some SENSOR_FLAP =>
          publishValidatorEvent (jq "{`event`:`calibration fail`,`error`:`sensor flap`}") []
      | Some SENSOR_EXIT =>
          publishValidatorEvent (jq "{`event`:`calibration fail`,`error`:`sensor exit`}") []
      | Some SENSOR_COIL1 =>
          publishValidatorEvent (jq "{`event`:`calibration fail`,`error`:`sensor coil 1`}") []
      | Some SENSOR_COIL2 =>
          publishValidatorEvent (jq "{`event`:`calibration fail`,`error`:`sensor coil 2`}") []
      | Some NOT_INITIALISED =>
          publishValidatorEvent (jq "{`event`:`calibration fail`,`error`:`not initialized`}") []
      | Some CHECKSUM_ERROR =>
          publishValidatorEvent (jq "{`event`:`calibration fail`,`error`:`checksum error`}") []
      | Some COMMAND_RECAL =>
          publishValidatorEvent (jq "{`event`:`recalibrating`}") [] ;;
          exchange device ssp6_run_calibration ;; ret tt
      | None => ret tt
      end
  | other =>
      publishValidatorEvent (jq "{`event`:`unknown`,`id`:`0x%02X`}")
        [Printf.Int (event_code other)]
  end.

Definition validatorEventHandler (device : device_ref) (poll : SSP_POLL_DATA6) : M unit :=
  for_each (events poll) (validator_event device).

End Daemon.

(** ** What a run shows *)

(** The messages published by a run that returned. *)
Definition published {A : Type} (o : outcome A) : option (list (string * string)) :=
  match o with
  | Returned _ w => Some (redis w)
  | _ => None
  end.

(** The exchanges on the serial line of a run that returned. *)
Definition sent {A : Type} (o : outcome A) : option (list (Z * ssp_call)) :=
  match o with
  | Returned _ w => Some (serial w)
  | _ => None
  end.

(** The state after one more message has been published. *)
Definition after_publish (w : World) (topic payload : string) : World :=
  {| metacash := metacash w; receivedSignal := receivedSignal w;
     redis := (redis w ++ [(topic, payload)])%list;
     serial := serial w; hardware := hardware w;
     uuid_source := uuid_source w; uuid_calls := uuid_calls w |}.

(** A member of a JSON text, read back with [Jansson.loads]. *)
Definition member (payload key : string) : option json :=
  match Jansson.loads payload with
  | inl j => json_object_get j key
  | inr _ => None
  end.

(** ** The channels a string names

    Following the specification's words: a string names channel [i], for
    [i] from 1 to 8, when the digit [i] is one of its characters, and
    each named channel is bit [i - 1] of the mask. *)

Definition occurs (c : ascii) (s : string) : bool :=
  existsb (Ascii.eqb c) (list_ascii_of_string s).

Definition channel_bit (channels : string) (i : nat) : Z :=
  if occurs (ascii_of_nat (48 + i)) channels then 2 ^ (Z.of_nat i - 1) else 0.

Definition channel_mask (channels : string) : Z :=
  fold_right Z.lor 0 (map (channel_bit channels) (seq 1 8)).

(** The chain of the callback as a table: the names in the order of the
    tests, each with the branch its test leads to. *)
Definition chain : list (string * handler) :=
  [("empty", to_handleEmpty); ("smart-empty", to_handleSmartEmpty);
   ("enable", to_handleEnable); ("disable", to_handleDisable);
   ("enable-channels", to_handleEnableChannels);
   ("disable-channels", to_handleDisableChannels);
   ("inhibit-channels", to_handleInhibitChannels);
   ("test-float", to_handleFloat); ("do-float", to_handleFloat);
   ("test-payout", to_handlePayout); ("do-payout", to_handlePayout);
   ("get-firmware-version", to_handleGetFirmwareVersion);
   ("get-dataset-version", to_handleGetDatasetVersion);
   ("channel-security-data", to_handleChannelSecurityData);
   ("get-all-levels", to_handleGetAllLevels);
   ("set-denomination-level", to_handleSetDenominationLevels);
   ("last-reject-note", to_handleLastRejectNote)].

(** None of the texts of the entries occurs in the message. *)
Definition none_occurs (message : string) (entries : list (string * handler)) : Prop :=
  Forall (fun entry => isCommand message (fst entry) = false) entries.

(** The names of the commands, in the order the callback tests them. *)
Definition command_names : list string :=
  ["quit"; "empty"; "smart-empty"; "enable"; "disable"; "enable-channels";
   "disable-channels"; "inhibit-channels"; "test-float"; "do-float"; "test-payout";
   "do-payout"; "get-firmware-version"; "get-dataset-version"; "channel-security-data";
   "get-all-levels"; "set-denomination-level"; "last-reject-note"].

(** Of the texts of the commands, that of [name] occurs in the message
    and no other does. *)
Definition names_only (message name : string) : Prop :=
  Forall (fun other => isCommand message other = streq other name) command_names.

(** ** A daemon to run

    The examples link the daemon against [Jansson.loads] and the numbers
    of the SSP manual, and start it as [setup] leaves it: the validator's
    mask is [0x0]; the hopper's mask, which the source never assigns, is
    taken as 0 too, and both setup reports list the euro notes. *)

Definition manual_poll_code (e : SSP_POLL_EVENT) : Z :=
  match e with
  | SSP_POLL_RESET => 241
  | SSP_POLL_READ => 239
  | SSP_POLL_CREDIT => 238
  | SSP_POLL_REJECTING => 237
  | SSP_POLL_REJECTED => 236
  | SSP_POLL_STACKING => 204
  | SSP_POLL_STORED => 219
  | SSP_POLL_STACKED => 235
  | SSP_POLL_SAFE_JAM => 234
  | SSP_POLL_UNSAFE_JAM => 233
  | SSP_POLL_DISABLED => 232
  | SSP_POLL_FRAUD_ATTEMPT => 230
  | SSP_POLL_STACKER_FULL => 231
  | SSP_POLL_CASH_BOX_REMOVED => 227
  | SSP_POLL_CASH_BOX_REPLACED => 228
  | SSP_POLL_CLEARED_FROM_FRONT => 225
  | SSP_POLL_CLEARED_INTO_CASHBOX => 226
  | SSP_POLL_CALIBRATION_FAIL => 131
  | SSP_POLL_DISPENSING => 218
  | SSP_POLL_DISPENSED => 210
  | SSP_POLL_FLOATING => 215
  | SSP_POLL_FLOATED => 216
  | SSP_POLL_CASHBOX_PAID => 222
  | SSP_POLL_JAMMED => 213
  | SSP_POLL_COIN_CREDIT => 223
  | SSP_POLL_EMPTY => 195
  | SSP_POLL_EMPTYING => 194
  | SSP_POLL_SMART_EMPTYING => 179
  | SSP_POLL_SMART_EMPTIED => 180
  | SSP_POLL_INCOMPLETE_PAYOUT => 220
  | SSP_POLL_INCOMPLETE_FLOAT => 221
  | SSP_POLL_OTHER code => code
  end.

Definition manual_calibration_error (code : Z) : option SSP_CALIBRATION_ERROR :=
  nth_error
    [NO_FAILUE; SENSOR_FLAP; SENSOR_EXIT; SENSOR_COIL1; SENSOR_COIL2; NOT_INITIALISED;
     CHECKSUM_ERROR; COMMAND_RECAL]
    (Z.to_nat (if code <? 0 then 8 else code)).

Definition manual : Linked :=
  {| json_loads := Jansson.loads;
     SSP_CMD_EMPTY := 63;
     SSP_CMD_FLOAT := 61;
     SSP_CMD_CHANNEL_SECURITY := 15;
     SSP6_OPTION_BYTE_DO := 88;
     SSP6_OPTION_BYTE_TEST := 25;
     poll_code := manual_poll_code;
     calibration_error_of := manual_calibration_error |}.

Definition euro_notes : SSP6_SETUP_REQUEST_DATA :=
  {| UnitType := 6;
     NumberOfChannels := 7;
     ChannelData :=
       (map (fun v => {| value := v; channel_cc := "EUR" |}) [5; 10; 20; 50; 100; 200; 500]
        ++ repeat {| value := 0; channel_cc := EmptyString |} 9)%list |}.

Definition DEFAULT_KEY : Z := 81985526925837671.

Definition new_device (address : Z) (name : string) : m_device :=
  {| id := address; name := name; key := DEFAULT_KEY; channelInhibits := 0;
     sspC := {| SSPAddress := address; ResponseData := repeat 0 255 |};
     sspSetupReq := euro_notes |}.

(** The daemon after [setup], with the answers the devices will give. *)
Definition started (available : Z) (answers : list (option (list Z))) : World :=
  {| metacash := {| quit := 0; deviceAvailable := available;
                    hopper := new_device 16 "Mr. Coin";
                    validator := new_device 0 "Ms. Note" |};
     receivedSignal := 0;
     redis := [];
     serial := [];
     hardware := answers;
     uuid_source := fun _ => "R";
     uuid_calls := O |}.

(** A setup report whose first channel is a note of 42949673, and a
    state whose validator holds that report. *)
Definition large_notes : SSP6_SETUP_REQUEST_DATA :=
  {| UnitType := 6;
     NumberOfChannels := 1;
     ChannelData := [{| value := 42949673; channel_cc := "EUR" |}] |}.

Definition reporting (report : SSP6_SETUP_REQUEST_DATA) (w : World) : World :=
  let dev := validator (metacash w) in
  with_metacash w
    (with_device (metacash w) Validator
       {| id := id dev; name := name dev; key := key dev;
          channelInhibits := channelInhibits dev; sspC := sspC dev;
          sspSetupReq := report |}).

(** A message arriving on a topic. *)
Definition arrives (topic message : string) : option redisReply :=
  Some (REDIS_REPLY_ARRAY ["message"; topic; message]).

Definition poll_event (code : SSP_POLL_EVENT) (d1 d2 : Z) (currency : string) : SSP_POLL_EVENT6 :=
  {| event := code; data1 := d1; data2 := d2; cc := currency |}.

(** The envelope of a result: [{`msgId`:R,`correlId`:M,`result`:text}]. *)
Definition result_reply (responseMsgId msgId result : string) : string :=
  jq "{`msgId`:`" ++ responseMsgId ++ jq "`,`correlId`:`" ++ msgId
  ++ jq "`,`result`:`" ++ result ++ jq "`}".

(** The event of a note on a channel: [{`event`:name,`amount`:A,`channel`:K}]. *)
Definition channel_event (name : string) (amount channel : Z) : string :=
  jq "{`event`:`" ++ name ++ jq "`,`amount`:" ++ Printf.decimal amount
  ++ jq ",`channel`:" ++ Printf.decimal channel ++ "}".

(** The events of an amount: [{`event`:name,`amount`:A}] and
    [{`event`:name,`amount`:A,`cc`:C}]. *)
Definition amount_event (name : string) (amount : Z) : string :=
  jq "{`event`:`" ++ name ++ jq "`,`amount`:" ++ Printf.decimal amount ++ "}".

Definition amount_cc_event (name : string) (amount : Z) (currency : string) : string :=
  jq "{`event`:`" ++ name ++ jq "`,`amount`:" ++ Printf.decimal amount
  ++ jq ",`cc`:`" ++ currency ++ jq "`}".

(** The cached inhibit mask of a device after a run that returned. *)
Definition cached_inhibits {A : Type} (o : outcome A) (d : device_ref) : option Z :=
  match o with
  | Returned _ w => Some (channelInhibits (device_of (metacash w) d))
  | _ => None
  end.

(** The requests of the examples. *)
Definition enable_135_text : string :=
  jq "{`msgId`:`B`,`cmd`:`enable-channels`,`channels`:`135`}".

Definition inhibit_135_text : string :=
  jq "{`msgId`:`B`,`cmd`:`inhibit-channels`,`channels`:`135`}".

(** The command structure the callback fills for a message it accepts:
    every member but [message]. *)
Definition command_of (d : device_ref) (topic : string) (j : json) (name id : string)
  : m_command :=
  {| message := None; jsonMessage := j; command := name; msgId := id;
     responseMsgId := "R"; responseTopic := topic; device := d |}.

Definition enable_135 : m_command :=
  command_of Validator "validator-response"
    (JSON_OBJECT [("msgId", JSON_STRING "B"); ("cmd", JSON_STRING "enable-channels");
                  ("channels", JSON_STRING "135")])
    "enable-channels" "B".

Definition inhibit_135 : m_command :=
  command_of Validator "validator-response"
    (JSON_OBJECT [("msgId", JSON_STRING "B"); ("cmd", JSON_STRING "inhibit-channels");
                  ("channels", JSON_STRING "135")])
    "inhibit-channels" "B".

Definition empty_compact : string := jq "{`msgId`:`A`,`cmd`:`empty`}".
Definition empty_spaced : string := jq "{`msgId`:`A`, `cmd`: `empty`}".
Definition levitate : string := jq "{`msgId`:`D`,`cmd`:`levitate`}".
Definition levitate_nested : string :=
  jq "{`msgId`:`D`,`cmd`:`levitate`,`note`:{`cmd`:`empty`}}".
Definition empty_reordered : string := jq "{`cmd`:`empty`,`msgId`:`Z`,`amount`:7}".

(** The state after libuuid has handed out one more identifier. *)
Definition after_uuid (w : World) : World :=
  {| metacash := metacash w; receivedSignal := receivedSignal w; redis := redis w;
     serial := serial w; hardware := hardware w;
     uuid_source := uuid_source w; uuid_calls := S (uuid_calls w) |}.

(** ** More of the daemon *)

(** [signalHandler]: the signal is left for [cbOnCheckQuitEvent]. *)
Definition signalHandler (signal : Z) : M unit := set_receivedSignal signal.

(** [cbOnCheckQuitEvent]: the result tells whether the callback asked the
    event loop to exit ([event_base_loopexit]). *)
Definition cbOnCheckQuitEvent : M bool :=
  w <- get ;;
  if negb (receivedSignal w =? 0) then set_receivedSignal 0 ;; ret true else ret false.

(** ** Words for the properties *)

(** A delivery the request callback acts on: a message, not the
    confirmation of a subscription, on one of the two request topics. *)
Definition is_request (r : option redisReply) : bool :=
  match r with
  | Some (REDIS_REPLY_ARRAY [kind; topic; _]) =>
      negb (streq kind "subscribe")
      && (streq topic "validator-request" || streq topic "hopper-request")
  | _ => false
  end.

(** The reply to a message that is no JSON. *)
Definition parse_error_reply (error : json_error_t) : string :=
  jq "{`error`:`could not parse json`,`reason`:`" ++ text error
  ++ jq "`,`line`:" ++ Printf.decimal (C.int (line error)) ++ "}".

(** The reply that correlates an error text with a request. *)
Definition error_reply (correlId error : string) : string :=
  jq "{`correlId`:`" ++ correlId ++ jq "`,`error`:`" ++ error ++ jq "`}".

(** The envelope of an accepted command. *)
Definition accepted_reply (responseMsgId msgId : string) : string :=
  jq "{`msgId`:`" ++ responseMsgId ++ jq "`,`correlId`:`" ++ msgId
  ++ jq "`,`accepted`:`true`}".

(** The address a device is spoken to at. *)
Definition address_of (w : World) (d : device_ref) : Z :=
  SSPAddress (sspC (device_of (metacash w) d)).

(** A computation obeys a relation on states when every run that returns
    or exits leaves a state related to the one it started in, and exits
    only with a status that [E] allows.  Nothing is said of a run that
    is undefined. *)
Definition obeys {A : Type} (R : World -> World -> Prop) (E : Z -> Prop) (c : M A) : Prop :=
  forall w,
    match c w with
    | Returned _ w' => R w w'
    | Exited status w' => R w w' /\ E status
    | Undefined => True
    end.

Definition other_device (d : device_ref) : device_ref :=
  match d with
  | Hopper => Validator
  | Validator => Hopper
  end.

(** What serving a request on device [d], with replies on topic [t],
    may change: messages are added on [t] only, exchanges are added with
    the address of [d] only, and the address and the setup report of
    [d], the whole of the other device and the availability flag stay. *)
Definition served_on (d : device_ref) (t : string) (w w' : World) : Prop :=
  (exists l, redis w' = (redis w ++ l)%list /\ Forall (fun p => fst p = t) l)
  /\ (exists l, serial w' = (serial w ++ l)%list
                /\ Forall (fun c => fst c = address_of w d) l)
  /\ address_of w' d = address_of w d
  /\ device_of (metacash w') (other_device d) = device_of (metacash w) (other_device d)
  /\ sspSetupReq (device_of (metacash w') d) = sspSetupReq (device_of (metacash w) d)
  /\ deviceAvailable (metacash w') = deviceAvailable (metacash w).

(** Both cached inhibit masks are as they were. *)
Definition same_masks (w w' : World) : Prop :=
  channelInhibits (hopper (metacash w')) = channelInhibits (hopper (metacash w))
  /\ channelInhibits (validator (metacash w')) = channelInhibits (validator (metacash w)).

(** The signal is as it was. *)
Definition same_signal (w w' : World) : Prop := receivedSignal w' = receivedSignal w.

(** The text of a delivery holds the text of quit. *)
Definition holds_quit (r : option redisReply) : bool :=
  match r with
  | Some (REDIS_REPLY_ARRAY [_; _; text]) => isCommand text "quit"
  | _ => false
  end.

(** A status no run exits with. *)
Definition never (status : Z) : Prop := False.

(** The status the exchange after [n] others will return. *)
Definition nth_status (n : nat) (w : World) : SSP_RESPONSE_ENUM :=
  match nth_error (hardware w) n with
  | Some (Some (status :: _)) => SSP_RESPONSE_STATUS status
  | _ => SSP_RESPONSE_TIMEOUT
  end.

(** The response buffer of a device once the next exchange, with that
    device, is over. *)
Definition buffer_after_exchange (w : World) (d : device_ref) : list Z :=
  next_ResponseData w (ResponseData (sspC (device_of (metacash w) d))).

(** The bytes of a set-denomination-level command. *)
Definition denomination_bytes (count coin : Z) : list Z :=
  ([SSP_CMD_SET_DENOMINATION_LEVEL] ++ little_endian 2 count ++ little_endian 4 coin
   ++ currency_bytes "EUR")%list.

(** One counter of the answer to get-all-levels, as the device sends it:
    two bytes of level, four bytes of value, three characters of currency. *)
Record counter : Type := {
  counter_level : Z;
  counter_value : Z;
  counter_cc : string
}.

Definition counter_bytes (c : counter) : list Z :=
  (little_endian 2 (counter_level c) ++ little_endian 4 (counter_value c)
   ++ C.buffer_of_string (counter_cc c))%list.

(** A level of sixteen bits, a value that is an int, and three characters
    none of which is NUL. *)
Definition counter_ok (c : counter) : bool :=
  (0 <=? counter_level c) && (counter_level c <? 65536)
  && (- 2 ^ 31 <=? counter_value c) && (counter_value c <? 2 ^ 31)
  && (String.length (counter_cc c) =? 3)%nat
  && negb (occurs zero (counter_cc c)).

Definition counter_json (c : counter) : string :=
  jq "{`value`:" ++ Printf.decimal (counter_value c)
  ++ jq ",`level`:" ++ Printf.decimal (counter_level c)
  ++ jq ",`cc`:`" ++ counter_cc c ++ jq "`}".

(** The answer of the device to get-all-levels. *)
Definition levels_response (status : Z) (counters : list counter) (rest : list Z) : list Z :=
  (status :: Z.of_nat (List.length counters) :: flat_map counter_bytes counters ++ rest)%list.

Definition levels_reply (correlId : string) (counters : list counter) : string :=
  jq "{`correlId`:`" ++ correlId ++ jq "`,`levels`:["
  ++ String.concat "," (map counter_json counters) ++ "]}".

(** What the loop of [mc_ssp_get_all_levels] appends from counter [j] on. *)
Fixpoint levels_text (j : Z) (counters : list counter) : string :=
  match counters with
  | [] => EmptyString
  | c :: rest =>
      (if 0 <? j then "," else EmptyString) ++ counter_json c ++ levels_text (j + 1) rest
  end.

(** What a handler of poll events may do to the world: publish on the
    event topic of the device and exchange with the device, the cached
    masks and the signal left alone. *)
Definition event_frame (d : device_ref) (t : string) (w w' : World) : Prop :=
  served_on d t w w' /\ same_masks w w' /\ same_signal w w'.

(** A run from a world that satisfies [P] is defined: it returns or exits,
    the worlds related by [R], the exit status allowed by [E]. *)
Definition safely {A : Type} (P : World -> Prop) (R : World -> World -> Prop)
    (E : Z -> Prop) (c : M A) : Prop :=
  forall w, P w ->
    match c w with
    | Returned _ w' => R w w'
    | Exited status w' => R w w' /\ E status
    | Undefined => False
    end.

(** The events for which [validatorEventHandler] reads the setup report,
    and whether the report of the device has the channel of an event. *)
Definition needs_channel (e : SSP_POLL_EVENT6) : bool :=
  match event e with
  | SSP_POLL_READ => 0 <? data1 e
  | SSP_POLL_CREDIT => true
  | _ => false
  end.

Definition channel_known (w : World) (d : device_ref) (e : SSP_POLL_EVENT6) : bool :=
  match C.index (ChannelData (sspSetupReq (device_of (metacash w) d))) (C.ulong (data1 e - 1)) with
  | Some _ => true
  | None => false
  end.

Definition channels_known (w : World) (d : device_ref) (e : SSP_POLL_EVENT6) : Prop :=
  needs_channel e = true -> channel_known w d e = true.

Definition reset_in (poll : SSP_POLL_DATA6) : Prop :=
  exists e, In e (events poll) /\ event e = SSP_POLL_RESET.

(** The events whose case of the switch is a single publication. *)
Definition is_quiet (e : SSP_POLL_EVENT6) : bool :=
  match event e with
  | SSP_POLL_RESET | SSP_POLL_CALIBRATION_FAIL => false
  | _ => true
  end.

(** The state after the messages have been published on a topic, in order. *)
Definition after_publishing (w : World) (topic : string) (payloads : list string) : World :=
  fold_left (fun w' payload => after_publish w' topic payload) payloads w.

(** ** Polling

    [ssp6_poll] and [ssp6_setup_encryption] are functions of the vendor's
    library and [SSP_RESPONSE_KEY_NOT_SET] is a value of its header;
    neither is in the source, so the poll loop is modelled over any
    library that provides them. *)

Class Vendor : Type := {
  SSP_RESPONSE_KEY_NOT_SET : SSP_RESPONSE_ENUM;
  ssp6_poll : device_ref -> M (SSP_RESPONSE_ENUM * SSP_POLL_DATA6);
  ssp6_setup_encryption : device_ref -> Z -> M SSP_RESPONSE_ENUM
}.

(** [a == b] on responses. *)
Definition response_eqb (a b : SSP_RESPONSE_ENUM) : bool :=
  match a, b with
  | SSP_RESPONSE_TIMEOUT, SSP_RESPONSE_TIMEOUT => true
  | SSP_RESPONSE_STATUS x, SSP_RESPONSE_STATUS y => x =? y
  | _, _ => false
  end.

(** [device->eventHandlerFn], which [main] sets once for each device. *)
Definition eventHandlerFn {L : Linked} (d : device_ref) (poll : SSP_POLL_DATA6) : M unit :=
  match d with
  | Hopper => hopperEventHandler d poll
  | Validator => validatorEventHandler d poll
  end.

(** [poll.event_count]. *)
Definition event_count (poll : SSP_POLL_DATA6) : Z := Z.of_nat (List.length (events poll)).

(** The wait before the poll changes nothing that is modelled. *)
Definition mcSspPollDevice {L : Linked} {V : Vendor} (d : device_ref) : M unit :=
  answer <- ssp6_poll d ;;
  let resp := fst answer in
  let poll := snd answer in
  if negb (is_ok resp) then
    if response_eqb resp SSP_RESPONSE_TIMEOUT then ret tt
    else if response_eqb resp SSP_RESPONSE_KEY_NOT_SET then
      dev <- load d ;;
      ssp6_setup_encryption d (key dev) ;;
      ret tt
    else ret tt
  else if 0 <? event_count poll then eventHandlerFn d poll
  else ret tt.

Definition cbOnPollEvent {L : Linked} {V : Vendor} : M unit :=
  w <- get ;;
  if deviceAvailable (metacash w) =? 0 then ret tt
  else mcSspPollDevice Hopper ;; mcSspPollDevice Validator.

(** The topic of the events of a device. *)
Definition event_topic (d : device_ref) : string :=
  match d with
  | Hopper => "hopper-event"
  | Validator => "validator-event"
  end.

(** What a call of the vendor's library for a device may do: exchange
    with that device, and publish nothing. *)
Definition kept_to_the_line (d : device_ref) (w w' : World) : Prop :=
  redis w' = redis w /\ event_frame d EmptyString w w'.

(** What one round of polling may do: publish events of the hopper, then
    events of the validator, and exchange with the hopper, then with the
    validator. *)
Definition polled (w w' : World) : Prop :=
  (exists lh lv,
     redis w' = (redis w ++ lh ++ lv)%list
     /\ Forall (fun p => fst p = "hopper-event") lh
     /\ Forall (fun p => fst p = "validator-event") lv)
  /\ (exists sh sv,
       serial w' = (serial w ++ sh ++ sv)%list
       /\ Forall (fun c => fst c = address_of w Hopper) sh
       /\ Forall (fun c => fst c = address_of w Validator) sv)
  /\ same_masks w w' /\ same_signal w w'
  /\ deviceAvailable (metacash w') = deviceAvailable (metacash w).

(** A library for the examples: a poll is one exchange, and every byte
    the device sends after the status is reported as the code of an
    event; the negotiation of a key is one exchange. *)
Definition example_event (code : Z) : SSP_POLL_EVENT6 :=
  {| event := SSP_POLL_OTHER code; data1 := 0; data2 := 0; cc := "EUR" |}.

Definition example_poll (d : device_ref) : M (SSP_RESPONSE_ENUM * SSP_POLL_DATA6) :=
  w <- get ;;
  resp <- exchange d (send_ssp_command [7]) ;;
  ret (resp, {| events := map example_event
                            match hardware w with
                            | Some (_ :: data) :: _ => data
                            | _ => []
                            end |}).

Definition example_setup_encryption (d : device_ref) (k : Z) : M SSP_RESPONSE_ENUM :=
  exchange d (send_ssp_command [74]).

Definition example_vendor : Vendor :=
  {| SSP_RESPONSE_KEY_NOT_SET := SSP_RESPONSE_STATUS 250;
     ssp6_poll := example_poll;
     ssp6_setup_encryption := example_setup_encryption |}.

(** The requests, commands and events of the further examples. *)
Definition quit_text : string := jq "{`msgId`:`Q`,`cmd`:`quit`}".

Definition payout_10_text : string := jq "{`msgId`:`P`,`cmd`:`do-payout`,`amount`:1000}".

Definition smart_empty_text : string := jq "{`msgId`:`A`,`cmd`:`smart-empty`}".

Definition enable_none : m_command :=
  command_of Validator "validator-response"
    (JSON_OBJECT [("msgId", JSON_STRING "B"); ("cmd", JSON_STRING "enable-channels")])
    "enable-channels" "B".

Definition set_level_200 : m_command :=
  command_of Hopper "hopper-response"
    (JSON_OBJECT [("msgId", JSON_STRING "S"); ("cmd", JSON_STRING "set-denomination-level");
                  ("level", JSON_INTEGER 200); ("amount", JSON_INTEGER 5)])
    "set-denomination-level" "S".

Definition get_levels : m_command :=
  command_of Hopper "hopper-response"
    (JSON_OBJECT [("msgId", JSON_STRING "L"); ("cmd", JSON_STRING "get-all-levels")])
    "get-all-levels" "L".

Definition two_counters : list counter :=
  [{| counter_level := 5; counter_value := 200; counter_cc := "EUR" |};
   {| counter_level := 0; counter_value := 100; counter_cc := "EUR" |}].

Definition note_events : SSP_POLL_DATA6 :=
  {| events := [poll_event SSP_POLL_READ 0 0 "EUR"; poll_event SSP_POLL_CREDIT 3 0 "EUR"] |}.

Definition coin_events : SSP_POLL_DATA6 :=
  {| events := [poll_event SSP_POLL_DISPENSING 500 0 "EUR";
                poll_event SSP_POLL_COIN_CREDIT 100 0 "EUR"] |}.

(** * Properties *)

Section Properties.

Context {L : Linked}.

(** ** Bytes and masks *)

Lemma prefix_char (c a : ascii) (r : string) :
  String.prefix (String c EmptyString) (String a r) = Ascii.eqb c a.
Proof.
  simpl. destruct (ascii_dec c a) as [->|Hne].
  - rewrite Ascii.eqb_refl. destruct r; reflexivity.
  - symmetry. apply Ascii.eqb_neq. exact Hne.
Qed.

(** Searching for a one-character string is asking whether the character occurs. *)
Lemma strstr_char (s : string) (c : ascii) :
  strstr s (String c EmptyString) = occurs c s.
Proof.
  induction s as [|a r IH].
  - reflexivity.
  - change (strstr (String a r) (String c EmptyString))
      with (String.prefix (String c EmptyString) (String a r) || strstr r (String c EmptyString)).
    rewrite prefix_char, IH. reflexivity.
Qed.

Lemma uchar_land_ones (z : Z) : C.uchar z = Z.land z 255.
Proof. unfold C.uchar. change 255 with (Z.ones 8). rewrite Z.land_ones by lia. reflexivity. Qed.

Lemma uchar_small (z : Z) : 0 <= z < 256 -> C.uchar z = z.
Proof. intros H. unfold C.uchar. apply Z.mod_small. lia. Qed.

Lemma uchar_range (z : Z) : 0 <= C.uchar z < 256.
Proof. unfold C.uchar. apply Z.mod_pos_bound. lia. Qed.

Lemma lor_byte (a b : Z) : 0 <= a < 256 -> 0 <= b < 256 -> 0 <= Z.lor a b < 256.
Proof.
  intros Ha Hb.
  assert (H : C.uchar (Z.lor a b) = Z.lor a b).
  { rewrite uchar_land_ones, Z.land_lor_distr_l, <- !uchar_land_ones.
    rewrite !uchar_small by lia. reflexivity. }
  rewrite <- H. apply uchar_range.
Qed.

Lemma land_byte (a b : Z) : 0 <= a < 256 -> C.uchar (Z.land a b) = Z.land a b.
Proof.
  intros Ha. rewrite uchar_land_ones, <- Z.land_assoc, (Z.land_comm b 255), Z.land_assoc.
  rewrite <- uchar_land_ones, uchar_small by lia. reflexivity.
Qed.

Lemma channel_bit_range (channels : string) (i : nat) :
  (1 <= i <= 8)%nat -> 0 <= channel_bit channels i < 256.
Proof.
  intros Hi. unfold channel_bit. destruct (occurs _ channels); [|lia].
  assert (H : (i = 1 \/ i = 2 \/ i = 3 \/ i = 4 \/ i = 5 \/ i = 6 \/ i = 7 \/ i = 8)%nat) by lia.
  repeat (destruct H as [-> | H]); try subst i; cbn; lia.
Qed.

Lemma channel_mask_range (channels : string) : 0 <= channel_mask channels < 256.
Proof.
  unfold channel_mask. cbn [seq map fold_right].
  repeat (apply lor_byte; [apply channel_bit_range; lia|]). lia.
Qed.

(** One [|=] of the source sets the bit of its channel when the digit occurs. *)
Lemma set_channel_step (channels digit : string) (k : Z) (i : nat) (x : Z) :
  digit = String (ascii_of_nat (48 + i)) EmptyString -> k = Z.of_nat i - 1 ->
  (1 <= i <= 8)%nat -> 0 <= x < 256 ->
  set_channel channels digit k x = Z.lor x (channel_bit channels i)
  /\ 0 <= Z.lor x (channel_bit channels i) < 256.
Proof.
  intros -> -> Hi Hx.
  pose proof (channel_bit_range channels i Hi) as Hb.
  split; [|apply lor_byte; assumption].
  unfold set_channel. rewrite strstr_char.
  unfold channel_bit in *. destruct (occurs _ channels).
  - rewrite Z.shiftl_1_l. apply uchar_small. apply lor_byte; assumption.
  - rewrite Z.lor_0_r. reflexivity.
Qed.

(** One [&= ~] of the source clears the bit of its channel when the digit occurs. *)
Lemma clear_channel_step (channels digit : string) (k : Z) (i : nat) (x : Z) :
  digit = String (ascii_of_nat (48 + i)) EmptyString -> k = Z.of_nat i - 1 ->
  0 <= x < 256 ->
  clear_channel channels digit k x = Z.land x (Z.lnot (channel_bit channels i))
  /\ 0 <= Z.land x (Z.lnot (channel_bit channels i)) < 256.
Proof.
  intros -> -> Hx.
  split; [|rewrite <- (land_byte x) by assumption; apply uchar_range].
  unfold clear_channel, channel_bit. rewrite strstr_char.
  destruct (occurs _ channels).
  - rewrite Z.shiftl_1_l. apply land_byte. exact Hx.
  - change (Z.lnot 0) with (-1). rewrite Z.land_m1_r. reflexivity.
Qed.

Lemma set_channels_mask (channels : string) (x : Z) :
  0 <= x < 256 ->
  set_channel channels "8" 7 (set_channel channels "7" 6 (set_channel channels "6" 5
    (set_channel channels "5" 4 (set_channel channels "4" 3 (set_channel channels "3" 2
      (set_channel channels "2" 1 (set_channel channels "1" 0 x)))))))
  = Z.lor x (channel_mask channels).
Proof.
  intros Hx.
  destruct (set_channel_step channels "1" 0 1 x eq_refl eq_refl ltac:(lia) Hx) as [-> H1].
  destruct (set_channel_step channels "2" 1 2 _ eq_refl eq_refl ltac:(lia) H1) as [-> H2].
  destruct (set_channel_step channels "3" 2 3 _ eq_refl eq_refl ltac:(lia) H2) as [-> H3].
  destruct (set_channel_step channels "4" 3 4 _ eq_refl eq_refl ltac:(lia) H3) as [-> H4].
  destruct (set_channel_step channels "5" 4 5 _ eq_refl eq_refl ltac:(lia) H4) as [-> H5].
  destruct (set_channel_step channels "6" 5 6 _ eq_refl eq_refl ltac:(lia) H5) as [-> H6].
  destruct (set_channel_step channels "7" 6 7 _ eq_refl eq_refl ltac:(lia) H6) as [-> H7].
  destruct (set_channel_step channels "8" 7 8 _ eq_refl eq_refl ltac:(lia) H7) as [-> _].
  unfold channel_mask. cbn [seq map fold_right]. rewrite Z.lor_0_r, <- !Z.lor_assoc.
  reflexivity.
Qed.

Lemma clear_channels_mask (channels : string) (x : Z) :
  0 <= x < 256 ->
  clear_channel channels "8" 7 (clear_channel channels "7" 6 (clear_channel channels "6" 5
    (clear_channel channels "5" 4 (clear_channel channels "4" 3 (clear_channel channels "3" 2
      (clear_channel channels "2" 1 (clear_channel channels "1" 0 x)))))))
  = Z.land x (Z.lnot (channel_mask channels)).
Proof.
  intros Hx.
  destruct (clear_channel_step channels "1" 0 1 x eq_refl eq_refl Hx) as [-> H1].
  destruct (clear_channel_step channels "2" 1 2 _ eq_refl eq_refl H1) as [-> H2].
  destruct (clear_channel_step channels "3" 2 3 _ eq_refl eq_refl H2) as [-> H3].
  destruct (clear_channel_step channels "4" 3 4 _ eq_refl eq_refl H3) as [-> H4].
  destruct (clear_channel_step channels "5" 4 5 _ eq_refl eq_refl H4) as [-> H5].
  destruct (clear_channel_step channels "6" 5 6 _ eq_refl eq_refl H5) as [-> H6].
  destruct (clear_channel_step channels "7" 6 7 _ eq_refl eq_refl H6) as [-> H7].
  destruct (clear_channel_step channels "8" 7 8 _ eq_refl eq_refl H7) as [-> _].
  unfold channel_mask. cbn [seq map fold_right]. rewrite Z.lor_0_r.
  rewrite !Z.lnot_lor, <- !Z.land_assoc. reflexivity.
Qed.

(** Starting from [0xFF], the cleared bits leave the complement of the mask. *)
Lemma inhibit_channels_mask (channels : string) :
  clear_channel channels "8" 7 (clear_channel channels "7" 6 (clear_channel channels "6" 5
    (clear_channel channels "5" 4 (clear_channel channels "4" 3 (clear_channel channels "3" 2
      (clear_channel channels "2" 1 (clear_channel channels "1" 0 255)))))))
  = C.uchar (Z.lnot (channel_mask channels)).
Proof.
  rewrite clear_channels_mask by lia.
  rewrite Z.land_comm, <- uchar_land_ones. reflexivity.
Qed.

(** The complement of a mask, as an unsigned char, is [255] less the mask. *)
Lemma uchar_lnot_mask (channels : string) :
  C.uchar (Z.lnot (channel_mask channels)) = 255 - channel_mask channels.
Proof.
  pose proof (channel_mask_range channels) as H. unfold C.uchar, Z.lnot.
  replace (Z.pred (- channel_mask channels))
    with ((255 - channel_mask channels) + (-1) * 2 ^ 8) by lia.
  rewrite Z.mod_add by lia. apply Z.mod_small. lia.
Qed.

(** ** The channel commands *)

Local Arguments set_channel : simpl never.
Local Arguments clear_channel : simpl never.

(** C6: an enable-channels (disable-channels) command with a channels
    string sends set_inhibits(new, 0xFF), where new is the OR (the
    AND-NOT) of the cached mask with the bits of the digits 1 to 8 that
    occur in the string; the cached mask becomes new exactly when the
    exchange returns OK, and the reply is result ok then and result
    failed otherwise.  From mask 0x00, the channels 135 give
    set_inhibits(0x15, 0xFF), result ok and the cached mask 0x15. *)
Theorem enable_disable_channels_mask :
  forall (cmd : m_command) (w : World) (channels : string),
    json_object_get (jsonMessage cmd) "channels" = Some (JSON_STRING channels) ->
    0 <= channelInhibits (device_of (metacash w) (device cmd)) < 256 ->
    let dev := device_of (metacash w) (device cmd) in
    let old := channelInhibits dev in
    let enabled := Z.lor old (channel_mask channels) in
    let disabled := Z.land old (Z.lnot (channel_mask channels)) in
    let ok := is_ok (next_status w) in
    let reply := (responseTopic cmd,
                  result_reply (responseMsgId cmd) (msgId cmd) (if ok then "ok" else "failed")) in
    (exists w',
       handleEnableChannels cmd w = Returned tt w' /\
       serial w' = (serial w ++ [(SSPAddress (sspC dev), ssp6_set_inhibits enabled 255)])%list /\
       channelInhibits (device_of (metacash w') (device cmd)) = (if ok then enabled else old) /\
       redis w' = (redis w ++ [reply])%list)
    /\ (exists w',
       handleDisableChannels cmd w = Returned tt w' /\
       serial w' = (serial w ++ [(SSPAddress (sspC dev), ssp6_set_inhibits disabled 255)])%list /\
       channelInhibits (device_of (metacash w') (device cmd)) = (if ok then disabled else old) /\
       redis w' = (redis w ++ [reply])%list)
    /\ (let o := cbOnRequestMessage (L := manual)
                   (arrives "validator-request"
                      (jq "{`msgId`:`B`,`cmd`:`enable-channels`,`channels`:`135`}"))
                   (started 1 [Some [240]]) in
        sent o = Some [(0, ssp6_set_inhibits 21 255)]
        /\ published o
           = Some [("validator-response", jq "{`msgId`:`R`,`correlId`:`B`,`result`:`ok`}")]
        /\ cached_inhibits o Validator = Some 21).
Proof.
  intros cmd w channels Hch Hold dev old enabled disabled ok reply.
  subst dev old enabled disabled ok reply.
  split; [|split].
  - unfold handleEnableChannels. rewrite Hch.
    cbn [json_is_string negb json_string_value defined].
    rewrite <- (set_channels_mask channels _ Hold).
    destruct (device cmd); destruct (is_ok (next_status w)) eqn:Hok;
      cbn; rewrite ?Hok; cbn; (eexists; split; [reflexivity|]); cbn; repeat split.
  - unfold handleDisableChannels. rewrite Hch.
    cbn [json_is_string negb json_string_value defined].
    rewrite <- (clear_channels_mask channels _ Hold).
    destruct (device cmd); destruct (is_ok (next_status w)) eqn:Hok;
      cbn; rewrite ?Hok; cbn; (eexists; split; [reflexivity|]); cbn; repeat split.
  - vm_compute. repeat split.
Qed.

(** ** The callback and the memory of the message *)

Lemma bind_returned {A B : Type} (c : M A) (k : A -> M B) (w w' : World) (a : A) :
  c w = Returned a w' -> bind c k w = k a w'.
Proof. intros H. unfold bind. rewrite H. reflexivity. Qed.

(** An accepted request runs the quit handler when its text holds quit,
    then the reply for no hardware or the branch its text selects, and
    then releases the parsed message; the command structure has every
    member but [message]. *)
Lemma cbOnRequestMessage_runs
    (kind topic reply_topic text id name : string) (d : device_ref) (j : json) (w : World) :
  streq kind "subscribe" = false ->
  route topic = Some (d, reply_topic) ->
  json_loads text = inl j ->
  json_object_get j "msgId" = Some (JSON_STRING id) ->
  json_object_get j "cmd" = Some (JSON_STRING name) ->
  let cmd := {| message := None; jsonMessage := j; command := name; msgId := id;
                responseMsgId := uuid_source w (uuid_calls w);
                responseTopic := reply_topic; device := d |} in
  cbOnRequestMessage (Some (REDIS_REPLY_ARRAY [kind; topic; text])) w
  = ((if isCommand text "quit" then handleQuit cmd else ret tt) ;;
     w1 <- get ;;
     freed <- (if deviceAvailable (metacash w1) =? 0
               then replyWith reply_topic
                      (jq "{`correlId`:`%s`,`error`:`hardware unavailable`}")
                      [Printf.Str id] ;;
                    ret []
               else run (dispatch text) text cmd) ;;
     json_decref j freed) (after_uuid w).
Proof.
  intros Hkind Hroute Hloads Hid Hcmd cmd. subst cmd.
  unfold cbOnRequestMessage.
  rewrite Hkind, Hroute, Hloads, Hid, Hcmd.
  reflexivity.
Qed.

(** The quit handler, when it runs, returns and leaves the devices and
    the availability flag as they were. *)
Lemma quit_step (text : string) (cmd : m_command) (w : World) :
  exists w1,
    (if isCommand text "quit" then handleQuit cmd else ret tt) w = Returned tt w1
    /\ metacash w1 = metacash w.
Proof.
  destruct (isCommand text "quit"); eexists; split; reflexivity.
Qed.

(** The handler of inhibit-channels up to its return: one exchange with
    the complement of the mask, no write of a cached mask, the reply by
    the result, and the buffer of channels freed. *)
Lemma handleInhibitChannels_run (cmd : m_command) (w : World) (channels : string) :
  json_object_get (jsonMessage cmd) "channels" = Some (JSON_STRING channels) ->
  exists w',
    handleInhibitChannels cmd w = Returned ["channels"] w' /\
    serial w'
    = (serial w ++ [(SSPAddress (sspC (device_of (metacash w) (device cmd))),
                     ssp6_set_inhibits (C.uchar (Z.lnot (channel_mask channels))) 255)])%list /\
    channelInhibits (hopper (metacash w')) = channelInhibits (hopper (metacash w)) /\
    channelInhibits (validator (metacash w')) = channelInhibits (validator (metacash w)) /\
    redis w'
    = (redis w ++ [(responseTopic cmd,
                    result_reply (responseMsgId cmd) (msgId cmd)
                      (if is_ok (next_status w) then "ok" else "failed"))])%list.
Proof.
  intros Hch.
  unfold handleInhibitChannels. rewrite Hch.
  cbn [json_is_string negb json_string_value defined].
  rewrite <- (inhibit_channels_mask channels).
  destruct (device cmd); destruct (is_ok (next_status w)) eqn:Hok;
    cbn; rewrite ?Hok; cbn; (eexists; split; [reflexivity|]); cbn; repeat split.
Qed.

(** C9: an accepted inhibit-channels request with a channels string,
    while the hardware is available, is an undefined run of the callback.
    Its handler does what the claim says, up to its return: it sends
    set_inhibits(low, 0xFF), where low is the complement, in eight bits,
    of the mask of the digits 1 to 8 that occur in the string, writes no
    cached mask whatever the exchange returns, and replies by the result.
    It then frees the buffer of channels, which belongs to the parsed
    message, and the callback's json_decref frees it a second time. *)
Theorem inhibit_channels_frees_twice :
  forall (kind topic text reply_topic id name channels : string) (d : device_ref)
         (j : json) (w : World),
    streq kind "subscribe" = false ->
    route topic = Some (d, reply_topic) ->
    json_loads text = inl j ->
    json_object_get j "msgId" = Some (JSON_STRING id) ->
    json_object_get j "cmd" = Some (JSON_STRING name) ->
    json_object_get j "channels" = Some (JSON_STRING channels) ->
    dispatch text = to_handleInhibitChannels ->
    deviceAvailable (metacash w) <> 0 ->
    cbOnRequestMessage (Some (REDIS_REPLY_ARRAY [kind; topic; text])) w = Undefined
    /\ forall (cmd : m_command) (w0 : World),
         jsonMessage cmd = j ->
         exists w',
           handleInhibitChannels cmd w0 = Returned ["channels"] w' /\
           serial w'
           = (serial w0
              ++ [(SSPAddress (sspC (device_of (metacash w0) (device cmd))),
                   ssp6_set_inhibits (C.uchar (Z.lnot (channel_mask channels))) 255)])%list /\
           channelInhibits (hopper (metacash w')) = channelInhibits (hopper (metacash w0)) /\
           channelInhibits (validator (metacash w'))
           = channelInhibits (validator (metacash w0)) /\
           redis w'
           = (redis w0 ++ [(responseTopic cmd,
                            result_reply (responseMsgId cmd) (msgId cmd)
                              (if is_ok (next_status w0) then "ok" else "failed"))])%list.
Proof.
  intros kind topic text reply_topic id name channels d j w
         Hkind Hroute Hloads Hid Hcmd Hch Hdispatch Havailable.
  split.
  - rewrite (cbOnRequestMessage_runs kind topic reply_topic text id name d j w
               Hkind Hroute Hloads Hid Hcmd).
    match goal with
    | |- bind (if _ then handleQuit ?c else _) _ _ = _ =>
        destruct (quit_step text c (after_uuid w)) as (w1 & Hquit & Hsame);
        destruct (handleInhibitChannels_run c w1 channels Hch) as (w2 & Hrun & _)
    end.
    rewrite (bind_returned _ _ _ _ _ Hquit).
    unfold bind at 1. unfold get at 1. rewrite Hsame.
    change (metacash (after_uuid w)) with (metacash w).
    apply Z.eqb_neq in Havailable. rewrite Havailable, Hdispatch. cbn [run].
    rewrite (bind_returned _ _ _ _ _ Hrun).
    unfold json_decref. cbn [existsb]. rewrite Hch. reflexivity.
  - intros cmd w0 <-. apply handleInhibitChannels_run. exact Hch.
Qed.

(** ** The poll events *)

Lemma index_bounds {A : Type} (a : list A) (i : Z) (x : A) :
  C.index a i = Some x -> 0 <= i < 2 ^ 63 - 1.
Proof.
  unfold C.index. intros H.
  destruct (0 <=? i) eqn:H0; [|discriminate].
  destruct (i <? 2 ^ 63 - 1) eqn:H1; [|discriminate].
  apply Z.leb_le in H0. apply Z.ltb_lt in H1. lia.
Qed.

Lemma index_none_beyond {A : Type} (a : list A) (i : Z) :
  2 ^ 63 - 1 <= i -> C.index a i = None.
Proof.
  intros H. unfold C.index.
  destruct (0 <=? i); [|reflexivity].
  destruct (i <? 2 ^ 63 - 1) eqn:H1; [|reflexivity].
  apply Z.ltb_lt in H1. lia.
Qed.

Lemma long_small (z : Z) : 0 <= z < 2 ^ 63 -> C.long z = z.
Proof.
  intros H. unfold C.long, C.signed.
  rewrite Z.mod_small by lia.
  destruct (z <? 2 ^ (64 - 1)) eqn:Hlt; [reflexivity|].
  apply Z.ltb_ge in Hlt. change (2 ^ (64 - 1)) with (2 ^ 63) in Hlt. lia.
Qed.

Lemma ulong_small (z : Z) : 0 <= z < 2 ^ 64 -> C.ulong z = z.
Proof. intros H. unfold C.ulong. apply Z.mod_small. exact H. Qed.

Lemma uint_small (z : Z) : 0 <= z < 2 ^ 32 -> C.uint z = z.
Proof. intros H. unfold C.uint. apply Z.mod_small. exact H. Qed.

(** [0 - 1] in [unsigned long]. *)
Lemma ulong_minus_one : C.ulong (0 - 1) = 2 ^ 64 - 1.
Proof. reflexivity. Qed.

Local Arguments C.long : simpl never.
Local Arguments C.ulong : simpl never.
Local Arguments C.uint : simpl never.
Local Arguments C.index : simpl never.
Local Arguments Printf.decimal : simpl never.
Local Arguments Z.mul : simpl never.
Local Arguments Z.sub : simpl never.

(** What the validator publishes for a note on a channel of its report. *)
Lemma channel_amount_run (device : device_ref) (w : World) (k : Z) (channel : SSP6_CHANNEL_DATA) :
  C.index (ChannelData (sspSetupReq (device_of (metacash w) device))) (k - 1) = Some channel ->
  0 <= value channel -> value channel * 100 < 2 ^ 32 ->
  channel_amount device k w = Returned (value channel * 100) w.
Proof.
  intros Hidx Hv Hprod.
  pose proof (index_bounds _ _ _ Hidx) as Hk.
  unfold channel_amount. cbv [bind load get ret].
  rewrite ulong_small by lia. rewrite Hidx. cbv [defined ret].
  rewrite uint_small by lia. reflexivity.
Qed.

(** X18: for a validator READ event with data1 = k > 0, and for a
    validator CREDIT event with channel k, where k - 1 is an index of the
    cached report and the product fits the unsigned int it is computed
    in, the published event has the report's value at k - 1 times 100 as
    its amount and k as its channel. *)
Theorem validator_read_credit_amount :
  forall (device : device_ref) (w : World) (e : SSP_POLL_EVENT6) (k : Z)
         (channel : SSP6_CHANNEL_DATA),
    data1 e = k -> 0 < k ->
    C.index (ChannelData (sspSetupReq (device_of (metacash w) device))) (k - 1) = Some channel ->
    0 <= value channel -> value channel * 100 < 2 ^ 32 ->
    (event e = SSP_POLL_READ ->
     validatorEventHandler device {| events := [e] |} w
     = Returned tt (after_publish w "validator-event"
                      (channel_event "read" (value channel * 100) k)))
    /\ (event e = SSP_POLL_CREDIT ->
        validatorEventHandler device {| events := [e] |} w
        = Returned tt (after_publish w "validator-event"
                         (channel_event "credit" (value channel * 100) k))).
Proof.
  intros device w e k channel Hk Hpos Hidx Hv Hprod.
  pose proof (index_bounds _ _ _ Hidx) as Hb.
  assert (Hgt : (0 <? data1 e) = true) by (apply Z.ltb_lt; lia).
  split; intros Hev; unfold validatorEventHandler, for_each, events, validator_event;
    rewrite Hev, ?Hgt, Hk.
  - unfold bind at 1. unfold bind at 1.
    rewrite (channel_amount_run device w k channel Hidx Hv Hprod).
    cbn. rewrite !long_small by lia. reflexivity.
  - unfold bind at 1. unfold bind at 1.
    rewrite (channel_amount_run device w k channel Hidx Hv Hprod).
    cbn. rewrite !long_small by lia. reflexivity.
Qed.

(** C10: the CREDIT branch reads the cached report at index data1 - 1
    with no test of data1: with data1 = 0 the index is ULONG_MAX, outside
    every array, and the run is undefined, where READ with data1 = 0 is
    guarded and publishes the reading event; a CREDIT event is handled
    without undefined behaviour only if data1 >= 1 and data1 - 1 is an
    index of the report, and is handled so whenever it is. *)
Theorem credit_index_unguarded :
  forall (device : device_ref) (w : World) (d2 : Z) (currency : string),
    validatorEventHandler device
      {| events := [poll_event SSP_POLL_CREDIT 0 d2 currency] |} w = Undefined
    /\ validatorEventHandler device
         {| events := [poll_event SSP_POLL_READ 0 d2 currency] |} w
       = Returned tt (after_publish w "validator-event" (jq "{`event`:`reading`}"))
    /\ (forall d1 : Z,
          0 <= d1 < 2 ^ 64 ->
          validatorEventHandler device
            {| events := [poll_event SSP_POLL_CREDIT d1 d2 currency] |} w <> Undefined ->
          1 <= d1
          /\ exists channel,
               C.index (ChannelData (sspSetupReq (device_of (metacash w) device))) (d1 - 1)
               = Some channel)
    /\ (forall (d1 : Z) (channel : SSP6_CHANNEL_DATA),
          C.index (ChannelData (sspSetupReq (device_of (metacash w) device))) (d1 - 1)
          = Some channel ->
          validatorEventHandler device
            {| events := [poll_event SSP_POLL_CREDIT d1 d2 currency] |} w <> Undefined).
Proof.
  intros device w d2 currency.
  assert (Hrun : forall d1 : Z,
             validatorEventHandler device
               {| events := [poll_event SSP_POLL_CREDIT d1 d2 currency] |} w
             = match C.index (ChannelData (sspSetupReq (device_of (metacash w) device)))
                       (C.ulong (d1 - 1)) with
               | Some channel =>
                   Returned tt (after_publish w "validator-event"
                     (jq "{`event`:`credit`,`amount`:"
                      ++ Printf.decimal (C.long (C.uint (value channel * 100)))
                      ++ jq ",`channel`:" ++ Printf.decimal (C.long d1) ++ "}"))
               | None => Undefined
               end).
  { intros d1. unfold validatorEventHandler, for_each, events, validator_event, poll_event.
    cbv [event data1 bind channel_amount load get ret].
    destruct (C.index _ (C.ulong (d1 - 1))) as [channel|]; reflexivity. }
  split; [|split; [|split]].
  - rewrite Hrun, ulong_minus_one, index_none_beyond by lia. reflexivity.
  - unfold validatorEventHandler, for_each, events, validator_event, poll_event.
    reflexivity.
  - intros d1 Hd1 Hdef. rewrite Hrun in Hdef.
    destruct (Z.eq_dec d1 0) as [->|Hne].
    + rewrite ulong_minus_one, index_none_beyond in Hdef by lia. contradiction.
    + split; [lia|].
      rewrite ulong_small in Hdef by lia.
      destruct (C.index _ (d1 - 1)) as [channel|]; [|contradiction].
      exists channel. reflexivity.
  - intros d1 channel Hidx. rewrite Hrun.
    pose proof (index_bounds _ _ _ Hidx) as Hb.
    rewrite ulong_small, Hidx by lia. discriminate.
Qed.

(** X19: for a hopper event whose data1 is printed unchanged by the long
    directive, DISPENSING and DISPENSED publish the event with its
    amount, equal to data1, and no other field, and COIN_CREDIT and
    CASHBOX_PAID publish it with the amount, equal to data1, and the cc
    of the event. *)
Theorem hopper_amount_events :
  forall (device : device_ref) (w : World) (e : SSP_POLL_EVENT6),
    0 <= data1 e < 2 ^ 63 ->
    (event e = SSP_POLL_DISPENSING ->
     hopperEventHandler device {| events := [e] |} w
     = Returned tt (after_publish w "hopper-event" (amount_event "dispensing" (data1 e))))
    /\ (event e = SSP_POLL_DISPENSED ->
        hopperEventHandler device {| events := [e] |} w
        = Returned tt (after_publish w "hopper-event" (amount_event "dispensed" (data1 e))))
    /\ (event e = SSP_POLL_COIN_CREDIT ->
        hopperEventHandler device {| events := [e] |} w
        = Returned tt (after_publish w "hopper-event"
                         (amount_cc_event "coin credit" (data1 e) (cc e))))
    /\ (event e = SSP_POLL_CASHBOX_PAID ->
        hopperEventHandler device {| events := [e] |} w
        = Returned tt (after_publish w "hopper-event"
                         (amount_cc_event "cashbox paid" (data1 e) (cc e)))).
Proof.
  intros device w e Hd.
  repeat split; intros Hev;
    unfold hopperEventHandler, for_each, events, hopper_event; rewrite Hev;
    cbn; rewrite long_small by lia; reflexivity.
Qed.

(** ** The dispatch *)

Ltac chain_entry m :=
  unfold dispatch;
  repeat match goal with
         | H : none_occurs m (_ :: _) |- _ => inversion H; clear H; subst
         | H : Forall _ (_ :: _) |- _ => inversion H; clear H; subst
         end;
  cbn [fst] in *;
  repeat match goal with
         | E : isCommand m _ = _ |- _ => rewrite E; clear E
         end;
  cbn [orb]; rewrite ?orb_true_r; reflexivity.

(** C7, as the code has it: the branch is the first of the chain whose
    text [`cmd`:`name`] occurs in the raw message, and the unknown-command
    reply when none occurs.  So two accepted messages that parse to the
    same cmd, the name of a command, and in which the text of that
    command occurs and the text of no other command does, take the same
    branch, that of the command, and agree on whether the quit handler
    runs first. *)
Theorem dispatch_takes_first_match :
  forall m : string,
    (forall before name h after,
        chain = (before ++ (name, h) :: after)%list ->
        none_occurs m before -> isCommand m name = true -> dispatch m = h)
    /\ (none_occurs m chain -> dispatch m = to_unknown_command)
    /\ (forall (m' name : string) (h : handler) (j j' : json),
          json_loads m = inl j -> json_loads m' = inl j' ->
          json_object_get j "cmd" = Some (JSON_STRING name) ->
          json_object_get j' "cmd" = Some (JSON_STRING name) ->
          In (name, h) chain ->
          names_only m name -> names_only m' name ->
          dispatch m = h /\ dispatch m' = h
          /\ isCommand m "quit" = isCommand m' "quit").
Proof.
  intros m. split; [|split].
  - intros before name h after Hchain Hbefore Hname. unfold chain in Hchain.
    repeat (destruct before as [|entry before];
            [ cbn [app] in Hchain; inversion Hchain; subst; clear Hchain; chain_entry m
            | cbn [app] in Hchain; injection Hchain as <- Hchain ]).
    destruct before; discriminate Hchain.
  - intros Hnone. unfold chain in Hnone. chain_entry m.
  - intros m' name h j j' _ _ _ _ Hin Hm Hm'.
    unfold names_only, command_names in Hm, Hm'.
    assert (Hquit : isCommand m "quit" = isCommand m' "quit").
    { inversion Hm; inversion Hm'; congruence. }
    unfold chain in Hin. cbn [In] in Hin.
    repeat (destruct Hin as [Hin|Hin];
            [ injection Hin as <- <-;
              split; [|split; [|exact Hquit]];
              [ clear Hm' Hquit; revert Hm | clear Hm Hquit; revert Hm' ];
              (intros H; unfold dispatch;
               repeat match goal with
                      | H : Forall _ (_ :: _) |- _ => inversion H; clear H; subst
                      end;
               cbn [streq String.eqb Ascii.eqb Bool.eqb andb] in *;
               repeat match goal with
                      | E : isCommand _ _ = _ |- _ => rewrite E; clear E
                      end;
               reflexivity)
            | ]).
    contradiction.
Qed.

End Properties.

(** ** Runs of the daemon *)

(** C1: requests that are accepted and not answered once under their own
    msgId.  channel-security-data publishes nothing; quit is answered
    twice, with the hardware and without it; a last-reject-note that
    times out is answered with no correlId. *)
Theorem request_not_answered_once :
  published (cbOnRequestMessage (L := manual)
               (arrives "validator-request" (jq "{`msgId`:`A`,`cmd`:`channel-security-data`}"))
               (started 1 [Some [240; 2; 1; 1]]))
  = Some []
  /\ published (cbOnRequestMessage (L := manual)
                  (arrives "hopper-request" (jq "{`msgId`:`A`,`cmd`:`quit`}"))
                  (started 1 []))
     = Some [("hopper-response", jq "{`msgId`:`R`,`correlId`:`A`,`result`:`ok`}");
             ("hopper-response",
              jq "{`correlId`:`A`,`error`:`unknown command`,`cmd`:`{`msgId`:`A`,`cmd`:`quit`}`}")]
  /\ published (cbOnRequestMessage (L := manual)
                  (arrives "hopper-request" (jq "{`msgId`:`F`,`cmd`:`quit`}"))
                  (started 0 []))
     = Some [("hopper-response", jq "{`msgId`:`R`,`correlId`:`F`,`result`:`ok`}");
             ("hopper-response", jq "{`correlId`:`F`,`error`:`hardware unavailable`}")]
  /\ published (cbOnRequestMessage (L := manual)
                  (arrives "validator-request" (jq "{`msgId`:`N`,`cmd`:`last-reject-note`}"))
                  (started 1 []))
     = Some [("validator-response", jq "{`timeout`:`last reject note`}")]
  /\ member (jq "{`timeout`:`last reject note`}") "correlId" = None.
Proof. vm_compute. repeat split. Qed.

(** C2: set-denomination-level with level 5 and amount 200 sends, after
    the command byte 0x34, the count 0 and the value 5, and then the
    count 200 and the value 5: the value on the wire is the property
    level and the count is the property amount.  The reply follows the
    second answer alone. *)
Theorem set_denomination_level_swaps_fields :
  let request := arrives "hopper-request"
                   (jq "{`msgId`:`M`,`cmd`:`set-denomination-level`,`level`:5,`amount`:200}") in
  sent (cbOnRequestMessage (L := manual) request (started 1 [Some [240]; Some [240]]))
  = Some [(16, send_ssp_command ([52] ++ [0; 0] ++ [5; 0; 0; 0] ++ [69; 85; 82]));
          (16, send_ssp_command ([52] ++ [200; 0] ++ [5; 0; 0; 0] ++ [69; 85; 82]))]
  /\ published (cbOnRequestMessage (L := manual) request (started 1 [Some [245]; Some [240]]))
     = Some [("hopper-response", jq "{`msgId`:`R`,`correlId`:`M`,`result`:`ok`}")]
  /\ published (cbOnRequestMessage (L := manual) request (started 1 [Some [240]; Some [245]]))
     = Some [("hopper-response", jq "{`msgId`:`R`,`correlId`:`M`,`result`:`failed`}")].
Proof. vm_compute. repeat split. Qed.

(** C3: the reply to the unknown command levitate carries the whole raw
    message, not the command's name, in its cmd field, and with the
    quotes of the message in it the reply is no JSON. *)
Theorem unknown_command_reply_carries_message :
  published (cbOnRequestMessage (L := manual) (arrives "hopper-request" levitate) (started 1 []))
  = Some [("hopper-response",
           jq "{`correlId`:`D`,`error`:`unknown command`,`cmd`:`" ++ levitate ++ jq "`}")]
  /\ levitate = jq "{`msgId`:`D`,`cmd`:`levitate`}"
  /\ member levitate "cmd" = Some (JSON_STRING "levitate")
  /\ Jansson.loads (jq "{`correlId`:`D`,`error`:`unknown command`,`cmd`:`" ++ levitate ++ jq "`}")
     = inr Jansson.invalid.
Proof. vm_compute. repeat split. Qed.

(** C8: the replies to get-firmware-version and get-dataset-version end
    in a bracket that nothing opened, and do not parse as JSON. *)
Theorem version_reply_is_malformed :
  published (cbOnRequestMessage (L := manual)
               (arrives "validator-request" (jq "{`msgId`:`V`,`cmd`:`get-firmware-version`}"))
               (started 1 [Some (240 :: C.buffer_of_string "NV02004141498000")]))
  = Some [("validator-response", jq "{`correlId`:`V`,`version`:`NV02004141498000`]}")]
  /\ Jansson.loads (jq "{`correlId`:`V`,`version`:`NV02004141498000`]}") = inr Jansson.invalid
  /\ published (cbOnRequestMessage (L := manual)
                  (arrives "validator-request" (jq "{`msgId`:`V`,`cmd`:`get-dataset-version`}"))
                  (started 1 [Some (240 :: C.buffer_of_string "EUR01610")]))
     = Some [("validator-response", jq "{`correlId`:`V`,`version`:`EUR01610`]}")]
  /\ Jansson.loads (jq "{`correlId`:`V`,`version`:`EUR01610`]}") = inr Jansson.invalid
  /\ Jansson.loads (jq "{`correlId`:`V`,`version`:`EUR01610`}")
     = inl (JSON_OBJECT [("correlId", JSON_STRING "V"); ("version", JSON_STRING "EUR01610")]).
Proof. vm_compute. repeat split. Qed.

(** C4: the events published for DISPENSING and DISPENSED have the
    amount and no cc, where COIN_CREDIT and CASHBOX_PAID, on an event
    with the same fields, have both. *)
Theorem dispensing_event_without_cc :
  published (hopperEventHandler (L := manual) Hopper
               {| events := [poll_event SSP_POLL_DISPENSING 500 0 "EUR"] |} (started 1 []))
  = Some [("hopper-event", jq "{`event`:`dispensing`,`amount`:500}")]
  /\ member (jq "{`event`:`dispensing`,`amount`:500}") "amount" = Some (JSON_INTEGER 500)
  /\ member (jq "{`event`:`dispensing`,`amount`:500}") "cc" = None
  /\ published (hopperEventHandler (L := manual) Hopper
                  {| events := [poll_event SSP_POLL_DISPENSED 500 0 "EUR"] |} (started 1 []))
     = Some [("hopper-event", jq "{`event`:`dispensed`,`amount`:500}")]
  /\ member (jq "{`event`:`dispensed`,`amount`:500}") "cc" = None
  /\ published (hopperEventHandler (L := manual) Hopper
                  {| events := [poll_event SSP_POLL_COIN_CREDIT 500 0 "EUR"] |} (started 1 []))
     = Some [("hopper-event", jq "{`event`:`coin credit`,`amount`:500,`cc`:`EUR`}")]
  /\ published (hopperEventHandler (L := manual) Hopper
                  {| events := [poll_event SSP_POLL_CASHBOX_PAID 500 0 "EUR"] |} (started 1 []))
     = Some [("hopper-event", jq "{`event`:`cashbox paid`,`amount`:500,`cc`:`EUR`}")].
Proof. vm_compute. repeat split. Qed.

(** C5: with a report whose first channel has the value 42949673, a note
    the type of the value can hold, the product with 100 is computed in
    the 32 bits of an unsigned int before it is stored in the unsigned
    long amount, and the event published for a credit and for a read on
    channel 1 has the amount 4, not 4294967300. *)
Theorem credit_amount_wraps :
  C.index (ChannelData (sspSetupReq
             (device_of (metacash (reporting large_notes (started 1 []))) Validator))) (1 - 1)
  = Some {| value := 42949673; channel_cc := "EUR" |}
  /\ 42949673 * 100 = 4294967300
  /\ published (validatorEventHandler (L := manual) Validator
                  {| events := [poll_event SSP_POLL_CREDIT 1 0 "EUR"] |}
                  (reporting large_notes (started 1 [])))
     = Some [("validator-event", jq "{`event`:`credit`,`amount`:4,`channel`:1}")]
  /\ published (validatorEventHandler (L := manual) Validator
                  {| events := [poll_event SSP_POLL_READ 1 0 "EUR"] |}
                  (reporting large_notes (started 1 [])))
     = Some [("validator-event", jq "{`event`:`read`,`amount`:4,`channel`:1}")]
  /\ member (jq "{`event`:`credit`,`amount`:4,`channel`:1}") "amount" = Some (JSON_INTEGER 4).
Proof. vm_compute. repeat split. Qed.

(** A coin credit of 200 with the currency EUR. *)
Lemma hopper_amount_events_witness :
  0 <= data1 (poll_event SSP_POLL_COIN_CREDIT 200 0 "EUR") < 2 ^ 63
  /\ published (hopperEventHandler (L := manual) Hopper
                  {| events := [poll_event SSP_POLL_COIN_CREDIT 200 0 "EUR"] |} (started 1 []))
     = Some [("hopper-event", jq "{`event`:`coin credit`,`amount`:200,`cc`:`EUR`}")].
Proof.
  assert (H : 0 <= data1 (poll_event SSP_POLL_COIN_CREDIT 200 0 "EUR") < 2 ^ 63)
    by (cbn; lia).
  split; [exact H|].
  destruct (hopper_amount_events (L := manual) Hopper (started 1 [])
              (poll_event SSP_POLL_COIN_CREDIT 200 0 "EUR") H) as [_ [_ [Hcoin _]]].
  rewrite (Hcoin eq_refl). reflexivity.
Defined.

(** C7 fails as stated: two messages with the same parsed value (cmd is
    empty in both) take different branches, and a message whose cmd is
    levitate takes the branch of empty for what another field holds. *)
Lemma dispatch_depends_on_raw_text :
  Jansson.loads empty_compact = Jansson.loads empty_spaced
  /\ member empty_compact "cmd" = Some (JSON_STRING "empty")
  /\ dispatch empty_compact = to_handleEmpty
  /\ dispatch empty_spaced = to_unknown_command
  /\ member levitate "cmd" = Some (JSON_STRING "levitate")
  /\ member levitate_nested "cmd" = Some (JSON_STRING "levitate")
  /\ dispatch levitate = to_unknown_command
  /\ dispatch levitate_nested = to_handleEmpty.
Proof. vm_compute. repeat split. Qed.

(** Two requests for empty that differ in order, identifier and fields. *)
Lemma dispatch_takes_first_match_witness :
  names_only empty_compact "empty" /\ names_only empty_reordered "empty"
  /\ member empty_compact "cmd" = Some (JSON_STRING "empty")
  /\ member empty_reordered "cmd" = Some (JSON_STRING "empty")
  /\ dispatch empty_compact = to_handleEmpty /\ dispatch empty_reordered = to_handleEmpty.
Proof.
  assert (H1 : names_only empty_compact "empty") by (repeat constructor).
  assert (H2 : names_only empty_reordered "empty") by (repeat constructor).
  split; [exact H1|]. split; [exact H2|].
  split; [reflexivity|]. split; [reflexivity|].
  destruct (proj2 (proj2 (dispatch_takes_first_match (L := manual) empty_compact))
              empty_reordered "empty" to_handleEmpty
              (JSON_OBJECT [("msgId", JSON_STRING "A"); ("cmd", JSON_STRING "empty")])
              (JSON_OBJECT [("cmd", JSON_STRING "empty"); ("msgId", JSON_STRING "Z");
                            ("amount", JSON_INTEGER 7)])
              eq_refl eq_refl eq_refl eq_refl (or_introl eq_refl) H1 H2) as (Ha & Hb & _).
  split; assumption.
Defined.

(** A credit on channel 3 of the euro notes: the note of 20. *)
Lemma validator_read_credit_amount_witness :
  C.index (ChannelData (sspSetupReq (device_of (metacash (started 1 [])) Validator))) (3 - 1)
  = Some {| value := 20; channel_cc := "EUR" |}
  /\ published (validatorEventHandler (L := manual) Validator
                  {| events := [poll_event SSP_POLL_CREDIT 3 0 "EUR"] |} (started 1 []))
     = Some [("validator-event", jq "{`event`:`credit`,`amount`:2000,`channel`:3}")].
Proof.
  split; [reflexivity|].
  destruct (validator_read_credit_amount (L := manual) Validator (started 1 [])
              (poll_event SSP_POLL_CREDIT 3 0 "EUR") 3 {| value := 20; channel_cc := "EUR" |}
              eq_refl ltac:(lia) eq_refl ltac:(cbn; lia) ltac:(cbn; lia)) as [_ Hcredit].
  rewrite (Hcredit eq_refl). reflexivity.
Defined.

(** Enabling the channels 1, 3 and 5 from the mask 0x00. *)
Lemma enable_disable_channels_mask_witness :
  json_object_get (jsonMessage enable_135) "channels" = Some (JSON_STRING "135")
  /\ exists w',
       handleEnableChannels enable_135 (started 1 [Some [240]]) = Returned tt w'
       /\ serial w' = [(0, ssp6_set_inhibits 21 255)]
       /\ channelInhibits (validator (metacash w')) = 21
       /\ redis w' = [("validator-response", jq "{`msgId`:`R`,`correlId`:`B`,`result`:`ok`}")].
Proof.
  split; [reflexivity|].
  exact (proj1 (enable_disable_channels_mask enable_135 (started 1 [Some [240]])
                  "135" eq_refl ltac:(cbn; lia))).
Defined.

(** Inhibiting the channels 1, 3 and 5: the low byte is 0xEA, and the
    callback does not return. *)
Lemma inhibit_channels_frees_twice_witness :
  dispatch inhibit_135_text = to_handleInhibitChannels
  /\ cbOnRequestMessage (L := manual) (arrives "validator-request" inhibit_135_text)
       (started 1 [Some [240]])
     = Undefined
  /\ exists w',
       handleInhibitChannels inhibit_135 (started 1 [Some [240]]) = Returned ["channels"] w'
       /\ serial w' = [(0, ssp6_set_inhibits 234 255)]
       /\ channelInhibits (hopper (metacash w')) = 0
       /\ channelInhibits (validator (metacash w')) = 0
       /\ redis w' = [("validator-response", jq "{`msgId`:`R`,`correlId`:`B`,`result`:`ok`}")].
Proof.
  assert (Havailable : deviceAvailable (metacash (started 1 [Some [240]])) <> 0)
    by (cbn; discriminate).
  destruct (inhibit_channels_frees_twice (L := manual)
              "message" "validator-request" inhibit_135_text "validator-response" "B"
              "inhibit-channels" "135" Validator (jsonMessage inhibit_135)
              (started 1 [Some [240]])
              eq_refl eq_refl eq_refl eq_refl eq_refl eq_refl eq_refl Havailable)
    as [Hrun Hhandler].
  split; [reflexivity|]. split; [exact Hrun|].
  exact (Hhandler inhibit_135 (started 1 [Some [240]]) eq_refl).
Defined.

(** * More properties of the code *)

Section Callback.

Context {L : Linked}.

Local Arguments Printf.decimal : simpl never.
Local Arguments C.int : simpl never.
Local Arguments C.long : simpl never.

(** X1: a delivery that is no request (NULL, no array of three elements,
    the confirmation of a subscription, or a message on another topic)
    changes nothing: no reply, no exchange, no state. *)
Theorem other_deliveries_are_ignored :
  forall (r : option redisReply) (w : World),
    is_request r = false -> cbOnRequestMessage r w = Returned tt w.
Proof.
  intros r w H.
  destruct r as [[element|]|]; try reflexivity.
  destruct element as [|kind [|topic [|text [|extra more]]]]; try reflexivity.
  unfold is_request in H. unfold cbOnRequestMessage, route.
  destruct (streq kind "subscribe"); [reflexivity|].
  cbn [negb andb] in H.
  destruct (streq topic "validator-request"); [discriminate|].
  destruct (streq topic "hopper-request"); [discriminate|].
  reflexivity.
Qed.

(** X2: a request that is no JSON, or whose msgId or cmd is missing or no
    string, gets one error reply on the paired response topic and leaves
    everything else as it was: no exchange on the serial line, no change
    of a device, no identifier taken. *)
Theorem malformed_requests_get_one_error :
  forall (kind topic text reply_topic : string) (d : device_ref) (w : World),
    streq kind "subscribe" = false ->
    route topic = Some (d, reply_topic) ->
    (forall error,
        json_loads text = inr error ->
        cbOnRequestMessage (Some (REDIS_REPLY_ARRAY [kind; topic; text])) w
        = Returned tt (after_publish w reply_topic (parse_error_reply error)))
    /\ (forall j,
          json_loads text = inl j ->
          json_is_string (json_object_get j "msgId") = false ->
          cbOnRequestMessage (Some (REDIS_REPLY_ARRAY [kind; topic; text])) w
          = Returned tt (after_publish w reply_topic
                           (jq "{`error`:`property 'msgId' missing or not a string`}")))
    /\ (forall j id,
          json_loads text = inl j ->
          json_object_get j "msgId" = Some (JSON_STRING id) ->
          json_is_string (json_object_get j "cmd") = false ->
          cbOnRequestMessage (Some (REDIS_REPLY_ARRAY [kind; topic; text])) w
          = Returned tt (after_publish w reply_topic
                           (error_reply id "property 'cmd' missing or not a string"))).
Proof.
  intros kind topic text reply_topic d w Hkind Hroute.
  split; [|split].
  - intros error Hloads. unfold cbOnRequestMessage. rewrite Hkind, Hroute, Hloads.
    reflexivity.
  - intros j Hloads Hid. unfold cbOnRequestMessage. rewrite Hkind, Hroute, Hloads, Hid.
    reflexivity.
  - intros j id Hloads Hid Hcmd. unfold cbOnRequestMessage.
    rewrite Hkind, Hroute, Hloads, Hid. cbn [json_is_string negb json_string_value defined].
    unfold bind at 1. cbn [ret]. rewrite Hcmd. reflexivity.
Qed.

(** X3: with no hardware ([deviceAvailable] is 0) every delivery returns
    with the serial line, the answers still to come and both devices
    untouched; an accepted request is answered hardware unavailable under
    its msgId, after the ok of quit when its text holds quit, which also
    raises the signal. *)
Theorem no_hardware_no_exchange :
  forall (r : option redisReply) (w : World),
    deviceAvailable (metacash w) = 0 ->
    (exists w',
        cbOnRequestMessage r w = Returned tt w'
        /\ serial w' = serial w /\ hardware w' = hardware w /\ metacash w' = metacash w)
    /\ (forall kind topic text reply_topic d j id name,
          r = Some (REDIS_REPLY_ARRAY [kind; topic; text]) ->
          streq kind "subscribe" = false ->
          route topic = Some (d, reply_topic) ->
          json_loads text = inl j ->
          json_object_get j "msgId" = Some (JSON_STRING id) ->
          json_object_get j "cmd" = Some (JSON_STRING name) ->
          exists w',
            cbOnRequestMessage r w = Returned tt w'
            /\ redis w'
               = (redis w
                  ++ (if isCommand text "quit"
                      then [(reply_topic, result_reply (uuid_source w (uuid_calls w)) id "ok")]
                      else [])
                  ++ [(reply_topic, error_reply id "hardware unavailable")])%list
            /\ receivedSignal w' = (if isCommand text "quit" then 1 else receivedSignal w)).
Proof.
  intros r w Hnone. split.
  - destruct r as [[element|]|]; try (exists w; repeat split; reflexivity).
    destruct element as [|kind [|topic [|text [|extra more]]]];
      try (exists w; repeat split; reflexivity).
    unfold cbOnRequestMessage.
    destruct (streq kind "subscribe"); [exists w; repeat split; reflexivity|].
    destruct (route topic) as [[d reply_topic]|]; [|exists w; repeat split; reflexivity].
    destruct (json_loads text) as [j|error]; [|eexists; split; [reflexivity|repeat split]].
    destruct (json_object_get j "msgId") as [[| | | | |id| |]|];
      try (eexists; split; [reflexivity|repeat split]).
    destruct (json_object_get j "cmd") as [[| | | | |name| |]|];
      try (eexists; split; [reflexivity|repeat split]).
    destruct (isCommand text "quit") eqn:Hquit;
      cbn; rewrite ?Hquit; cbn; rewrite Hnone; cbn;
      (eexists; split; [reflexivity|repeat split]).
  - intros kind topic text reply_topic d j id name -> Hkind Hroute Hloads Hid Hcmd.
    unfold cbOnRequestMessage. rewrite Hkind, Hroute, Hloads, Hid, Hcmd.
    destruct (isCommand text "quit") eqn:Hquit;
      cbn; rewrite ?Hquit; cbn; rewrite Hnone; cbn;
      (eexists; split; [reflexivity|]); cbn; rewrite <- ?app_assoc; repeat split.
Qed.

(** X4: empty, smart-empty, enable and disable start one exchange and
    reply accepted under the request's msgId whatever the device answers,
    a failure status or no answer at all included; the cached masks stay. *)
Theorem accepted_whatever_the_device_answers :
  forall (cmd : m_command) (w : World),
    let accepted (call : ssp_call) (o : outcome unit) :=
      exists w',
        o = Returned tt w'
        /\ serial w' = (serial w ++ [(address_of w (device cmd), call)])%list
        /\ redis w' = (redis w ++ [(responseTopic cmd,
                                   accepted_reply (responseMsgId cmd) (msgId cmd))])%list
        /\ channelInhibits (hopper (metacash w')) = channelInhibits (hopper (metacash w))
        /\ channelInhibits (validator (metacash w')) = channelInhibits (validator (metacash w)) in
    accepted (send_ssp_command [SSP_CMD_EMPTY]) (handleEmpty cmd w)
    /\ accepted (send_ssp_command [SSP_CMD_SMART_EMPTY]) (handleSmartEmpty cmd w)
    /\ accepted ssp6_enable (handleEnable cmd w)
    /\ accepted ssp6_disable (handleDisable cmd w).
Proof.
  intros cmd w accepted. subst accepted. cbv beta. unfold address_of.
  repeat split;
    unfold handleEmpty, handleSmartEmpty, handleEnable, handleDisable,
      mc_ssp_empty, mc_ssp_smart_empty;
    destruct (device cmd); cbn; (eexists; split; [reflexivity|]); cbn; repeat split.
Qed.

End Callback.

(** ** What a request may change *)

Section Frames.

Variable R : World -> World -> Prop.
Variable E : Z -> Prop.
Hypothesis R_refl : forall w, R w w.
Hypothesis R_trans : forall a b c, R a b -> R b c -> R a c.

Lemma obeys_ret {A : Type} (a : A) : obeys R E (ret a).
Proof. intros w. apply R_refl. Qed.

Lemma obeys_bind {A B : Type} (c : M A) (k : A -> M B) :
  obeys R E c -> (forall a, obeys R E (k a)) -> obeys R E (bind c k).
Proof.
  intros Hc Hk w. unfold bind. specialize (Hc w).
  destruct (c w) as [a w1|status w1|]; [|exact Hc|exact I].
  specialize (Hk a w1).
  destruct (k a w1) as [b w2|status w2|]; [|destruct Hk; split|exact I]; eauto.
Qed.

Lemma obeys_defined {A : Type} (v : option A) : obeys R E (defined v).
Proof. destruct v; intros w; [apply R_refl|exact I]. Qed.

Lemma obeys_undefined {A : Type} : obeys R E (@undefined A).
Proof. intros w. exact I. Qed.

Lemma obeys_json_decref (j : json) (freed : list string) : obeys R E (json_decref j freed).
Proof.
  unfold json_decref. destruct (existsb _ freed); [apply obeys_undefined | apply obeys_ret].
Qed.

Lemma obeys_get : obeys R E get.
Proof. intros w. apply R_refl. Qed.

Lemma obeys_load (d : device_ref) : obeys R E (load d).
Proof. intros w. apply R_refl. Qed.

Lemma obeys_response_byte (d : device_ref) (i : Z) : obeys R E (response_byte d i).
Proof.
  unfold response_byte. apply obeys_bind; [apply obeys_load|].
  intros dev. apply obeys_defined.
Qed.

Lemma obeys_response_bytes (d : device_ref) (count : nat) :
  forall from, obeys R E (response_bytes d from count).
Proof.
  induction count as [|count IH]; intros from; cbn [response_bytes].
  - apply obeys_ret.
  - apply obeys_bind; [apply obeys_response_byte|]. intros b.
    apply obeys_bind; [apply IH|]. intros rest. apply obeys_ret.
Qed.

Lemma obeys_for_each {A : Type} (body : A -> M unit) (l : list A) :
  (forall a, obeys R E (body a)) -> obeys R E (for_each l body).
Proof.
  intros Hbody. induction l as [|a rest IH]; cbn [for_each].
  - apply obeys_ret.
  - apply obeys_bind; [apply Hbody|]. intros _. exact IH.
Qed.

End Frames.

Ltac frame :=
  repeat
    (cbv beta iota zeta;
     first
       [ assumption
       | match goal with
         | H : forall x, obeys _ _ (?f x) |- obeys _ _ (?f _) => apply H
         | H : forall x, obeys _ _ (?f ?a x) |- obeys _ _ (?f ?a _) => apply H
         | H : forall x y, obeys _ _ (?f ?a ?b x y) |- obeys _ _ (?f ?a ?b _ _) => apply H
         | |- obeys _ _ (ret _) => apply obeys_ret
         | |- obeys _ _ (bind _ _) => apply obeys_bind
         | |- obeys _ _ (defined _) => apply obeys_defined
         | |- obeys _ _ (json_decref _ _) => apply obeys_json_decref
         | |- obeys _ _ (load _) => apply obeys_load
         | |- obeys _ _ get => apply obeys_get
         | |- obeys _ _ (response_byte _ _) => apply obeys_response_byte
         | |- obeys _ _ (response_bytes _ _ _) => apply obeys_response_bytes
         | |- obeys _ _ (if ?b then _ else _) => destruct b
         | |- obeys _ _ (match ?x with _ => _ end) => destruct x
         | |- forall _, _ => intro
         end ]).

Section Handlers.

Context {L : Linked}.

Variable R : World -> World -> Prop.
Variable E : Z -> Prop.
Hypothesis R_refl : forall w, R w w.
Hypothesis R_trans : forall a b c, R a b -> R b c -> R a c.

Variable d : device_ref.
Variable t : string.
Hypothesis publish_obeys : forall payload, obeys R E (publish t payload).
Hypothesis exchange_obeys : forall call, obeys R E (exchange d call).

Lemma replyWith_obeys (format : string) (args : list Printf.arg) :
  obeys R E (replyWith t format args).
Proof. unfold replyWith. frame. Qed.

Lemma levels_json_obeys (counters : nat) :
  forall i j, obeys R E (levels_json d counters i j).
Proof.
  induction counters as [|counters IH]; intros i j; cbn [levels_json]; frame.
Qed.

(** Every branch of the callback's chain obeys what publishing on the
    reply topic and exchanging with the device obey, and the two that
    write the cached mask obey what that write obeys. *)
Lemma run_obeys (h : handler) (text : string) (cmd : m_command) :
  device cmd = d -> responseTopic cmd = t ->
  (h = to_handleEnableChannels \/ h = to_handleDisableChannels ->
   forall inhibits, obeys R E (set_channelInhibits d inhibits)) ->
  obeys R E (run h text cmd).
Proof.
  intros Hd Ht Hmask.
  pose proof replyWith_obeys as Hreply.
  pose proof levels_json_obeys as Hlevels.
  destruct h; cbn [run];
    unfold free, handleEmpty, handleSmartEmpty, handleEnable, handleDisable,
      handleEnableChannels, handleDisableChannels, handleInhibitChannels,
      handleFloat, handlePayout, handleGetFirmwareVersion, handleGetDatasetVersion,
      handleChannelSecurityData, handleGetAllLevels, handleSetDenominationLevels,
      handleLastRejectNote,
      mc_ssp_empty, mc_ssp_smart_empty, mc_ssp_float, mc_ssp_get_firmware_version,
      mc_ssp_get_dataset_version, get_version, mc_ssp_channel_security_data,
      mc_ssp_get_all_levels, mc_ssp_set_denomination_level, mc_ssp_last_reject_note,
      replyOk, replyFailed, replyAccepted;
    rewrite ?Hd, ?Ht;
    try (specialize (Hmask ltac:(auto)));
    repeat (frame; try apply Hreply; try apply Hlevels).
Qed.

Hypothesis uuid_obeys : obeys R E uuid_generate.

(** The callback obeys, on a request routed to the device, what its steps
    obey; raising the signal counts only when the text holds quit, and
    writing the mask only when the chain takes one of the two branches
    that write it. *)
Lemma cbOnRequestMessage_obeys (kind topic text : string) :
  route topic = Some (d, t) ->
  (isCommand text "quit" = true -> obeys R E (set_receivedSignal 1)) ->
  (dispatch text = to_handleEnableChannels \/ dispatch text = to_handleDisableChannels ->
   forall inhibits, obeys R E (set_channelInhibits d inhibits)) ->
  obeys R E (cbOnRequestMessage (Some (REDIS_REPLY_ARRAY [kind; topic; text]))).
Proof.
  intros Hroute Hquit Hmask.
  pose proof replyWith_obeys as Hreply.
  unfold cbOnRequestMessage. rewrite Hroute.
  destruct (streq kind "subscribe"); [apply obeys_ret; assumption|].
  destruct (json_loads text) as [j|error]; [|apply Hreply].
  destruct (negb (json_is_string (json_object_get j "msgId")));
    [apply obeys_bind; [assumption|apply Hreply|]; intros _;
     apply obeys_json_decref; assumption|].
  apply obeys_bind; [assumption|apply obeys_defined; assumption|]. intros id.
  destruct (negb (json_is_string (json_object_get j "cmd")));
    [apply obeys_bind; [assumption|apply Hreply|]; intros _;
     apply obeys_json_decref; assumption|].
  apply obeys_bind; [assumption|assumption|]. intros uuid.
  apply obeys_bind; [assumption|apply obeys_defined; assumption|]. intros name.
  apply obeys_bind; [assumption| |].
  { destruct (isCommand text "quit"); [|apply obeys_ret; assumption].
    unfold handleQuit, replyOk. apply obeys_bind; [assumption|apply Hreply|].
    intros _. apply Hquit. reflexivity. }
  intros _. apply obeys_bind; [assumption|apply obeys_get; assumption|]. intros w.
  apply obeys_bind; [assumption| |intros freed; apply obeys_json_decref; assumption].
  destruct (deviceAvailable (metacash w) =? 0).
  - apply obeys_bind; [assumption|apply Hreply|]. intros _. apply obeys_ret; assumption.
  - apply run_obeys; [reflexivity|reflexivity|exact Hmask].
Qed.

End Handlers.

(** ** A request is served on its device *)

Lemma served_on_refl (d : device_ref) (t : string) (w : World) : served_on d t w w.
Proof.
  unfold served_on. repeat split; try (exists []; rewrite app_nil_r; split; [reflexivity|constructor]).
Qed.

Lemma served_on_trans (d : device_ref) (t : string) (a b c : World) :
  served_on d t a b -> served_on d t b c -> served_on d t a c.
Proof.
  intros [[l1 [Hr1 Hf1]] [[s1 [Hs1 Hg1]] [Ha1 [Ho1 [Hq1 Hv1]]]]]
         [[l2 [Hr2 Hf2]] [[s2 [Hs2 Hg2]] [Ha2 [Ho2 [Hq2 Hv2]]]]].
  unfold served_on. repeat split.
  - exists (l1 ++ l2)%list. rewrite Hr2, Hr1, app_assoc. split; [reflexivity|].
    apply Forall_app. split; assumption.
  - exists (s1 ++ s2)%list. rewrite Hs2, Hs1, app_assoc. split; [reflexivity|].
    apply Forall_app. split; [assumption|]. rewrite <- Ha1. exact Hg2.
  - congruence.
  - congruence.
  - congruence.
  - congruence.
Qed.

Ltac served_now :=
  unfold served_on, address_of; cbn;
  repeat split;
  try (exists []; rewrite app_nil_r; split; [reflexivity|constructor]);
  try (eexists; split; [reflexivity|repeat constructor]).

Lemma publish_served (d : device_ref) (t payload : string) :
  obeys (served_on d t) never (publish t payload).
Proof. intros w. destruct d; served_now. Qed.

Lemma exchange_served (d : device_ref) (t : string) (call : ssp_call) :
  obeys (served_on d t) never (exchange d call).
Proof. intros w. destruct d; served_now. Qed.

Lemma mask_served (d : device_ref) (t : string) (inhibits : Z) :
  obeys (served_on d t) never (set_channelInhibits d inhibits).
Proof. intros w. destruct d; served_now. Qed.

Lemma uuid_served (d : device_ref) (t : string) :
  obeys (served_on d t) never uuid_generate.
Proof. intros w. destruct d; served_now. Qed.

Lemma signal_served (d : device_ref) (t : string) (signal : Z) :
  obeys (served_on d t) never (set_receivedSignal signal).
Proof. intros w. destruct d; served_now. Qed.

Section Isolation.

Context {L : Linked}.

(** X5: a request on the topic of a device is served on that device: the
    callback never exits the process, and when it returns it has
    published on the paired response topic only, exchanged with the
    address of that device only, and left the other device, the address
    and the setup report of this one and the availability flag as they
    were. *)
Theorem request_is_served_on_its_device :
  forall (kind topic text reply_topic : string) (d : device_ref) (w : World),
    route topic = Some (d, reply_topic) ->
    match cbOnRequestMessage (Some (REDIS_REPLY_ARRAY [kind; topic; text])) w with
    | Returned _ w' => served_on d reply_topic w w'
    | Exited _ _ => False
    | Undefined => True
    end.
Proof.
  intros kind topic text reply_topic d w Hroute.
  pose proof (cbOnRequestMessage_obeys (served_on d reply_topic) never
                (served_on_refl d reply_topic) (served_on_trans d reply_topic)
                d reply_topic (publish_served d reply_topic)
                (exchange_served d reply_topic) (uuid_served d reply_topic)
                kind topic text Hroute
                (fun _ => signal_served d reply_topic 1)
                (fun _ => mask_served d reply_topic) w) as H.
  destruct (cbOnRequestMessage _ w); [exact H|destruct H as [_ []]|exact I].
Qed.

End Isolation.

(** ** The cached masks and the signal *)

Lemma same_masks_refl (w : World) : same_masks w w.
Proof. split; reflexivity. Qed.

Lemma same_masks_trans (a b c : World) : same_masks a b -> same_masks b c -> same_masks a c.
Proof. unfold same_masks. intros [H1 H2] [H3 H4]. split; congruence. Qed.

Lemma same_signal_refl (w : World) : same_signal w w.
Proof. reflexivity. Qed.

Lemma same_signal_trans (a b c : World) :
  same_signal a b -> same_signal b c -> same_signal a c.
Proof. unfold same_signal. congruence. Qed.

Lemma publish_same_masks (t payload : string) : obeys same_masks never (publish t payload).
Proof. intros w. split; reflexivity. Qed.

Lemma exchange_same_masks (d : device_ref) (call : ssp_call) :
  obeys same_masks never (exchange d call).
Proof. intros w. destruct d; split; reflexivity. Qed.

Lemma uuid_same_masks : obeys same_masks never uuid_generate.
Proof. intros w. split; reflexivity. Qed.

Lemma signal_same_masks (signal : Z) : obeys same_masks never (set_receivedSignal signal).
Proof. intros w. split; reflexivity. Qed.

Lemma publish_same_signal (t payload : string) : obeys same_signal never (publish t payload).
Proof. intros w. reflexivity. Qed.

Lemma exchange_same_signal (d : device_ref) (call : ssp_call) :
  obeys same_signal never (exchange d call).
Proof. intros w. destruct d; reflexivity. Qed.

Lemma uuid_same_signal : obeys same_signal never uuid_generate.
Proof. intros w. reflexivity. Qed.

Lemma mask_same_signal (d : device_ref) (inhibits : Z) :
  obeys same_signal never (set_channelInhibits d inhibits).
Proof. intros w. destruct d; reflexivity. Qed.

Section MasksAndSignal.

Context {L : Linked}.

(** X6: only the branches of enable-channels and disable-channels write
    the cached inhibit masks: a delivery whose text takes any other
    branch of the chain, whatever it holds and whatever the devices
    answer, leaves both masks as they were. *)
Theorem only_channel_commands_write_masks :
  forall (kind topic text : string) (w w' : World),
    dispatch text <> to_handleEnableChannels ->
    dispatch text <> to_handleDisableChannels ->
    cbOnRequestMessage (Some (REDIS_REPLY_ARRAY [kind; topic; text])) w = Returned tt w' ->
    same_masks w w'.
Proof.
  intros kind topic text w w' Hen Hdis Hrun.
  destruct (route topic) as [[d t]|] eqn:Hroute.
  - pose proof (cbOnRequestMessage_obeys same_masks never same_masks_refl same_masks_trans
                  d t (publish_same_masks t) (exchange_same_masks d) uuid_same_masks
                  kind topic text Hroute (fun _ => signal_same_masks 1)) as H.
    assert (Hno : dispatch text = to_handleEnableChannels
                  \/ dispatch text = to_handleDisableChannels ->
                  forall inhibits, obeys same_masks never (set_channelInhibits d inhibits))
      by (intros [Heq|Heq]; contradiction).
    specialize (H Hno w). rewrite Hrun in H. exact H.
  - unfold cbOnRequestMessage in Hrun. rewrite Hroute in Hrun.
    destruct (streq kind "subscribe"); inversion Hrun; apply same_masks_refl.
Qed.

(** X7: only quit raises the signal: a delivery whose text does not hold
    the text of quit leaves [receivedSignal] as it was, whatever branch
    it takes. *)
Theorem only_quit_raises_the_signal :
  forall (r : option redisReply) (w w' : World),
    holds_quit r = false ->
    cbOnRequestMessage r w = Returned tt w' ->
    receivedSignal w' = receivedSignal w.
Proof.
  intros r w w' Hquit Hrun.
  destruct r as [[element|]|]; try (inversion Hrun; reflexivity).
  destruct element as [|kind [|topic [|text [|extra more]]]];
    try (inversion Hrun; reflexivity).
  cbn [holds_quit] in Hquit.
  destruct (route topic) as [[d t]|] eqn:Hroute.
  - pose proof (cbOnRequestMessage_obeys same_signal never same_signal_refl same_signal_trans
                  d t (publish_same_signal t) (exchange_same_signal d) uuid_same_signal
                  kind topic text Hroute) as H.
    assert (Hno : isCommand text "quit" = true -> obeys same_signal never (set_receivedSignal 1))
      by (rewrite Hquit; discriminate).
    specialize (H Hno (fun _ => mask_same_signal d) w). rewrite Hrun in H. exact H.
  - unfold cbOnRequestMessage in Hrun. rewrite Hroute in Hrun.
    destruct (streq kind "subscribe"); inversion Hrun; reflexivity.
Qed.

(** X8: an accepted request whose text holds quit leaves the signal
    raised when the callback returns, whatever else the request did; the
    next quit check then asks the event loop to exit and lowers the
    signal, so that the check after it does not ask again. *)
Theorem quit_stops_the_loop_once :
  forall (kind topic reply_topic text id name : string) (d : device_ref) (j : json)
         (w w' : World),
    streq kind "subscribe" = false ->
    route topic = Some (d, reply_topic) ->
    json_loads text = inl j ->
    json_object_get j "msgId" = Some (JSON_STRING id) ->
    json_object_get j "cmd" = Some (JSON_STRING name) ->
    isCommand text "quit" = true ->
    cbOnRequestMessage (Some (REDIS_REPLY_ARRAY [kind; topic; text])) w = Returned tt w' ->
    receivedSignal w' = 1
    /\ exists w'',
         cbOnCheckQuitEvent w' = Returned true w''
         /\ receivedSignal w'' = 0
         /\ redis w'' = redis w' /\ serial w'' = serial w' /\ metacash w'' = metacash w'
         /\ cbOnCheckQuitEvent w'' = Returned false w''.
Proof.
  intros kind topic reply_topic text id name d j w w' Hkind Hroute Hloads Hid Hcmd Hquit Hrun.
  assert (Hsignal : receivedSignal w' = 1).
  { rewrite (cbOnRequestMessage_runs kind topic reply_topic text id name d j w
               Hkind Hroute Hloads Hid Hcmd) in Hrun.
    rewrite Hquit in Hrun. unfold bind at 1 in Hrun.
    assert (Hrest : forall cmd,
               device cmd = d -> responseTopic cmd = reply_topic ->
               obeys same_signal never
                 (w1 <- get ;;
                  freed <- (if deviceAvailable (metacash w1) =? 0
                            then replyWith reply_topic
                                   (jq "{`correlId`:`%s`,`error`:`hardware unavailable`}")
                                   [Printf.Str id] ;;
                                 ret []
                            else run (dispatch text) text cmd) ;;
                  json_decref j freed)).
    { intros cmd Hd Ht.
      apply obeys_bind; [apply same_signal_trans|apply obeys_get; apply same_signal_refl|].
      intros w1.
      apply obeys_bind;
        [apply same_signal_trans| |intros freed; apply obeys_json_decref; apply same_signal_refl].
      destruct (deviceAvailable (metacash w1) =? 0).
      - apply obeys_bind; [apply same_signal_trans| |intros _; apply obeys_ret, same_signal_refl].
        apply replyWith_obeys; [apply same_signal_refl|apply same_signal_trans|].
        apply publish_same_signal.
      - apply (run_obeys same_signal never same_signal_refl same_signal_trans d reply_topic
                 (publish_same_signal reply_topic) (exchange_same_signal d));
          [exact Hd|exact Ht|]. intros _. apply mask_same_signal. }
    cbn [handleQuit] in Hrun.
    match type of Hrun with
    | match ?c ?w0 with _ => _ end = _ =>
        assert (Hq : exists w1, c w0 = Returned tt w1 /\ receivedSignal w1 = 1)
          by (eexists; split; reflexivity)
    end.
    destruct Hq as [w1 [Hq Hone]]. rewrite Hq in Hrun.
    match type of Hrun with
    | context [run (dispatch text) text ?cmd] =>
        pose proof (Hrest cmd eq_refl eq_refl w1) as Hkeep
    end.
    cbv beta in Hrun. rewrite Hrun in Hkeep. unfold same_signal in Hkeep. congruence. }
  split; [exact Hsignal|].
  unfold cbOnCheckQuitEvent. cbv [bind get]. rewrite Hsignal. cbn.
  eexists. repeat split.
Qed.

End MasksAndSignal.

(** ** Commands with a parameter *)

Section Parameters.

Context {L : Linked}.

Local Arguments Printf.decimal : simpl never.
Local Arguments C.index : simpl never.
Local Arguments C.int_of_double : simpl never.
Local Arguments little_endian : simpl never.
Local Arguments currency_bytes : simpl never.
Local Arguments C.uchar : simpl never.

Lemma response_byte_run (d : device_ref) (i : Z) (w : World) :
  response_byte d i w
  = match C.index (ResponseData (sspC (device_of (metacash w) d))) i with
    | Some b => Returned b w
    | None => Undefined
    end.
Proof.
  unfold response_byte. cbv [bind load get ret].
  destruct (C.index _ i); reflexivity.
Qed.

(** X9: an accepted request whose text selects the branch of payout or
    of float, while the hardware is available, is an undefined run of the
    callback: both handlers begin by reading the member message of the
    command structure, which the callback never assigns. *)
Theorem payout_and_float_requests_are_undefined :
  forall (kind topic text reply_topic id name : string) (d : device_ref) (j : json) (w : World),
    streq kind "subscribe" = false ->
    route topic = Some (d, reply_topic) ->
    json_loads text = inl j ->
    json_object_get j "msgId" = Some (JSON_STRING id) ->
    json_object_get j "cmd" = Some (JSON_STRING name) ->
    dispatch text = to_handlePayout \/ dispatch text = to_handleFloat ->
    deviceAvailable (metacash w) <> 0 ->
    cbOnRequestMessage (Some (REDIS_REPLY_ARRAY [kind; topic; text])) w = Undefined.
Proof.
  intros kind topic text reply_topic id name d j w
         Hkind Hroute Hloads Hid Hcmd Hdispatch Havailable.
  rewrite (cbOnRequestMessage_runs kind topic reply_topic text id name d j w
             Hkind Hroute Hloads Hid Hcmd).
  match goal with
  | |- bind (if _ then handleQuit ?c else _) _ _ = _ =>
      destruct (quit_step text c (after_uuid w)) as (w1 & Hquit & Hsame)
  end.
  rewrite (bind_returned _ _ _ _ _ Hquit).
  unfold bind at 1. unfold get at 1. rewrite Hsame.
  change (metacash (after_uuid w)) with (metacash w).
  apply Z.eqb_neq in Havailable. rewrite Havailable.
  destruct Hdispatch as [-> | ->]; reflexivity.
Qed.

(** X10: an enable-channels, disable-channels or inhibit-channels command
    whose channels is missing or no string is refused with one error
    reply and nothing else: no exchange, no change of a device, nothing
    freed.  The correlId of this reply is the identifier generated for
    the response, not the msgId of the request. *)
Theorem missing_parameter_is_refused :
  forall (cmd : m_command) (w : World),
    json_is_string (json_object_get (jsonMessage cmd) "channels") = false ->
    let refused := after_publish w (responseTopic cmd)
                     (error_reply (responseMsgId cmd)
                        "property 'channels' missing or not a string") in
    handleEnableChannels cmd w = Returned tt refused
    /\ handleDisableChannels cmd w = Returned tt refused
    /\ handleInhibitChannels cmd w = Returned [] refused.
Proof.
  intros cmd w H refused. subst refused.
  unfold handleEnableChannels, handleDisableChannels, handleInhibitChannels.
  rewrite H. repeat split; reflexivity.
Qed.

(** X11: set-denomination-level sends the number of the property level
    as the value of the coin and the number of the property amount as
    the count, both cut to their integer part and 0 for a property that
    is missing or no number.  When the count is positive a first command
    with the count 0 goes out and its result is dropped; the reply is
    result ok or result failed by the last exchange alone.  The cached
    masks stay. *)
Theorem set_denomination_level_exchanges :
  forall (cmd : m_command) (w : World) (coin count : Z),
    C.int_of_double (json_number_value (json_object_get (jsonMessage cmd) "level")) = Some coin ->
    C.int_of_double (json_number_value (json_object_get (jsonMessage cmd) "amount")) = Some count ->
    exists w',
      handleSetDenominationLevels cmd w = Returned tt w'
      /\ serial w'
         = (serial w
            ++ (if 0 <? count
                then [(address_of w (device cmd), send_ssp_command (denomination_bytes 0 coin))]
                else [])
            ++ [(address_of w (device cmd),
                 send_ssp_command (denomination_bytes count coin))])%list
      /\ redis w'
         = (redis w
            ++ [(responseTopic cmd,
                 result_reply (responseMsgId cmd) (msgId cmd)
                   (if is_ok (nth_status (if 0 <? count then 1 else 0) w)
                    then "ok" else "failed"))])%list
      /\ same_masks w w'.
Proof.
  intros cmd w coin count Hcoin Hcount.
  unfold handleSetDenominationLevels, mc_ssp_set_denomination_level.
  rewrite Hcoin, Hcount. cbn [defined].
  unfold address_of, denomination_bytes, nth_status, same_masks.
  destruct (hardware w) as [|[[|s1 d1]|] [|[[|s2 d2]|] rest]] eqn:Hh;
    destruct (0 <? count) eqn:Hpos; destruct (device cmd);
    cbn; rewrite ?Hpos; cbn; unfold next_status, next_ResponseData; rewrite ?Hh; cbn;
    try (destruct (s1 =? 240)); try (destruct (s2 =? 240)); cbn;
    (eexists; split; [reflexivity|]); cbn; rewrite <- ?app_assoc; repeat split.
Qed.

End Parameters.

(** ** Numbers on the wire *)

Lemma int_mod (a : Z) : (C.int a) mod 2 ^ 32 = a mod 2 ^ 32.
Proof.
  unfold C.int, C.signed.
  destruct (a mod 2 ^ 32 <? 2 ^ (32 - 1)).
  - apply Z.mod_mod. lia.
  - replace (a mod 2 ^ 32 - 2 ^ 32) with (a mod 2 ^ 32 + (-1) * 2 ^ 32) by lia.
    rewrite Z.mod_add by lia. apply Z.mod_mod. lia.
Qed.

Lemma int_congruent (a b : Z) : a mod 2 ^ 32 = b mod 2 ^ 32 -> C.int a = C.int b.
Proof. intros H. unfold C.int, C.signed. rewrite H. reflexivity. Qed.

Lemma int_add_int (a b : Z) : C.int (C.int a + b) = C.int (a + b).
Proof.
  apply int_congruent.
  rewrite Z.add_mod, int_mod, <- Z.add_mod by lia. reflexivity.
Qed.

Lemma int_small (v : Z) : - 2 ^ 31 <= v < 2 ^ 31 -> C.int v = v.
Proof.
  intros H. unfold C.int, C.signed.
  destruct (Z_lt_le_dec v 0) as [Hneg|Hpos].
  - replace (v mod 2 ^ 32) with (v + 2 ^ 32).
    + destruct (v + 2 ^ 32 <? 2 ^ (32 - 1)) eqn:Hlt; [|lia].
      apply Z.ltb_lt in Hlt. change (2 ^ (32 - 1)) with (2 ^ 31) in Hlt. lia.
    + symmetry. replace v with ((v + 2 ^ 32) + (-1) * 2 ^ 32) at 1 by lia.
      rewrite Z.mod_add by lia. apply Z.mod_small. lia.
  - rewrite Z.mod_small by lia.
    destruct (v <? 2 ^ (32 - 1)) eqn:Hlt; [reflexivity|].
    apply Z.ltb_ge in Hlt. change (2 ^ (32 - 1)) with (2 ^ 31) in Hlt. lia.
Qed.

(** The bytes [little_endian] writes, by division. *)
Lemma little_endian_2 (v : Z) :
  little_endian 2 v = [v mod 256; (v / 256) mod 256].
Proof.
  unfold little_endian. cbn [seq map]. unfold C.uchar.
  rewrite !Z.shiftr_div_pow2 by lia.
  change (2 ^ (Z.of_nat 0 * 8)) with 1. change (2 ^ (Z.of_nat 1 * 8)) with 256.
  change (2 ^ 8) with 256. rewrite Z.div_1_r. reflexivity.
Qed.

Lemma little_endian_4 (v : Z) :
  little_endian 4 v
  = [v mod 256; (v / 256) mod 256; (v / 65536) mod 256; (v / 16777216) mod 256].
Proof.
  unfold little_endian. cbn [seq map]. unfold C.uchar.
  rewrite !Z.shiftr_div_pow2 by lia.
  change (2 ^ (Z.of_nat 0 * 8)) with 1. change (2 ^ (Z.of_nat 1 * 8)) with 256.
  change (2 ^ (Z.of_nat 2 * 8)) with 65536. change (2 ^ (Z.of_nat 3 * 8)) with 16777216.
  change (2 ^ 8) with 256. rewrite Z.div_1_r. reflexivity.
Qed.

Lemma four_bytes (v : Z) :
  v mod 256 + (v / 256) mod 256 * 256 + (v / 65536) mod 256 * 65536
  + (v / 16777216) mod 256 * 16777216
  = v - 2 ^ 32 * (v / 2 ^ 32).
Proof.
  pose proof (Z.div_mod v 256 ltac:(lia)) as H0.
  pose proof (Z.div_mod (v / 256) 256 ltac:(lia)) as H1.
  pose proof (Z.div_mod (v / 65536) 256 ltac:(lia)) as H2.
  pose proof (Z.div_mod (v / 16777216) 256 ltac:(lia)) as H3.
  rewrite Z.div_div in H1 by lia. change (256 * 256) with 65536 in H1.
  rewrite Z.div_div in H2 by lia. change (65536 * 256) with 16777216 in H2.
  rewrite Z.div_div in H3 by lia. change (16777216 * 256) with (2 ^ 32) in H3.
  lia.
Qed.

Lemma two_bytes (v : Z) :
  v mod 256 + (v / 256) mod 256 * 256 = v mod 65536.
Proof.
  pose proof (Z.div_mod v 256 ltac:(lia)) as H0.
  pose proof (Z.div_mod (v / 256) 256 ltac:(lia)) as H1.
  rewrite Z.div_div in H1 by lia. change (256 * 256) with 65536 in H1.
  pose proof (Z.div_mod v 65536 ltac:(lia)) as H2.
  lia.
Qed.

Lemma accumulate_2 (v : Z) : accumulate (little_endian 2 v) 0 0 = v mod 65536.
Proof.
  rewrite little_endian_2. cbn [accumulate].
  repeat (rewrite int_add_int; rewrite <- ?Z.add_assoc).
  rewrite !Z.add_assoc, !Z.shiftl_mul_pow2 by lia.
  change (2 ^ (8 * 0)) with 1. change (2 ^ (8 * (0 + 1))) with 256.
  rewrite Z.mul_1_r, Z.add_0_l, two_bytes.
  apply int_small. pose proof (Z.mod_pos_bound v 65536 ltac:(lia)). lia.
Qed.

Lemma accumulate_4 (v : Z) :
  - 2 ^ 31 <= v < 2 ^ 31 -> accumulate (little_endian 4 v) 0 0 = v.
Proof.
  intros Hv. rewrite little_endian_4. cbn [accumulate].
  repeat (rewrite int_add_int; rewrite <- ?Z.add_assoc).
  rewrite !Z.add_assoc, !Z.shiftl_mul_pow2 by lia.
  change (2 ^ (8 * 0)) with 1. change (2 ^ (8 * (0 + 1))) with 256.
  change (2 ^ (8 * (0 + 1 + 1))) with 65536.
  change (2 ^ (8 * (0 + 1 + 1 + 1))) with 16777216.
  rewrite Z.mul_1_r, Z.add_0_l, four_bytes.
  transitivity (C.int v); [|apply int_small; exact Hv]. apply int_congruent.
  replace (v - 2 ^ 32 * (v / 2 ^ 32)) with (v + (- (v / 2 ^ 32)) * 2 ^ 32) by lia.
  apply Z.mod_add. lia.
Qed.

(** X12: the bytes the daemon writes for a number are read back by the
    decoder of get-all-levels.  Four bytes give back every int; two
    bytes give back the number modulo 65536, so that a count of
    set-denomination-level reaches the device cut to sixteen bits. *)
Theorem little_endian_round_trip (v : Z) :
  - 2 ^ 31 <= v < 2 ^ 31 ->
  accumulate (little_endian 4 v) 0 0 = v
  /\ accumulate (little_endian 2 v) 0 0 = v mod 65536.
Proof.
  intros Hv. split; [apply accumulate_4; exact Hv | apply accumulate_2].
Qed.

(** ** The counters of get-all-levels *)

Lemma index_middle {A : Type} (pre : list A) (b : A) (post : list A) :
  Z.of_nat (List.length pre) < 2 ^ 63 - 1 ->
  C.index (pre ++ b :: post) (Z.of_nat (List.length pre)) = Some b.
Proof.
  intros Hlen. unfold C.index.
  rewrite length_app. cbn [List.length].
  replace (0 <=? Z.of_nat (List.length pre)) with true by (symmetry; apply Z.leb_le; lia).
  replace (Z.of_nat (List.length pre) <? 2 ^ 63 - 1) with true
    by (symmetry; apply Z.ltb_lt; lia).
  replace (Z.of_nat (List.length pre) <? Z.of_nat (List.length pre + S (List.length post)))
    with true by (symmetry; apply Z.ltb_lt; lia).
  cbn [andb]. rewrite Nat2Z.id, nth_error_app2 by lia.
  rewrite Nat.sub_diag. reflexivity.
Qed.

(** Reading [count] bytes from a position gives the bytes that lie there. *)
Lemma response_bytes_at (d : device_ref) (w : World) (bytes pre post : list Z)
    (from : Z) (count : nat) :
  ResponseData (sspC (device_of (metacash w) d)) = (pre ++ bytes ++ post)%list ->
  from = Z.of_nat (List.length pre) ->
  count = List.length bytes ->
  Z.of_nat (List.length pre + List.length bytes) < 2 ^ 63 - 1 ->
  response_bytes d from count w = Returned bytes w.
Proof.
  revert pre from count.
  induction bytes as [|b bytes IH]; intros pre from count Hdata Hfrom Hcount Hlen;
    subst count; cbn [List.length response_bytes].
  - reflexivity.
  - cbn [List.length] in Hlen.
    rewrite (bind_returned _ _ w w b).
    + rewrite (bind_returned _ _ w w bytes); [reflexivity|].
      apply (IH (pre ++ [b])%list).
      * rewrite Hdata, <- app_assoc. reflexivity.
      * rewrite length_app. cbn [List.length]. lia.
      * reflexivity.
      * rewrite length_app. cbn [List.length]. lia.
    + rewrite response_byte_run, Hdata. cbn [app]. subst from.
      rewrite index_middle by lia. reflexivity.
Qed.

Lemma string_of_buffer_of_string (s : string) :
  occurs zero s = false -> C.string_of_buffer (C.buffer_of_string s) = s.
Proof.
  unfold occurs, C.buffer_of_string.
  induction s as [|c s IH]; cbn [list_ascii_of_string map existsb C.string_of_buffer];
    [reflexivity|].
  intros H. apply orb_false_iff in H. destruct H as [Hc Hs].
  pose proof (nat_ascii_bounded c) as Hb.
  assert (Hu : C.uchar (Z.of_nat (nat_of_ascii c)) = Z.of_nat (nat_of_ascii c)).
  { unfold C.uchar. apply Z.mod_small. change (2 ^ 8) with 256. lia. }
  assert (Hnz : (Z.of_nat (nat_of_ascii c) =? 0) = false).
  { apply Z.eqb_neq. intros Hz.
    assert (Hc0 : c = zero).
    { rewrite <- (ascii_nat_embedding c).
      replace (nat_of_ascii c) with 0%nat by lia. reflexivity. }
    subst c. discriminate Hc. }
  rewrite Hu, Hnz. unfold C.char_of_byte. rewrite Hu, Nat2Z.id, ascii_nat_embedding.
  rewrite (IH Hs). reflexivity.
Qed.

Lemma length_buffer_of_string (s : string) :
  List.length (C.buffer_of_string s) = String.length s.
Proof.
  unfold C.buffer_of_string. rewrite length_map.
  induction s as [|c s IH]; cbn; [reflexivity | rewrite IH; reflexivity].
Qed.

Lemma length_little_endian (n : nat) (v : Z) : List.length (little_endian n v) = n.
Proof. unfold little_endian. rewrite length_map, length_seq. reflexivity. Qed.

Lemma counter_ok_spec (c : counter) :
  counter_ok c = true ->
  0 <= counter_level c < 65536 /\ - 2 ^ 31 <= counter_value c < 2 ^ 31
  /\ String.length (counter_cc c) = 3%nat /\ occurs zero (counter_cc c) = false.
Proof.
  unfold counter_ok. intros H.
  repeat (apply andb_true_iff in H; destruct H as [H ?]).
  repeat match goal with
         | H : (_ <=? _) = true |- _ => apply Z.leb_le in H
         | H : (_ <? _) = true |- _ => apply Z.ltb_lt in H
         | H : (_ =? _)%nat = true |- _ => apply Nat.eqb_eq in H
         | H : negb _ = true |- _ => apply negb_true_iff in H
         end.
  repeat split; assumption.
Qed.

Lemma length_counter_bytes (c : counter) :
  counter_ok c = true -> List.length (counter_bytes c) = 9%nat.
Proof.
  intros H. apply counter_ok_spec in H. destruct H as (_ & _ & Hcc & _).
  unfold counter_bytes.
  rewrite !length_app, !length_little_endian, length_buffer_of_string, Hcc. reflexivity.
Qed.

Lemma append_empty (s : string) : s ++ EmptyString = s.
Proof. induction s as [|c s IH]; cbn; [reflexivity | rewrite IH; reflexivity]. Qed.

Lemma levels_text_later (j : Z) (c : counter) (rest : list counter) :
  0 < j ->
  counter_json c ++ levels_text j rest = String.concat "," (map counter_json (c :: rest)).
Proof.
  revert j c. induction rest as [|c' rest IH]; intros j c Hj.
  - cbn [levels_text map String.concat]. apply append_empty.
  - cbn [levels_text].
    replace (0 <? j) with true by (symmetry; apply Z.ltb_lt; lia).
    rewrite (IH (j + 1) c') by lia. reflexivity.
Qed.

Lemma levels_text_first (counters : list counter) :
  levels_text 0 counters = String.concat "," (map counter_json counters).
Proof.
  destruct counters as [|c rest]; [reflexivity|].
  cbn [levels_text]. change (0 <? 0) with false. cbn [append].
  apply levels_text_later. lia.
Qed.

Section Levels.

Context {L : Linked}.

Local Arguments Printf.decimal : simpl never.
Local Arguments little_endian : simpl never.
Local Arguments C.buffer_of_string : simpl never.
Local Arguments C.string_of_buffer : simpl never.
Local Arguments accumulate : simpl never.
Local Arguments C.int : simpl never.

(** The loop of [mc_ssp_get_all_levels] over a buffer that holds the
    counters from the byte after index [i] on. *)
Lemma levels_json_run (d : device_ref) (w : World) (counters : list counter) :
  forall (pre post : list Z) (i j : Z),
    ResponseData (sspC (device_of (metacash w) d))
    = (pre ++ flat_map counter_bytes counters ++ post)%list ->
    Z.of_nat (List.length pre) = i + 1 ->
    Z.of_nat (List.length pre + 9 * List.length counters) < 2 ^ 63 - 1 ->
    forallb counter_ok counters = true ->
    levels_json d (List.length counters) i j w = Returned (levels_text j counters) w.
Proof.
  induction counters as [|c rest IH]; intros pre post i j Hdata Hi Hlen Hok;
    cbn [List.length levels_json levels_text]; [reflexivity|].
  cbn [forallb] in Hok. apply andb_true_iff in Hok. destruct Hok as [Hc Hrest].
  pose proof (length_counter_bytes c Hc) as Hnine.
  destruct (counter_ok_spec c Hc) as (Hlevel & Hvalue & Hcc & Hnul).
  cbn [flat_map] in Hdata. unfold counter_bytes in Hdata, Hnine.
  rewrite <- !app_assoc in Hdata.
  rewrite !length_app, !length_little_endian, length_buffer_of_string in Hnine.
  cbn [List.length] in Hlen.
  rewrite (bind_returned _ _ w w (little_endian 2 (counter_level c))).
  2:{ eapply (response_bytes_at d w _ pre); [exact Hdata | lia | |].
      - rewrite length_little_endian. reflexivity.
      - rewrite length_little_endian. lia. }
  rewrite (bind_returned _ _ w w (little_endian 4 (counter_value c))).
  2:{ eapply (response_bytes_at d w _ (pre ++ little_endian 2 (counter_level c))).
      - rewrite Hdata, <- !app_assoc. reflexivity.
      - rewrite length_app, length_little_endian. lia.
      - rewrite length_little_endian. reflexivity.
      - rewrite !length_app, !length_little_endian. lia. }
  rewrite (bind_returned _ _ w w (C.buffer_of_string (counter_cc c))).
  2:{ eapply (response_bytes_at d w _
        (pre ++ little_endian 2 (counter_level c) ++ little_endian 4 (counter_value c))).
      - rewrite Hdata, <- !app_assoc. reflexivity.
      - rewrite !length_app, !length_little_endian. lia.
      - rewrite length_buffer_of_string, Hcc. reflexivity.
      - rewrite !length_app, !length_little_endian, length_buffer_of_string, Hcc. lia. }
  rewrite accumulate_4, accumulate_2, string_of_buffer_of_string by assumption.
  rewrite (Z.mod_small (counter_level c)) by lia.
  cbn. rewrite !int_small by lia.
  rewrite (bind_returned _ _ w w (levels_text (j + 1) rest)).
  2:{ apply (IH (pre ++ little_endian 2 (counter_level c) ++ little_endian 4 (counter_value c)
                 ++ C.buffer_of_string (counter_cc c))%list post).
      - rewrite Hdata, <- !app_assoc. reflexivity.
      - rewrite !length_app, !length_little_endian, length_buffer_of_string, Hcc. lia.
      - rewrite !length_app, !length_little_endian, length_buffer_of_string, Hcc. lia.
      - exact Hrest. }
  unfold counter_json, jq. cbn. reflexivity.
Qed.

Lemma exchange_effect (d : device_ref) (call : ssp_call) (w : World) :
  exists w1,
    exchange d call w = Returned (next_status w) w1
    /\ redis w1 = redis w
    /\ serial w1 = (serial w ++ [(address_of w d, call)])%list
    /\ hardware w1 = tl (hardware w)
    /\ ResponseData (sspC (device_of (metacash w1) d)) = buffer_after_exchange w d.
Proof.
  destruct d; (eexists; split; [reflexivity|]); cbn; repeat split.
Qed.

Lemma mc_ssp_get_all_levels_run (d : device_ref) (w : World)
    (status : Z) (counters : list counter) (rest : list Z) (h : list (option (list Z))) :
  hardware w = Some (levels_response status counters rest) :: h ->
  (List.length counters < 256)%nat ->
  forallb counter_ok counters = true ->
  exists w1,
    mc_ssp_get_all_levels d w
    = Returned (SSP_RESPONSE_STATUS status, Some (levels_text 0 counters)) w1
    /\ redis w1 = redis w
    /\ serial w1 = (serial w ++ [(address_of w d, send_ssp_command [SSP_CMD_GET_ALL_LEVELS])])%list
    /\ hardware w1 = h.
Proof.
  intros Hh Hlen Hok.
  destruct (exchange_effect d (send_ssp_command [SSP_CMD_GET_ALL_LEVELS]) w)
    as (w1 & Hex & Hredis & Hserial & Hhw & Hbuf).
  unfold buffer_after_exchange, next_ResponseData in Hbuf.
  unfold next_status in Hex. rewrite Hh in *. unfold levels_response in *.
  unfold overlay in Hbuf. cbn [tl] in Hhw.
  exists w1. split; [|repeat split; assumption].
  unfold mc_ssp_get_all_levels.
  rewrite (bind_returned _ _ w w1 (SSP_RESPONSE_STATUS status)) by exact Hex.
  rewrite (bind_returned _ _ w1 w1 (Z.of_nat (List.length counters))).
  2:{ rewrite response_byte_run, Hbuf.
      change 1 with (Z.of_nat (List.length [status])).
      change ((status :: Z.of_nat (List.length counters)
               :: flat_map counter_bytes counters ++ rest) ++ ?tail)%list
        with ([status] ++ Z.of_nat (List.length counters)
              :: (flat_map counter_bytes counters ++ rest) ++ tail)%list.
      rewrite index_middle by (cbn; lia). reflexivity. }
  rewrite Nat2Z.id.
  rewrite (bind_returned _ _ w1 w1 (levels_text 0 counters)); [reflexivity|].
  apply (levels_json_run d w1 counters [status; Z.of_nat (List.length counters)]
           (rest ++ skipn (List.length (status :: Z.of_nat (List.length counters)
                                         :: flat_map counter_bytes counters ++ rest))
                     (ResponseData (sspC (device_of (metacash w) d))))).
  - rewrite Hbuf. cbn [app]. rewrite <- app_assoc. reflexivity.
  - reflexivity.
  - cbn [List.length]. lia.
  - exact Hok.
Qed.

(** X13: whatever status the device answers get-all-levels with, short of
    no answer at all, the daemon lists every counter of the answer, in
    the order of the answer, and publishes the list once. *)
Theorem get_all_levels_lists_the_counters (cmd : m_command) (w : World)
    (status : Z) (counters : list counter) (rest : list Z) (h : list (option (list Z))) :
  hardware w = Some (levels_response status counters rest) :: h ->
  (List.length counters < 256)%nat ->
  forallb counter_ok counters = true ->
  exists w',
    handleGetAllLevels cmd w = Returned tt w'
    /\ redis w' = (redis w ++ [(responseTopic cmd, levels_reply (msgId cmd) counters)])%list
    /\ serial w' = (serial w ++ [(address_of w (device cmd),
                                  send_ssp_command [SSP_CMD_GET_ALL_LEVELS])])%list
    /\ hardware w' = h.
Proof.
  intros Hh Hlen Hok.
  destruct (mc_ssp_get_all_levels_run (device cmd) w status counters rest h Hh Hlen Hok)
    as (w1 & Hrun & Hredis & Hserial & Hhw).
  unfold handleGetAllLevels.
  rewrite (bind_returned _ _ w w1 _ Hrun).
  cbn [snd]. unfold levels_reply. rewrite <- levels_text_first.
  eexists. split; [cbn; reflexivity|].
  cbn. rewrite Hredis, Hserial, Hhw. repeat split.
Qed.

End Levels.

(** ** The handlers of poll events *)

Lemma event_frame_refl (d : device_ref) (t : string) (w : World) : event_frame d t w w.
Proof.
  split; [apply served_on_refl | split; [apply same_masks_refl | apply same_signal_refl]].
Qed.

Lemma event_frame_trans (d : device_ref) (t : string) (a b c : World) :
  event_frame d t a b -> event_frame d t b c -> event_frame d t a c.
Proof.
  intros (H1 & H2 & H3) (H4 & H5 & H6).
  split; [eapply served_on_trans; eassumption|].
  split; [eapply same_masks_trans; eassumption | eapply same_signal_trans; eassumption].
Qed.

Lemma channels_known_kept (d : device_ref) (t : string) (e : SSP_POLL_EVENT6) (w w' : World) :
  event_frame d t w w' -> channels_known w d e -> channels_known w' d e.
Proof.
  intros ((_ & _ & _ & _ & Hsetup & _) & _) H Hneeds.
  specialize (H Hneeds). unfold channel_known in *. rewrite Hsetup. exact H.
Qed.

Section Safely.

Variable P : World -> Prop.
Variable R : World -> World -> Prop.
Variable E : Z -> Prop.
Hypothesis R_refl : forall w, R w w.
Hypothesis R_trans : forall a b c, R a b -> R b c -> R a c.
Hypothesis P_kept : forall w w', R w w' -> P w -> P w'.

Lemma safely_ret {A : Type} (a : A) : safely P R E (ret a).
Proof. intros w _. apply R_refl. Qed.

Lemma safely_exit {A : Type} (status : Z) : E status -> safely P R E (@exit A status).
Proof. intros H w _. split; [apply R_refl | exact H]. Qed.

Lemma safely_bind {A B : Type} (c : M A) (k : A -> M B) :
  safely P R E c -> (forall a, safely P R E (k a)) -> safely P R E (bind c k).
Proof.
  intros Hc Hk w Hw. unfold bind. specialize (Hc w Hw).
  destruct (c w) as [a w1|status w1|]; [|exact Hc|exact Hc].
  specialize (Hk a w1 (P_kept _ _ Hc Hw)).
  destruct (k a w1) as [b w2|status w2|]; [| |exact Hk].
  - eapply R_trans; eassumption.
  - destruct Hk as [Hk He]. split; [eapply R_trans; eassumption | exact He].
Qed.

End Safely.

Lemma safely_for_each {A : Type} (Q : A -> World -> Prop) (R : World -> World -> Prop)
    (E : A -> Z -> Prop) (body : A -> M unit) (l : list A) :
  (forall w, R w w) ->
  (forall a b c, R a b -> R b c -> R a c) ->
  (forall a w w', R w w' -> Q a w -> Q a w') ->
  (forall a, In a l -> safely (Q a) R (E a) (body a)) ->
  safely (fun w => forall a, In a l -> Q a w) R
         (fun status => exists a, In a l /\ E a status) (for_each l body).
Proof.
  intros R_refl R_trans Q_kept.
  induction l as [|a l IH]; intros Hbody w Hw; cbn [for_each].
  - apply R_refl.
  - unfold bind. pose proof (Hbody a (or_introl eq_refl) w (Hw a (or_introl eq_refl))) as Ha.
    destruct (body a w) as [[] w1|status w1|]; [| |exact Ha].
    + assert (Hw1 : forall b, In b l -> Q b w1).
      { intros b Hb. eapply Q_kept; [exact Ha|]. apply Hw. right. exact Hb. }
      pose proof (IH (fun b Hb => Hbody b (or_intror Hb)) w1 Hw1) as Hl.
      destruct (for_each l body w1) as [[] w2|status w2|]; [| |exact Hl].
      * eapply R_trans; eassumption.
      * destruct Hl as [Hl (b & Hb & He)]. split; [eapply R_trans; eassumption|].
        exists b. split; [right; exact Hb | exact He].
    + destruct Ha as [Ha He]. split; [exact Ha|]. exists a. split; [left; reflexivity | exact He].
Qed.

Section Events.

Context {L : Linked}.

Local Arguments Printf.decimal : simpl never.
Local Arguments Printf.hex02 : simpl never.
Local Arguments C.long : simpl never.
Local Arguments C.int : simpl never.
Local Arguments C.uint : simpl never.
Local Arguments C.ulong : simpl never.
Local Arguments C.index : simpl never.

Variable d : device_ref.
Variable t : string.
Variable P : World -> Prop.
Variable E : Z -> Prop.

Lemma publish_safely (payload : string) : safely P (event_frame d t) E (publish t payload).
Proof.
  intros w _.
  pose proof (publish_served d t payload w) as H1.
  pose proof (publish_same_masks t payload w) as H2.
  pose proof (publish_same_signal t payload w) as H3.
  cbv [publish bind get put] in *. split; [exact H1 | split; [exact H2 | exact H3]].
Qed.

Lemma exchange_safely (call : ssp_call) : safely P (event_frame d t) E (exchange d call).
Proof.
  intros w _.
  assert (Hx : exchange d call w <> Undefined) by (destruct d; discriminate).
  pose proof (exchange_served d t call w) as H1.
  pose proof (exchange_same_masks d call w) as H2.
  pose proof (exchange_same_signal d call w) as H3.
  destruct (exchange d call w) as [r w1|status w1|].
  - split; [exact H1 | split; [exact H2 | exact H3]].
  - destruct H1 as [_ []].
  - apply Hx. reflexivity.
Qed.

Lemma replied_safely (format : string) (args : list Printf.arg) :
  (exists s, Printf.vasprintf format args = Some s) ->
  safely P (event_frame d t) E (reply <- defined (Printf.vasprintf format args) ;; publish t reply).
Proof.
  intros [s Hs] w Hw. rewrite Hs. cbv [defined bind ret].
  apply (publish_safely s w Hw).
Qed.

End Events.

Ltac printed := eexists; cbn; reflexivity.

Section EventHandlers.

Context {L : Linked}.

Local Arguments Printf.decimal : simpl never.
Local Arguments Printf.hex02 : simpl never.
Local Arguments C.long : simpl never.
Local Arguments C.int : simpl never.
Local Arguments C.uint : simpl never.
Local Arguments C.ulong : simpl never.
Local Arguments C.index : simpl never.

(** One event of the hopper: the switch is defined on every event, and
    exits only on a reset. *)
Lemma hopper_event_safely (d : device_ref) (e : SSP_POLL_EVENT6) :
  safely (fun _ => True) (event_frame d "hopper-event")
         (fun status => status = 3 /\ event e = SSP_POLL_RESET) (hopper_event d e).
Proof.
  pose proof (event_frame_refl d "hopper-event") as Hrefl.
  pose proof (event_frame_trans d "hopper-event") as Htrans.
  unfold hopper_event, publishHopperEvent.
  destruct (event e) eqn:He;
    try (apply replied_safely; printed).
  - apply safely_bind; [assumption|auto|apply replied_safely; printed|]. intros _.
    apply safely_bind; [assumption|auto|apply exchange_safely|]. intros r.
    destruct (negb (is_ok r)); [apply safely_exit | apply safely_ret]; auto.
  - destruct (0 <? data1 e); apply replied_safely; printed.
  - destruct (calibration_error_of (data1 e)) as [[]|];
      try (apply replied_safely; printed).
    + apply safely_bind; [assumption|auto|apply replied_safely; printed|]. intros _.
      apply safely_bind; [assumption|auto|apply exchange_safely|]. intros r.
      apply safely_ret; assumption.
    + apply safely_ret; assumption.
Qed.

(** One event of the validator: the switch is defined wherever the setup
    report has the channel it looks up. *)
Lemma validator_event_safely (d : device_ref) (e : SSP_POLL_EVENT6) :
  safely (fun w => channels_known w d e) (event_frame d "validator-event")
         (fun status => status = 3 /\ event e = SSP_POLL_RESET) (validator_event d e).
Proof.
  pose proof (event_frame_refl d "validator-event") as Hrefl.
  pose proof (event_frame_trans d "validator-event") as Htrans.
  pose proof (fun w w' => channels_known_kept d "validator-event" e w w') as Hkept.
  assert (Hamount : needs_channel e = true ->
            safely (fun w => channels_known w d e) (event_frame d "validator-event")
                   (fun status => status = 3 /\ event e = SSP_POLL_RESET)
                   (channel_amount d (data1 e))).
  { intros Hneeds w Hw. specialize (Hw Hneeds). unfold channel_known in Hw.
    unfold channel_amount. cbv [bind load get ret].
    destruct (C.index _ _); [apply Hrefl | discriminate Hw]. }
  unfold validator_event, publishValidatorEvent. unfold needs_channel in Hamount.
  destruct (event e) eqn:He;
    try (apply replied_safely; printed).
  - apply safely_bind; [assumption|assumption|apply replied_safely; printed|]. intros _.
    apply safely_bind; [assumption|assumption|apply exchange_safely|]. intros r.
    destruct (negb (is_ok r)); [apply safely_exit | apply safely_ret]; auto.
  - destruct (0 <? data1 e); [|apply replied_safely; printed].
    apply safely_bind; [assumption|assumption|apply Hamount; reflexivity|]. intros amount.
    apply replied_safely; printed.
  - apply safely_bind; [assumption|assumption|apply Hamount; reflexivity|]. intros amount.
    apply replied_safely; printed.
  - destruct (calibration_error_of (data1 e)) as [[]|];
      try (apply replied_safely; printed).
    + apply safely_bind; [assumption|assumption|apply replied_safely; printed|]. intros _.
      apply safely_bind; [assumption|assumption|apply exchange_safely|]. intros r.
      apply safely_ret; assumption.
    + apply safely_ret; assumption.
Qed.

(** X14: the handler of the hopper's events is defined on every batch of
    events.  It publishes on hopper-event only, exchanges with the device
    it was called for only, leaves the cached masks and the signal as
    they were, and exits the process only with status 3 and only when
    the batch holds a reset. *)
Theorem hopper_events_are_handled_safely (d : device_ref) (poll : SSP_POLL_DATA6) (w : World) :
  match hopperEventHandler d poll w with
  | Returned _ w' => event_frame d "hopper-event" w w'
  | Exited status w' => event_frame d "hopper-event" w w' /\ status = 3 /\ reset_in poll
  | Undefined => False
  end.
Proof.
  pose proof (safely_for_each (fun _ _ => True) (event_frame d "hopper-event")
                (fun e status => status = 3 /\ event e = SSP_POLL_RESET)
                (hopper_event d) (events poll)
                (event_frame_refl d "hopper-event") (event_frame_trans d "hopper-event")
                (fun _ _ _ _ H => H)
                (fun e _ => hopper_event_safely d e) w (fun _ _ => I)) as H.
  unfold hopperEventHandler.
  destruct (for_each (events poll) (hopper_event d) w) as [[] w'|status w'|];
    [exact H| |exact H].
  destruct H as [H (e & Hin & Hs & He)]. split; [exact H|]. split; [exact Hs|].
  exists e. split; assumption.
Qed.

(** X15: the handler of the validator's events is defined on a batch
    whenever the setup report of the device has the channel of every read
    and credit event of the batch.  It publishes on validator-event only,
    exchanges with the device it was called for only, leaves the cached
    masks and the signal as they were, and exits the process only with
    status 3 and only when the batch holds a reset. *)
Theorem validator_events_are_handled_safely
    (d : device_ref) (poll : SSP_POLL_DATA6) (w : World) :
  (forall e, In e (events poll) -> needs_channel e = true -> channel_known w d e = true) ->
  match validatorEventHandler d poll w with
  | Returned _ w' => event_frame d "validator-event" w w'
  | Exited status w' => event_frame d "validator-event" w w' /\ status = 3 /\ reset_in poll
  | Undefined => False
  end.
Proof.
  intros Hknown.
  pose proof (safely_for_each (fun e w => channels_known w d e) (event_frame d "validator-event")
                (fun e status => status = 3 /\ event e = SSP_POLL_RESET)
                (validator_event d) (events poll)
                (event_frame_refl d "validator-event") (event_frame_trans d "validator-event")
                (fun e w w' => channels_known_kept d "validator-event" e w w')
                (fun e _ => validator_event_safely d e) w Hknown) as H.
  unfold validatorEventHandler.
  destruct (for_each (events poll) (validator_event d) w) as [[] w'|status w'|];
    [exact H| |exact H].
  destruct H as [H (e & Hin & Hs & He)]. split; [exact H|]. split; [exact Hs|].
  exists e. split; assumption.
Qed.

Lemma hopper_event_quiet (e : SSP_POLL_EVENT6) :
  is_quiet e = true ->
  exists payload, forall d w,
    hopper_event d e w = Returned tt (after_publish w "hopper-event" payload).
Proof.
  unfold is_quiet, hopper_event, publishHopperEvent. intros Hq.
  destruct (event e); try discriminate Hq;
    try (eexists; intros d w; cbn; reflexivity).
  destruct (0 <? data1 e); eexists; intros d w; cbn; reflexivity.
Qed.

(** X16: a batch of hopper events without a reset and without a
    calibration failure gives one message on hopper-event for each event,
    in the order of the batch, and nothing else happens: no exchange, no
    exit.  The message of an event is a function of the event alone: it
    is the same wherever the event stands in a batch, for whichever
    device the handler was called and in whatever state.  A dispensing of
    500 gives its amount, a coin credit of 100 its amount and currency. *)
Theorem quiet_hopper_events_give_one_message_each :
  exists payload_of : SSP_POLL_EVENT6 -> string,
    (forall poll,
        forallb is_quiet (events poll) = true ->
        forall d w,
          hopperEventHandler d poll w
          = Returned tt (after_publishing w "hopper-event" (map payload_of (events poll))))
    /\ payload_of (poll_event SSP_POLL_DISPENSING 500 0 "EUR")
       = jq "{`event`:`dispensing`,`amount`:500}"
    /\ payload_of (poll_event SSP_POLL_COIN_CREDIT 100 0 "EUR")
       = jq "{`event`:`coin credit`,`amount`:100,`cc`:`EUR`}".
Proof.
  exists (fun e =>
            match hopper_event Hopper e (started 0 []) with
            | Returned _ w' =>
                match redis w' with
                | (_, payload) :: _ => payload
                | [] => EmptyString
                end
            | _ => EmptyString
            end).
  split; [|split; vm_compute; reflexivity].
  intros poll. unfold hopperEventHandler.
  induction (events poll) as [|e l IH]; intros Hq d w; [reflexivity|].
  cbn [forallb] in Hq. apply andb_true_iff in Hq. destruct Hq as [He Hl].
  destruct (hopper_event_quiet e He) as (payload & Hp).
  cbn [for_each map].
  rewrite (bind_returned _ _ _ _ _ (Hp d w)), (Hp Hopper (started 0 [])).
  cbn [redis after_publish started app].
  apply IH. exact Hl.
Qed.

End EventHandlers.

(** ** Polling *)

Lemma safely_obeys {A : Type} (R : World -> World -> Prop) (E : Z -> Prop) (c : M A) :
  safely (fun _ => True) R E c -> obeys R E c.
Proof.
  intros H w. specialize (H w I). destruct (c w); [exact H|exact H|exact I].
Qed.

Lemma obeys_weaken {A : Type} (R R' : World -> World -> Prop) (E E' : Z -> Prop) (c : M A) :
  (forall w w', R w w' -> R' w w') -> (forall s, E s -> E' s) ->
  obeys R E c -> obeys R' E' c.
Proof.
  intros HR HE H w. specialize (H w).
  destruct (c w); [auto|destruct H; split; auto|exact I].
Qed.

Lemma kept_to_the_line_frame (d : device_ref) (t : string) (w w' : World) :
  kept_to_the_line d w w' -> event_frame d t w w'.
Proof.
  intros (Hredis & (_ & Hrest) & Hmasks & Hsignal).
  split; [|split; assumption].
  split; [|exact Hrest].
  exists []. rewrite app_nil_r. split; [exact Hredis|constructor].
Qed.

Section Polling.

Context {L : Linked} {V : Vendor}.

Local Arguments Printf.decimal : simpl never.
Local Arguments Printf.hex02 : simpl never.
Local Arguments C.long : simpl never.
Local Arguments C.uint : simpl never.
Local Arguments C.ulong : simpl never.
Local Arguments C.index : simpl never.

Lemma exit_status_3 (e : SSP_POLL_EVENT6) (status : Z) :
  status = 3 /\ event e = SSP_POLL_RESET -> status = 3.
Proof. intros [H _]. exact H. Qed.

Lemma hopperEventHandler_obeys (d : device_ref) (poll : SSP_POLL_DATA6) :
  obeys (event_frame d "hopper-event") (fun status => status = 3) (hopperEventHandler d poll).
Proof.
  unfold hopperEventHandler.
  apply obeys_for_each;
    [apply event_frame_refl | apply event_frame_trans |].
  intros e. eapply obeys_weaken; [| |apply safely_obeys, (hopper_event_safely d e)].
  - auto.
  - apply exit_status_3.
Qed.

Lemma validatorEventHandler_obeys (d : device_ref) (poll : SSP_POLL_DATA6) :
  obeys (event_frame d "validator-event") (fun status => status = 3)
        (validatorEventHandler d poll).
Proof.
  pose proof (event_frame_refl d "validator-event") as Hrefl.
  pose proof (event_frame_trans d "validator-event") as Htrans.
  assert (Hpublish : forall format args,
            obeys (event_frame d "validator-event") (fun status => status = 3)
                  (publishValidatorEvent format args)).
  { intros format args. unfold publishValidatorEvent.
    apply obeys_bind; [assumption|apply obeys_defined; assumption|].
    intros reply. apply safely_obeys, publish_safely. }
  assert (Hexchange : forall call,
            obeys (event_frame d "validator-event") (fun status => status = 3)
                  (exchange d call)).
  { intros call. apply safely_obeys, exchange_safely. }
  unfold validatorEventHandler.
  apply obeys_for_each; [assumption|assumption|].
  intros e. unfold validator_event, channel_amount.
  destruct (event e);
    repeat (frame; try apply Hpublish; try apply Hexchange).
  all: intros w; split; [apply Hrefl | reflexivity].
Qed.

(** One poll of a device, over a library that keeps to the line. *)
Lemma mcSspPollDevice_obeys (d : device_ref) :
  obeys (kept_to_the_line d) never (ssp6_poll d) ->
  (forall k, obeys (kept_to_the_line d) never (ssp6_setup_encryption d k)) ->
  obeys (event_frame d (event_topic d)) (fun status => status = 3) (mcSspPollDevice d).
Proof.
  intros Hpoll Hsetup.
  pose proof (event_frame_refl d (event_topic d)) as Hrefl.
  pose proof (event_frame_trans d (event_topic d)) as Htrans.
  assert (Hpoll' : obeys (event_frame d (event_topic d)) (fun status => status = 3)
                     (ssp6_poll d)).
  { eapply obeys_weaken; [apply kept_to_the_line_frame| |exact Hpoll]. intros s []. }
  assert (Hsetup' : forall k, obeys (event_frame d (event_topic d)) (fun status => status = 3)
                                (ssp6_setup_encryption d k)).
  { intros k. eapply obeys_weaken; [apply kept_to_the_line_frame| |apply Hsetup].
    intros s []. }
  unfold mcSspPollDevice.
  apply obeys_bind; [assumption|assumption|]. intros [resp poll]. cbn [fst snd].
  destruct (negb (is_ok resp)).
  - destruct (response_eqb resp SSP_RESPONSE_TIMEOUT); [apply obeys_ret; assumption|].
    destruct (response_eqb resp SSP_RESPONSE_KEY_NOT_SET); [|apply obeys_ret; assumption].
    apply obeys_bind; [assumption|apply obeys_load; assumption|]. intros dev.
    apply obeys_bind; [assumption|apply Hsetup'|]. intros _. apply obeys_ret; assumption.
  - destruct (0 <? event_count poll); [|apply obeys_ret; assumption].
    destruct d; [apply hopperEventHandler_obeys | apply validatorEventHandler_obeys].
Qed.

(** X17: one round of polling, over a vendor's library whose calls for a
    device exchange with that device and do nothing else.  Without
    hardware the callback does nothing at all.  With hardware it publishes
    events of the hopper and then events of the validator, on the two
    event topics only; it exchanges with the hopper and then with the
    validator; it leaves the cached masks, the signal and the availability
    flag as they were; and it exits the process only with status 3. *)
Theorem poll_reports_hopper_then_validator (w : World) :
  (forall d, obeys (kept_to_the_line d) never (ssp6_poll d)) ->
  (forall d k, obeys (kept_to_the_line d) never (ssp6_setup_encryption d k)) ->
  (deviceAvailable (metacash w) = 0 -> cbOnPollEvent w = Returned tt w)
  /\ match cbOnPollEvent w with
     | Returned _ w' => polled w w'
     | Exited status w' => polled w w' /\ status = 3
     | Undefined => True
     end.
Proof.
  intros Hpoll Hsetup.
  assert (Hnone : polled w w).
  { unfold polled. repeat split.
    - exists [], []. rewrite !app_nil_r. repeat split; constructor.
    - exists [], []. rewrite !app_nil_r. repeat split; constructor. }
  assert (Hfirst : forall w1, event_frame Hopper "hopper-event" w w1 -> polled w w1).
  { intros w1 (((lh & Hr & Hf) & (sh & Hs & Hg) & Ha & Ho & Hq & Hv) & Hm & Hsig).
    unfold polled. repeat split; try assumption; try apply Hm.
    - exists lh, []. rewrite app_nil_r. repeat split; [assumption|assumption|constructor].
    - exists sh, []. rewrite app_nil_r. repeat split; [assumption|assumption|constructor]. }
  assert (Hboth : forall w1 w2,
            event_frame Hopper "hopper-event" w w1 ->
            event_frame Validator "validator-event" w1 w2 -> polled w w2).
  { intros w1 w2 (((lh & Hr & Hf) & (sh & Hs & Hg) & Ha & Ho & Hq & Hv) & Hm & Hsig)
                 (((lv & Hr2 & Hf2) & (sv & Hs2 & Hg2) & Ha2 & Ho2 & Hq2 & Hv2) & Hm2 & Hsig2).
    unfold polled. repeat split.
    - exists lh, lv. rewrite Hr2, Hr, app_assoc. repeat split; assumption.
    - exists sh, sv. rewrite Hs2, Hs, app_assoc. repeat split; [assumption|].
      cbn [other_device] in Ho. unfold address_of in *. cbn [device_of] in *.
      rewrite <- Ho. exact Hg2.
    - destruct Hm, Hm2. congruence.
    - destruct Hm, Hm2. congruence.
    - unfold same_signal in *. congruence.
    - congruence. }
  split.
  - intros Hnot. unfold cbOnPollEvent. cbv [bind get]. rewrite Hnot. reflexivity.
  - unfold cbOnPollEvent. cbv [bind get].
    destruct (deviceAvailable (metacash w) =? 0); [exact Hnone|].
    pose proof (mcSspPollDevice_obeys Hopper (Hpoll Hopper) (Hsetup Hopper) w) as H1.
    cbn [event_topic] in H1.
    destruct (mcSspPollDevice Hopper w) as [[] w1|status w1|]; [| |exact I].
    + pose proof (mcSspPollDevice_obeys Validator (Hpoll Validator) (Hsetup Validator) w1)
        as H2.
      cbn [event_topic] in H2.
      destruct (mcSspPollDevice Validator w1) as [[] w2|status w2|]; [| |exact I].
      * apply (Hboth w1 w2 H1 H2).
      * destruct H2 as [H2 Hs]. split; [apply (Hboth w1 w2 H1 H2) | exact Hs].
    + destruct H1 as [H1 Hs]. split; [apply (Hfirst w1 H1) | exact Hs].
Qed.

End Polling.

(** ** The further properties at work *)

Lemma other_deliveries_are_ignored_witness :
  is_request (arrives "metacash" levitate) = false
  /\ cbOnRequestMessage (L := manual) (arrives "metacash" levitate) (started 1 [])
     = Returned tt (started 1 []).
Proof.
  split; [reflexivity|].
  apply (other_deliveries_are_ignored (L := manual)). reflexivity.
Defined.

Lemma malformed_requests_get_one_error_witness :
  (exists error,
      cbOnRequestMessage (L := manual) (arrives "hopper-request" "{") (started 1 [])
      = Returned tt (after_publish (started 1 []) "hopper-response" (parse_error_reply error)))
  /\ cbOnRequestMessage (L := manual) (arrives "hopper-request" (jq "{`cmd`:`empty`}"))
       (started 1 [])
     = Returned tt (after_publish (started 1 []) "hopper-response"
                      (jq "{`error`:`property 'msgId' missing or not a string`}"))
  /\ cbOnRequestMessage (L := manual) (arrives "hopper-request" (jq "{`msgId`:`A`}"))
       (started 1 [])
     = Returned tt (after_publish (started 1 []) "hopper-response"
                      (error_reply "A" "property 'cmd' missing or not a string")).
Proof.
  split; [|split].
  - destruct (malformed_requests_get_one_error (L := manual)
                "message" "hopper-request" "{" "hopper-response" Hopper (started 1 [])
                eq_refl eq_refl) as (H & _ & _).
    eexists. apply H. vm_compute. reflexivity.
  - destruct (malformed_requests_get_one_error (L := manual)
                "message" "hopper-request" (jq "{`cmd`:`empty`}") "hopper-response" Hopper
                (started 1 []) eq_refl eq_refl) as (_ & H & _).
    eapply H; vm_compute; reflexivity.
  - destruct (malformed_requests_get_one_error (L := manual)
                "message" "hopper-request" (jq "{`msgId`:`A`}") "hopper-response" Hopper
                (started 1 []) eq_refl eq_refl) as (_ & _ & H).
    eapply H; vm_compute; reflexivity.
Defined.

Lemma no_hardware_no_exchange_witness :
  deviceAvailable (metacash (started 0 [Some [240]])) = 0
  /\ exists w',
       cbOnRequestMessage (L := manual) (arrives "hopper-request" empty_compact)
         (started 0 [Some [240]])
       = Returned tt w'
       /\ serial w' = [] /\ hardware w' = [Some [240]]
       /\ metacash w' = metacash (started 0 [Some [240]]).
Proof.
  split; [reflexivity|].
  exact (proj1 (no_hardware_no_exchange (L := manual) (arrives "hopper-request" empty_compact)
                  (started 0 [Some [240]]) eq_refl)).
Defined.

Lemma request_is_served_on_its_device_witness :
  route "validator-request" = Some (Validator, "validator-response")
  /\ match cbOnRequestMessage (L := manual) (arrives "validator-request" enable_135_text)
             (started 1 [Some [240]]) with
     | Returned _ w' => served_on Validator "validator-response" (started 1 [Some [240]]) w'
     | Exited _ _ => False
     | Undefined => True
     end.
Proof.
  split; [reflexivity|].
  exact (request_is_served_on_its_device (L := manual) "message" "validator-request"
           enable_135_text "validator-response" Validator (started 1 [Some [240]]) eq_refl).
Defined.

Lemma only_channel_commands_write_masks_witness :
  exists w',
    cbOnRequestMessage (L := manual) (arrives "validator-request" smart_empty_text)
      (started 1 [Some [240]])
    = Returned tt w'
    /\ same_masks (started 1 [Some [240]]) w'.
Proof.
  eexists. split; [vm_compute; reflexivity|].
  apply (only_channel_commands_write_masks (L := manual) "message" "validator-request"
           smart_empty_text).
  - vm_compute. discriminate.
  - vm_compute. discriminate.
  - vm_compute. reflexivity.
Defined.

Lemma only_quit_raises_the_signal_witness :
  holds_quit (arrives "hopper-request" empty_compact) = false
  /\ exists w',
       cbOnRequestMessage (L := manual) (arrives "hopper-request" empty_compact)
         (started 1 [Some [240]])
       = Returned tt w'
       /\ receivedSignal w' = receivedSignal (started 1 [Some [240]]).
Proof.
  split; [reflexivity|].
  eexists. split; [vm_compute; reflexivity|].
  apply (only_quit_raises_the_signal (L := manual) (arrives "hopper-request" empty_compact)).
  - reflexivity.
  - vm_compute. reflexivity.
Defined.

Lemma quit_stops_the_loop_once_witness :
  exists w' w'',
    cbOnRequestMessage (L := manual) (arrives "hopper-request" quit_text) (started 1 [])
    = Returned tt w'
    /\ receivedSignal w' = 1
    /\ cbOnCheckQuitEvent w' = Returned true w''
    /\ receivedSignal w'' = 0
    /\ cbOnCheckQuitEvent w'' = Returned false w''.
Proof.
  assert (Hrun : exists w',
             cbOnRequestMessage (L := manual) (arrives "hopper-request" quit_text)
               (started 1 [])
             = Returned tt w') by (eexists; vm_compute; reflexivity).
  destruct Hrun as [w' Hrun].
  destruct (quit_stops_the_loop_once (L := manual)
              "message" "hopper-request" "hopper-response" quit_text "Q" "quit" Hopper
              (JSON_OBJECT [("msgId", JSON_STRING "Q"); ("cmd", JSON_STRING "quit")])
              (started 1 []) w' eq_refl eq_refl eq_refl eq_refl eq_refl eq_refl Hrun)
    as (Hone & w'' & Hcheck & Hzero & _ & _ & _ & Hagain).
  exists w', w''. repeat split; assumption.
Defined.

Lemma payout_and_float_requests_are_undefined_witness :
  dispatch payout_10_text = to_handlePayout
  /\ cbOnRequestMessage (L := manual) (arrives "hopper-request" payout_10_text)
       (started 1 [Some [240]])
     = Undefined.
Proof.
  assert (Havailable : deviceAvailable (metacash (started 1 [Some [240]])) <> 0)
    by (cbn; discriminate).
  split; [reflexivity|].
  exact (payout_and_float_requests_are_undefined (L := manual)
           "message" "hopper-request" payout_10_text "hopper-response" "P" "do-payout" Hopper
           (JSON_OBJECT [("msgId", JSON_STRING "P"); ("cmd", JSON_STRING "do-payout");
                         ("amount", JSON_INTEGER 1000)])
           (started 1 [Some [240]])
           eq_refl eq_refl eq_refl eq_refl eq_refl (or_introl eq_refl) Havailable).
Defined.

Lemma missing_parameter_is_refused_witness :
  json_is_string (json_object_get (jsonMessage enable_none) "channels") = false
  /\ handleEnableChannels enable_none (started 1 [Some [240]])
     = Returned tt (after_publish (started 1 [Some [240]]) "validator-response"
                      (error_reply "R" "property 'channels' missing or not a string")).
Proof.
  split; [reflexivity|].
  exact (proj1 (missing_parameter_is_refused enable_none (started 1 [Some [240]]) eq_refl)).
Defined.

Lemma set_denomination_level_exchanges_witness :
  exists w',
    handleSetDenominationLevels set_level_200 (started 1 [Some [240]; Some [245]])
    = Returned tt w'
    /\ serial w' = [(16, send_ssp_command (denomination_bytes 0 200));
                    (16, send_ssp_command (denomination_bytes 5 200))]
    /\ redis w' = [("hopper-response", result_reply "R" "S" "failed")]
    /\ same_masks (started 1 [Some [240]; Some [245]]) w'.
Proof.
  exact (set_denomination_level_exchanges set_level_200 (started 1 [Some [240]; Some [245]])
           200 5 eq_refl eq_refl).
Defined.

Lemma little_endian_round_trip_witness :
  - 2 ^ 31 <= 70000 < 2 ^ 31
  /\ accumulate (little_endian 4 70000) 0 0 = 70000
  /\ accumulate (little_endian 2 70000) 0 0 = 70000 mod 65536.
Proof.
  split; [lia|]. apply little_endian_round_trip. lia.
Defined.

Lemma get_all_levels_lists_the_counters_witness :
  forallb counter_ok two_counters = true
  /\ exists w',
       handleGetAllLevels get_levels (started 1 [Some (levels_response 240 two_counters [])])
       = Returned tt w'
       /\ redis w' = [("hopper-response", levels_reply "L" two_counters)]
       /\ serial w' = [(16, send_ssp_command [SSP_CMD_GET_ALL_LEVELS])]
       /\ hardware w' = [].
Proof.
  split; [reflexivity|].
  apply (get_all_levels_lists_the_counters get_levels
           (started 1 [Some (levels_response 240 two_counters [])]) 240 two_counters [] []).
  - reflexivity.
  - cbn. lia.
  - reflexivity.
Defined.

Lemma validator_events_are_handled_safely_witness :
  match validatorEventHandler (L := manual) Validator note_events (started 1 []) with
  | Returned _ w' => event_frame Validator "validator-event" (started 1 []) w'
  | Exited status w' =>
      event_frame Validator "validator-event" (started 1 []) w'
      /\ status = 3 /\ reset_in note_events
  | Undefined => False
  end.
Proof.
  apply (validator_events_are_handled_safely (L := manual) Validator note_events (started 1 [])).
  intros e [<-|[<-|[]]] H; [discriminate H | reflexivity].
Defined.

Lemma quiet_hopper_events_give_one_message_each_witness :
  forallb is_quiet (events coin_events) = true
  /\ forall d w,
       hopperEventHandler (L := manual) d coin_events w
       = Returned tt (after_publishing w "hopper-event"
                        [jq "{`event`:`dispensing`,`amount`:500}";
                         jq "{`event`:`coin credit`,`amount`:100,`cc`:`EUR`}"]).
Proof.
  split; [reflexivity|].
  destruct (quiet_hopper_events_give_one_message_each (L := manual))
    as (payload_of & Hbatch & Hdispensing & Hcoin).
  intros d w. rewrite (Hbatch coin_events eq_refl d w).
  cbn [events coin_events map]. rewrite Hdispensing, Hcoin. reflexivity.
Defined.

Lemma exchange_kept (d : device_ref) (call : ssp_call) :
  obeys (kept_to_the_line d) never (exchange d call).
Proof.
  intros w.
  destruct (exchange_effect d call w) as (w1 & Hex & Hredis & _).
  pose proof (exchange_served d EmptyString call w) as H1.
  pose proof (exchange_same_masks d call w) as H2.
  pose proof (exchange_same_signal d call w) as H3.
  rewrite Hex in *.
  split; [exact Hredis | split; [exact H1 | split; [exact H2 | exact H3]]].
Qed.

Lemma example_poll_kept (d : device_ref) :
  obeys (kept_to_the_line d) never (example_poll d).
Proof.
  intros w. pose proof (exchange_kept d (send_ssp_command [7]) w) as H.
  unfold example_poll. cbv [bind get ret].
  destruct (exchange d (send_ssp_command [7]) w); exact H.
Qed.

Lemma example_setup_encryption_kept (d : device_ref) (k : Z) :
  obeys (kept_to_the_line d) never (example_setup_encryption d k).
Proof. apply exchange_kept. Qed.

Lemma poll_reports_hopper_then_validator_witness :
  match cbOnPollEvent (L := manual) (V := example_vendor)
          (started 1 [Some [240; 200]; Some [240]]) with
  | Returned _ w' => polled (started 1 [Some [240; 200]; Some [240]]) w'
  | Exited status w' => polled (started 1 [Some [240; 200]; Some [240]]) w' /\ status = 3
  | Undefined => True
  end.
Proof.
  exact (proj2 (poll_reports_hopper_then_validator (L := manual) (V := example_vendor)
                  (started 1 [Some [240; 200]; Some [240]])
                  example_poll_kept example_setup_encryption_kept)).
Defined.
